(** * Nimo live nudges: the coaching agent of [server.js]

    A shallow embedding of the session agent ([AIAgent]), its two channel
    managers ([SlackThreadManager], [SMSManager]), the direct-message helper
    [sendPrivateChatMessage] and the webhook / stop routes, followed by the
    properties of batching, dispatch and session end.

    JavaScript runs every piece of code between two suspension points
    ([await] on a network call) without interruption.  Each [async] function
    is therefore split where it suspends: the function of the same name is
    the part that runs when it is called, up to the network call it issues;
    the part that runs when that call settles is the [_settled] companion.
    The outputs of a step list, in program order, the network calls issued
    and the console lines that the properties refer to.  Rendering of
    payloads into text, blocks and emoji is presentation and kept as data:
    a payload is the tuple of values the template is filled with. *)

From Stdlib Require Import ZArith String DecimalString Bool List Lia.
From stdpp Require Import gmap strings list.
Import ListNotations.

Open Scope Z_scope.
Open Scope nat_scope.
Open Scope string_scope.
Open Scope list_scope.

(** ** JavaScript values that the code tests for truthiness *)

Inductive jsval :=
| JNull
| JUndefined
| JNum (n : Z)
| JStr (s : string).

Definition truthy (v : jsval) : bool :=
  match v with
  | JNull | JUndefined => false
  | JNum n => negb (n =? 0)%Z
  | JStr s => negb (String.eqb s "")
  end.

(** A number is given by an integer: [JNum n] is the double nearest to
    [n], ties to even, as a number literal and [JSON.parse] give it; the
    integers below [2^53] in magnitude are doubles.  Numbers with a
    fractional part are left out. *)
Definition to_double (n : Z) : Z :=
  let a := Z.abs n in
  let e := (Z.log2 a - 52)%Z in
  if (e <=? 0)%Z then n
  else
    let q := Z.shiftr a e in
    let r := (a - Z.shiftl q e)%Z in
    let half := Z.shiftl 1 (e - 1) in
    let q' := if (r <? half)%Z then q
              else if (half <? r)%Z then (q + 1)%Z
                   else if Z.even q then q else (q + 1)%Z in
    (Z.sgn n * Z.shiftl q' e)%Z.

(** [Number::toString] prints the decimal with the fewest significant
    digits that reads back as the same double and, among those, the one
    nearest to it.  [shortest_at x m] is that decimal among the multiples of
    [10^m], if there is one. *)
Definition shortest_at (x : Z) (m : nat) : option Z :=
  let p := (10 ^ Z.of_nat m)%Z in
  let lo := (x / p * p)%Z in
  let hi := (lo + p)%Z in
  let reads_back v := (0 <? v)%Z && (to_double v =? x)%Z in
  match reads_back lo, reads_back hi with
  | true, true =>
      if (x - lo <? hi - x)%Z then Some lo
      else if (hi - x <? x - lo)%Z then Some hi
           else if Z.even (lo / p) then Some lo else Some hi
  | true, false => Some lo
  | false, true => Some hi
  | false, false => None
  end.

(** The first hit from [10^m] downwards: the most trailing zeros. *)
Fixpoint shortest (x : Z) (m : nat) : Z :=
  match m with
  | O => x
  | S m' =>
      match shortest_at x m with
      | Some v => v
      | None => shortest x m'
      end
  end.

Definition digits (v : Z) : string := NilZero.string_of_int (Z.to_int v).

Fixpoint strip_zeros (s : string) : string :=
  match s with
  | EmptyString => EmptyString
  | String c s' =>
      match strip_zeros s' with
      | EmptyString =>
          if Ascii.eqb c (Ascii.ascii_of_nat 48) then EmptyString
          else String c EmptyString
      | t => String c t
      end
  end.

(** [d.ddde+n], for a number of more than 21 digits *)
Definition exponent_form (v : Z) : string :=
  let n := digits (Z.of_nat (String.length (digits v)) - 1) in
  match strip_zeros (digits v) with
  | EmptyString => EmptyString
  | String d EmptyString => String d EmptyString +:+ "e+" +:+ n
  | String d rest => String d EmptyString +:+ "." +:+ rest +:+ "e+" +:+ n
  end.

(** [String(x)] for a double with an integer value; from [2^1024] on the
    double is [Infinity]. *)
Definition number_toString (x : Z) : string :=
  if (x =? 0)%Z then "0"
  else
    let a := Z.abs x in
    let sign := if (x <? 0)%Z then "-" else "" in
    if (2 ^ 1024 <=? a)%Z then sign +:+ "Infinity"
    else
      let v := shortest a (Z.to_nat (Z.log2 a)) in
      sign +:+ (if (String.length (digits v) <=? 21)%nat then digits v
                else exponent_form v).

(** [String(v)] *)
Definition String_ (v : jsval) : string :=
  match v with
  | JNull => "null"
  | JUndefined => "undefined"
  | JNum n => number_toString (to_double n)
  | JStr s => s
  end.

(** [x || d] for an optional string [x] *)
Definition or_default (x : option string) (d : string) : string :=
  match x with
  | Some s => if String.eqb s "" then d else s
  | None => d
  end.

(** [s.includes(sub)] *)
Fixpoint str_includes (sub s : string) : bool :=
  String.prefix sub s ||
  match s with
  | EmptyString => false
  | String _ s' => str_includes sub s'
  end.

(** [l.includes(x)] on an array of strings *)
Definition includes (x : string) (l : list string) : bool :=
  existsb (String.eqb x) l.

(** [Math.round(ms / 60000)]: rounds half up *)
Definition minutes (ms : Z) : Z := ((ms + 30000) / 60000)%Z.

(** ** Module-level configuration of [server.js] *)

Record Config := {
  INTEGRATION_MODES : list string;
  SLACK_CHANNEL_ID : string;
  (** [process.env.TWILIO_ACCOUNT_SID && process.env.TWILIO_AUTH_TOKEN] *)
  TWILIO_CREDENTIALS : bool;
  TWILIO_MESSAGING_SERVICE_SID : string;
  WEBHOOK_SECRET : string
}.

(** [slackClient] is non-null exactly when SLACK is an integration mode. *)
Definition slackClient (cfg : Config) : bool :=
  includes "SLACK" (INTEGRATION_MODES cfg).

Definition twilioClient (cfg : Config) : bool :=
  includes "SMS" (INTEGRATION_MODES cfg) && TWILIO_CREDENTIALS cfg.

(** ** Payloads, network calls and console lines *)

Module SessionInfo.
Record t := {
  memberName : string;
  meetingTitle : string;
  platform : string;
  botType : string;
  startTime : Z
}.
End SessionInfo.

Module CoachingData.
Record t := {
  timestamp : Z;
  reason : string;
  message : string;
  batchNumber : nat;
  messagesAnalyzed : nat
}.
End CoachingData.

(** What [slackClient.chat.postMessage] is asked to post. *)
Inductive slack_message :=
| SlackSessionStarted (info : SessionInfo.t)
| SlackNudge (thread_ts : jsval) (n : nat) (d : CoachingData.t)
| SlackSessionEnded (thread_ts : jsval) (duration : Z) (endTime : Z) (totalNudges : nat).

(** The body of a text message. *)
Inductive sms_body :=
| SmsSessionStarted (info : SessionInfo.t)
| SmsNudge (n : nat) (d : CoachingData.t)
| SmsSessionEnded (duration : Z) (totalNudges : nat) (endTime : Z).

Inductive call :=
| chat_sendMessage (batch : nat) (batchMessage : string)
| slack_postMessage (channel : string) (msg : slack_message)
| twilio_create (messagingServiceSid : string) (body : sms_body) (to : string)
| recall_send_chat_message (botId : string) (to : option string) (message : string)
| recall_delete_bot (botId : string).

Inductive console :=
| err_no_active_slack_thread
| err_no_active_slack_thread_to_end
| log_slack_thread_created (ts : jsval)
| err_creating_slack_thread
| log_slack_nudge_sent (n : nat)
| err_slack_coaching_reply
| log_slack_thread_ended
| err_ending_slack_thread
| log_sms_not_configured
| log_sms_not_active
| log_sms_no_active_session
| log_sms_sent (to : string)
| err_sms_failed (to : string)
| log_sms_start_sent_all
| err_sms_start
| log_sms_nudge_sent_all (n : nat)
| err_sms_nudge
| log_sms_session_ended
| err_sms_end
| log_chat_delivered
| err_chat_failed
| log_buffered (bufferLength batchSize : nat)
| log_analyzing (batch : nat) (bufferLength : nat)
| log_sending_coaching (name : option string)
| log_no_sales_rep
| log_coaching_sent (platforms : nat)
| log_coaching_delivered
| log_thinking
| log_monitoring
| err_batch_analysis
| log_flushing (remaining : nat)
| log_ended_sessions (platforms : nat)
| log_no_session (botId : option string)
| log_bot_stopped (botId : string).

Inductive response :=
| res_200_OK
| res_401_Unauthorized
| res_success
| res_500.

Inductive output :=
| Call (c : call)
| Log (l : console)
| Respond (r : response)
| Resolved_flushBuffer (flush : nat).

Definition is_call (o : output) : bool :=
  match o with Call _ => true | _ => false end.

Definition calls (os : list output) : list call :=
  omap (fun o => match o with Call c => Some c | _ => None end) os.

Definition has_call (os : list output) : bool := existsb is_call os.

(** ** class SlackThreadManager *)

Module SlackThreadManager.

Record t := {
  channelId : string;
  threadTs : jsval;
  nudgeCount : nat;
  sessionStartTime : option Z
}.

Definition constructor (channelId : string) : t :=
  {| channelId := channelId; threadTs := JNull; nudgeCount := 0;
     sessionStartTime := None |}.

(** Runs when called: stamps the start time and posts the parent message. *)
Definition startSessionThread (now : Z) (info : SessionInfo.t) (m : t)
  : t * list output :=
  ({| channelId := channelId m; threadTs := threadTs m;
      nudgeCount := nudgeCount m; sessionStartTime := Some now |},
   [Call (slack_postMessage (channelId m) (SlackSessionStarted info))]).

(** Runs when the parent post settles: [Some ts] is [response.ts], [None]
    a rejection, which the function logs and rethrows. *)
Definition startSessionThread_settled (r : option jsval) (m : t)
  : t * list output :=
  match r with
  | Some ts =>
      ({| channelId := channelId m; threadTs := ts;
          nudgeCount := nudgeCount m;
          sessionStartTime := sessionStartTime m |},
       [Log (log_slack_thread_created ts)])
  | None => (m, [Log err_creating_slack_thread])
  end.

Definition sendCoachingReply (d : CoachingData.t) (m : t) : t * list output :=
  if negb (truthy (threadTs m)) then (m, [Log err_no_active_slack_thread])
  else
    let n := S (nudgeCount m) in
    ({| channelId := channelId m; threadTs := threadTs m; nudgeCount := n;
        sessionStartTime := sessionStartTime m |},
     [Call (slack_postMessage (channelId m) (SlackNudge (threadTs m) n d))]).

(** The reply post settles: only a console line either way. *)
Definition sendCoachingReply_settled (ok : bool) (m : t) : list output :=
  if ok then [Log (log_slack_nudge_sent (nudgeCount m))]
  else [Log err_slack_coaching_reply].

(** [Date.now() - this.sessionStartTime]; a [null] start time counts as 0. *)
Definition elapsed (now : Z) (start : option Z) : Z :=
  (now - match start with Some s => s | None => 0 end)%Z.

Definition endSessionThread (now : Z) (m : t) : t * list output :=
  if negb (truthy (threadTs m)) then
    (m, [Log err_no_active_slack_thread_to_end])
  else
    let duration := minutes (elapsed now (sessionStartTime m)) in
    (m, [Call (slack_postMessage (channelId m)
                 (SlackSessionEnded (threadTs m) duration now (nudgeCount m)))]).

(** The summary post settles: on success the thread and the counter are
    reset, on failure nothing changes. *)
Definition endSessionThread_settled (ok : bool) (m : t) : t * list output :=
  if ok then
    ({| channelId := channelId m; threadTs := JNull; nudgeCount := 0;
        sessionStartTime := sessionStartTime m |},
     [Log log_slack_thread_ended])
  else (m, [Log err_ending_slack_thread]).

End SlackThreadManager.

(** ** [Promise.all] over a list of calls in flight

    [open] lists the positions whose call has not settled; [live] tells
    whether the combined promise is still pending.  It rejects with the first
    rejection and resolves once every call has resolved; calls that settle
    after a rejection no longer reach it. *)

Module PromiseAll.

Record t := { open : list nat; live : bool }.

Definition start (n : nat) : t := {| open := seq 0 n; live := true |}.

Definition remove (i : nat) (l : list nat) : list nat :=
  filter (fun j => negb (Nat.eqb j i)) l.

(** The call at position [i] settles.  The second component is the
    settlement of the combined promise, if it settles now. *)
Definition settle (i : nat) (ok : bool) (p : t) : option (t * option bool) :=
  if existsb (Nat.eqb i) (open p) then
    let rest := remove i (open p) in
    if live p then
      if negb ok then Some ({| open := rest; live := false |}, Some false)
      else if (Nat.eqb (length rest) 0) then
             Some ({| open := rest; live := false |}, Some true)
           else Some ({| open := rest; live := true |}, None)
    else Some ({| open := rest; live := false |}, None)
  else None.

End PromiseAll.

(** ** class SMSManager *)

Module SMSManager.

Record t := {
  phoneNumbers : list string;
  messagingServiceSid : string;
  nudgeCount : nat;
  sessionStartTime : Z;
  sessionActive : bool
}.

Definition constructor (now : Z) (phoneNumbers : list string)
    (messagingServiceSid : string) : t :=
  {| phoneNumbers := phoneNumbers; messagingServiceSid := messagingServiceSid;
     nudgeCount := 0; sessionStartTime := now; sessionActive := false |}.

(** [sendSMS] up to its network call. *)
Definition sendSMS (m : t) (phoneNumber : string) (message : sms_body) : output :=
  Call (twilio_create (messagingServiceSid m) message phoneNumber).

(** [sendSMS] when that call settles; a failure is logged and rethrown. *)
Definition sendSMS_settled (phoneNumber : string) (ok : bool) : output :=
  if ok then Log (log_sms_sent phoneNumber)
  else Log (err_sms_failed phoneNumber).

(** [this.phoneNumbers.map(phoneNumber => this.sendSMS(phoneNumber, text))] *)
Definition sendAll (m : t) (text : sms_body) : list output :=
  map (fun phoneNumber => sendSMS m phoneNumber text) (phoneNumbers m).

Definition startSession (cfg : Config) (info : SessionInfo.t) (m : t)
  : t * list output :=
  if negb (twilioClient cfg) || (Nat.eqb (length (phoneNumbers m)) 0) then
    (m, [Log log_sms_not_configured])
  else
    let m' := {| phoneNumbers := phoneNumbers m;
                 messagingServiceSid := messagingServiceSid m;
                 nudgeCount := nudgeCount m;
                 sessionStartTime := sessionStartTime m;
                 sessionActive := true |} in
    (m', sendAll m' (SmsSessionStarted info)).

(** [await Promise.all(sendPromises)] of [startSession] settles. *)
Definition startSession_settled (ok : bool) : list output :=
  if ok then [Log log_sms_start_sent_all] else [Log err_sms_start].

Definition sendCoachingNudge (cfg : Config) (d : CoachingData.t) (m : t)
  : t * list output :=
  if negb (twilioClient cfg) || (Nat.eqb (length (phoneNumbers m)) 0)
     || negb (sessionActive m) then
    (m, [Log log_sms_not_active])
  else
    let n := S (nudgeCount m) in
    let m' := {| phoneNumbers := phoneNumbers m;
                 messagingServiceSid := messagingServiceSid m;
                 nudgeCount := n;
                 sessionStartTime := sessionStartTime m;
                 sessionActive := sessionActive m |} in
    (m', sendAll m' (SmsNudge n d)).

(** [await Promise.all(sendPromises)] of [sendCoachingNudge] settles:
    either the all-sent line or the error line of the [catch]. *)
Definition sendCoachingNudge_settled (ok : bool) (m : t) : list output :=
  if ok then [Log (log_sms_nudge_sent_all (nudgeCount m))]
  else [Log err_sms_nudge].

Definition endSession (cfg : Config) (now : Z) (m : t) : t * list output :=
  if negb (twilioClient cfg) || (Nat.eqb (length (phoneNumbers m)) 0)
     || negb (sessionActive m) then
    (m, [Log log_sms_no_active_session])
  else
    let duration := minutes (now - sessionStartTime m) in
    (m, sendAll m (SmsSessionEnded duration (nudgeCount m) now)).

(** [await Promise.all(sendPromises)] of [endSession] settles. *)
Definition endSession_settled (ok : bool) (m : t) : t * list output :=
  if ok then
    ({| phoneNumbers := phoneNumbers m;
        messagingServiceSid := messagingServiceSid m;
        nudgeCount := 0;
        sessionStartTime := sessionStartTime m;
        sessionActive := false |},
     [Log log_sms_session_ended])
  else (m, [Log err_sms_end]).

End SMSManager.

(** ** [sendPrivateChatMessage] *)

(** Up to its [fetch]: the request carries [to] only for a truthy
    participant id. *)
Definition sendPrivateChatMessage (botId : string) (participantId : jsval)
    (message : string) : list output :=
  [Call (recall_send_chat_message botId
           (if truthy participantId then Some (String_ participantId) else None)
           message)].

(** How the [fetch] of [sendPrivateChatMessage] ends: a response that is
    [ok], one that is not, or an exception.  The function returns [true]
    only in the first case and never throws. *)
Inductive fetch_result := fetch_ok | fetch_not_ok | fetch_throws.

Definition sendPrivateChatMessage_settled (r : fetch_result) : bool * list output :=
  match r with
  | fetch_ok => (true, [Log log_chat_delivered])
  | fetch_not_ok | fetch_throws => (false, [Log err_chat_failed])
  end.

(** ** What the reasoning engine answers *)

Module FunctionCall.
Record args := {
  participant_id : jsval;
  participant_name : option string;
  message : string;
  reason : string
}.
End FunctionCall.

(** How [await this.chat.sendMessage(batchMessage)] and the reading of its
    response end: an exception (a rejected call, or a response that cannot be
    read), a function call, or plain text. *)
Inductive chat_result :=
| chat_throws
| chat_functionCall (name : string) (args : FunctionCall.args)
| chat_text (text : string).

Definition newline : string := String (Ascii.ascii_of_nat 10) EmptyString.

(** ** class AIAgent *)

Module AIAgent.

Record entry := {
  role : string;
  speaker : string;
  text : string;
  timestamp : Z
}.

(** The fields the methods below read or write ([questionsAsked], [model]
    and [chat] are handles that no method here inspects; [teamsThread] is
    never assigned, so its branches are never taken). *)
Record t := {
  botId : string;
  meetingUrl : string;
  phoneNumbers : list string;
  conversationHistory : list entry;
  interviewerId : jsval;
  interviewerName : option string;
  lastCoachingTime : option Z;
  transcriptBuffer : list string;
  batchSize : nat;
  batchCount : nat;
  slackThread : option SlackThreadManager.t;
  smsManager : option SMSManager.t
}.

Definition with_interviewer (id : jsval) (name : option string) (a : t) : t :=
  {| botId := botId a; meetingUrl := meetingUrl a;
     phoneNumbers := phoneNumbers a;
     conversationHistory := conversationHistory a;
     interviewerId := id; interviewerName := name;
     lastCoachingTime := lastCoachingTime a;
     transcriptBuffer := transcriptBuffer a;
     batchSize := batchSize a; batchCount := batchCount a;
     slackThread := slackThread a; smsManager := smsManager a |}.

Definition with_history (h : list entry) (a : t) : t :=
  {| botId := botId a; meetingUrl := meetingUrl a;
     phoneNumbers := phoneNumbers a;
     conversationHistory := h;
     interviewerId := interviewerId a; interviewerName := interviewerName a;
     lastCoachingTime := lastCoachingTime a;
     transcriptBuffer := transcriptBuffer a;
     batchSize := batchSize a; batchCount := batchCount a;
     slackThread := slackThread a; smsManager := smsManager a |}.

Definition with_lastCoachingTime (x : option Z) (a : t) : t :=
  {| botId := botId a; meetingUrl := meetingUrl a;
     phoneNumbers := phoneNumbers a;
     conversationHistory := conversationHistory a;
     interviewerId := interviewerId a; interviewerName := interviewerName a;
     lastCoachingTime := x;
     transcriptBuffer := transcriptBuffer a;
     batchSize := batchSize a; batchCount := batchCount a;
     slackThread := slackThread a; smsManager := smsManager a |}.

Definition with_buffer (b : list string) (a : t) : t :=
  {| botId := botId a; meetingUrl := meetingUrl a;
     phoneNumbers := phoneNumbers a;
     conversationHistory := conversationHistory a;
     interviewerId := interviewerId a; interviewerName := interviewerName a;
     lastCoachingTime := lastCoachingTime a;
     transcriptBuffer := b;
     batchSize := batchSize a; batchCount := batchCount a;
     slackThread := slackThread a; smsManager := smsManager a |}.

Definition with_batchCount (n : nat) (a : t) : t :=
  {| botId := botId a; meetingUrl := meetingUrl a;
     phoneNumbers := phoneNumbers a;
     conversationHistory := conversationHistory a;
     interviewerId := interviewerId a; interviewerName := interviewerName a;
     lastCoachingTime := lastCoachingTime a;
     transcriptBuffer := transcriptBuffer a;
     batchSize := batchSize a; batchCount := n;
     slackThread := slackThread a; smsManager := smsManager a |}.

Definition with_slackThread (s : option SlackThreadManager.t) (a : t) : t :=
  {| botId := botId a; meetingUrl := meetingUrl a;
     phoneNumbers := phoneNumbers a;
     conversationHistory := conversationHistory a;
     interviewerId := interviewerId a; interviewerName := interviewerName a;
     lastCoachingTime := lastCoachingTime a;
     transcriptBuffer := transcriptBuffer a;
     batchSize := batchSize a; batchCount := batchCount a;
     slackThread := s; smsManager := smsManager a |}.

Definition with_smsManager (s : option SMSManager.t) (a : t) : t :=
  {| botId := botId a; meetingUrl := meetingUrl a;
     phoneNumbers := phoneNumbers a;
     conversationHistory := conversationHistory a;
     interviewerId := interviewerId a; interviewerName := interviewerName a;
     lastCoachingTime := lastCoachingTime a;
     transcriptBuffer := transcriptBuffer a;
     batchSize := batchSize a; batchCount := batchCount a;
     slackThread := slackThread a; smsManager := s |}.

Definition constructor (cfg : Config) (now : Z) (botId meetingUrl : string)
    (phoneNumbers : list string) : t :=
  {| botId := botId; meetingUrl := meetingUrl; phoneNumbers := phoneNumbers;
     conversationHistory := [];
     interviewerId := JNull; interviewerName := None;
     lastCoachingTime := None;
     transcriptBuffer := [];
     batchSize := 6; batchCount := 0;
     slackThread :=
       if includes "SLACK" (INTEGRATION_MODES cfg) && slackClient cfg
       then Some (SlackThreadManager.constructor (SLACK_CHANNEL_ID cfg))
       else None;
     smsManager :=
       if includes "SMS" (INTEGRATION_MODES cfg) && twilioClient cfg
          && (0 <? length phoneNumbers)%nat
       then Some (SMSManager.constructor now phoneNumbers
                    (TWILIO_MESSAGING_SERVICE_SID cfg))
       else None |}.

Definition extractMeetingTitle (url : string) : string :=
  if str_includes "zoom.us" url then "Zoom Sales Call"
  else if str_includes "meet.google.com" url then "Google Meet Sales Call"
  else if str_includes "teams.microsoft.com" url then "Teams Sales Call"
  else "Sales Call".

Definition detectPlatform (url : string) : string :=
  if str_includes "zoom.us" url then "Zoom"
  else if str_includes "meet.google.com" url then "Google Meet"
  else if str_includes "teams.microsoft.com" url then "Microsoft Teams"
  else "Unknown Platform".

(** The session description both managers are started with. *)
Definition sessionInfo (now : Z) (memberName : option string) (a : t)
  : SessionInfo.t :=
  {| SessionInfo.memberName := or_default memberName "Sales Rep";
     SessionInfo.meetingTitle := extractMeetingTitle (meetingUrl a);
     SessionInfo.platform := detectPlatform (meetingUrl a);
     SessionInfo.botType := "Sales Coach";
     SessionInfo.startTime := now |}.

Definition initializeSlackThread (now : Z) (memberName : option string) (a : t)
  : t * list output :=
  match slackThread a with
  | Some s =>
      if negb (truthy (SlackThreadManager.threadTs s)) then
        let '(s', o) :=
          SlackThreadManager.startSessionThread now
            (sessionInfo now memberName a) s in
        (with_slackThread (Some s') a, o)
      else (a, [])
  | None => (a, [])
  end.

(** The parent post of [startSessionThread] settles. *)
Definition initializeSlackThread_settled (r : option jsval) (a : t)
  : t * list output :=
  match slackThread a with
  | Some s =>
      let '(s', o) := SlackThreadManager.startSessionThread_settled r s in
      (with_slackThread (Some s') a, o)
  | None => (a, [])
  end.

(** No [await] inside: the whole body runs when called.  The two session
    starts are launched and not waited for. *)
Definition setInterviewer (cfg : Config) (now : Z) (name : option string)
    (id : jsval) (a : t) : t * list output :=
  if negb (truthy (interviewerId a)) then
    let a1 := with_interviewer id name a in
    let '(a2, o1) :=
      if includes "SLACK" (INTEGRATION_MODES cfg)
         && bool_decide (is_Some (slackThread a1))
      then initializeSlackThread now name a1
      else (a1, []) in
    let '(a3, o2) :=
      match smsManager a2 with
      | Some m =>
          if includes "SMS" (INTEGRATION_MODES cfg) then
            let '(m', o) :=
              SMSManager.startSession cfg (sessionInfo now name a2) m in
            (with_smsManager (Some m') a2, o)
          else (a2, [])
      | None => (a2, [])
      end in
    (a3, o1 ++ o2)
  else (a, []).

(** [analyzeBatch] up to [await this.chat.sendMessage(batchMessage)]: the
    batch is numbered, joined and the buffer emptied before the call. *)
Definition analyzeBatch (a : t) : t * list output :=
  if Nat.eqb (length (transcriptBuffer a)) 0 then (a, [])
  else
    let n := S (batchCount a) in
    let batchMessage := String.concat newline (transcriptBuffer a) in
    (with_buffer [] (with_batchCount n a),
     [Call (chat_sendMessage n batchMessage)]).

Definition role_of (isHost : bool) : string :=
  if isHost then "SALES REP" else "PROSPECT".

(** The line pushed on the buffer for one transcript. *)
Definition line (isHost : bool) (speaker text : string) : string :=
  "[" +:+ role_of isHost +:+ " - " +:+ speaker +:+ "]: " +:+ text.

(** [processTranscript] up to [await this.analyzeBatch()]; nothing follows
    that [await]. *)
Definition processTranscript (cfg : Config) (now : Z) (speaker : string)
    (participantId : jsval) (isHost : bool) (text : string) (a : t)
  : t * list output :=
  let '(a1, o1) :=
    if isHost && negb (truthy (interviewerId a))
    then setInterviewer cfg now (Some speaker) participantId a
    else (a, []) in
  let transcriptEntry :=
    {| role := role_of isHost; speaker := speaker; text := text;
       timestamp := now |} in
  let a2 := with_history (conversationHistory a1 ++ [transcriptEntry]) a1 in
  let a3 := with_buffer (transcriptBuffer a2 ++ [line isHost speaker text]) a2 in
  let bufferLength := length (transcriptBuffer a3) in
  if (batchSize a3 <=? bufferLength)%nat then
    let '(a4, o2) := analyzeBatch a3 in
    (a4, o1 ++ Log (log_buffered bufferLength (batchSize a3))
            :: Log (log_analyzing (S (batchCount a3)) bufferLength) :: o2)
  else (a3, o1 ++ [Log (log_buffered bufferLength (batchSize a3))]).

(** The entries of [sendPromises], per channel: [None] when the channel's
    branch is skipped, otherwise what its send did when called. *)
Record sent := {
  slack : option (list output);
  zoom : option (list output);
  sms : option (list output)
}.

Definition sent_outputs (s : sent) : list output :=
  default [] (slack s) ++ default [] (zoom s) ++ default [] (sms s).

(** [sendPromises.length] *)
Definition platforms (s : sent) : nat :=
  length (option_list (slack s)) + length (option_list (zoom s))
  + length (option_list (sms s)).

(** The data handed to the Slack and SMS managers for one nudge. *)
Definition coachingData (now : Z) (message reason : string) (a : t)
  : CoachingData.t :=
  {| CoachingData.timestamp := now;
     CoachingData.reason := reason;
     CoachingData.message := message;
     CoachingData.batchNumber := batchCount a;
     CoachingData.messagesAnalyzed := 6 |}.

(** "Send to Slack if enabled" *)
Definition toSlack (cfg : Config) (d : CoachingData.t) (a : t)
  : t * option (list output) :=
  match slackThread a with
  | Some s =>
      if includes "SLACK" (INTEGRATION_MODES cfg) then
        let '(s', o) := SlackThreadManager.sendCoachingReply d s in
        (with_slackThread (Some s') a, Some o)
      else (a, None)
  | None => (a, None)
  end.

(** "Send to Zoom DM if enabled" *)
Definition toZoom (cfg : Config) (message : string) (a : t)
  : option (list output) :=
  if includes "ZOOM_DM" (INTEGRATION_MODES cfg)
  then Some (sendPrivateChatMessage (botId a) (interviewerId a) message)
  else None.

(** "Send to SMS if enabled" *)
Definition toSMS (cfg : Config) (d : CoachingData.t) (a : t)
  : t * option (list output) :=
  match smsManager a with
  | Some m =>
      if includes "SMS" (INTEGRATION_MODES cfg) then
        let '(m', o) := SMSManager.sendCoachingNudge cfg d m in
        (with_smsManager (Some m') a, Some o)
      else (a, None)
  | None => (a, None)
  end.

(** The body of [if (this.interviewerId) { ... }] up to
    [await Promise.all(sendPromises)]. *)
Definition sendToAll (cfg : Config) (now : Z) (message reason : string) (a : t)
  : t * sent :=
  let a0 := with_lastCoachingTime (Some now) a in
  let d := coachingData now message reason a0 in
  let r1 := toSlack cfg d a0 in
  let o2 := toZoom cfg message (fst r1) in
  let r3 := toSMS cfg d (fst r1) in
  (fst r3, {| slack := snd r1; zoom := o2; sms := snd r3 |}).

(** [analyzeBatch] from the moment the chat call settles up to
    [await Promise.all(sendPromises)], or to its end when that line is not
    reached.  The third component is [Some] in the first case. *)
Definition analyzeBatch_settled (cfg : Config) (now : Z) (r : chat_result)
    (a : t) : t * list output * option sent :=
  match r with
  | chat_throws => (with_buffer [] a, [Log err_batch_analysis], None)
  | chat_text aiThought =>
      (a, [Log (if negb (String.eqb aiThought "")
                  then log_thinking else log_monitoring)], None)
  | chat_functionCall name args =>
      if String.eqb name "send_message" then
        if truthy (interviewerId a) then
          let '(a', s) :=
            sendToAll cfg now (FunctionCall.message args)
              (FunctionCall.reason args) a in
          (a', Log (log_sending_coaching (interviewerName a))
                 :: sent_outputs s, Some s)
        else (a, [Log log_no_sales_rep], None)
      else (a, [], None)
  end.

(** After [await Promise.all(sendPromises)]. *)
Definition analyzeBatch_delivered (n : nat) : list output :=
  [Log (log_coaching_sent n); Log log_coaching_delivered].

(** The entries of [endPromises], per channel. *)
Record ended := {
  slack_end : option (list output);
  sms_end : option (list output)
}.

(** "End Slack thread if active" *)
Definition endSlack (cfg : Config) (now : Z) (a : t)
  : t * option (list output) :=
  match slackThread a with
  | Some s =>
      if includes "SLACK" (INTEGRATION_MODES cfg)
         && truthy (SlackThreadManager.threadTs s) then
        let '(s', o) := SlackThreadManager.endSessionThread now s in
        (with_slackThread (Some s') a, Some o)
      else (a, None)
  | None => (a, None)
  end.

(** "End SMS session if active" *)
Definition endSMS (cfg : Config) (now : Z) (a : t)
  : t * option (list output) :=
  match smsManager a with
  | Some m =>
      if includes "SMS" (INTEGRATION_MODES cfg) && SMSManager.sessionActive m
      then
        let '(m', o) := SMSManager.endSession cfg now m in
        (with_smsManager (Some m') a, Some o)
      else (a, None)
  | None => (a, None)
  end.

(** [flushBuffer] after the flush of the buffer, up to
    [await Promise.all(endPromises)]. *)
Definition endAll (cfg : Config) (now : Z) (a : t) : t * ended :=
  let r1 := endSlack cfg now a in
  let r2 := endSMS cfg now (fst r1) in
  (fst r2, {| slack_end := snd r1; sms_end := snd r2 |}).

Definition ended_outputs (e : ended) : list output :=
  default [] (slack_end e) ++ default [] (sms_end e).

(** [endPromises.length] *)
Definition ended_platforms (e : ended) : nat :=
  length (option_list (slack_end e)) + length (option_list (sms_end e)).

(** After [await Promise.all(endPromises)]. *)
Definition flushBuffer_ended (n : nat) : list output :=
  if (0 <? n)%nat then [Log (log_ended_sessions n)] else [].

Definition getConversationSummary (a : t) : list entry :=
  drop (length (conversationHistory a) - 10) (conversationHistory a).

End AIAgent.

(** ** One agent and its suspended calls

    Besides the agent object, the state records where its [async] calls are
    suspended:
    - [chats]: calls of [analyzeBatch] waiting for the chat call, by batch
      number, with who is waiting for [analyzeBatch] to return;
    - [sends]: calls of [analyzeBatch] waiting at
      [await Promise.all(sendPromises)], with the channels still unsettled;
    - [smsNudges], [smsEnds]: the [Promise.all] of the text messages of a
      nudge or of a session end;
    - [slackStarts]: parent posts of [startSessionThread] in flight;
    - [flushes]: calls of [flushBuffer] waiting at
      [await Promise.all(endPromises)].
    The text messages of [SMSManager.startSession] are issued and their
    settlement, which only prints, is left out. *)

Inductive caller :=
| by_processTranscript
| by_flushBuffer (flush : nat).

Module Join.
Record t := {
  caller_ : caller;
  slack : bool;
  zoom : bool;
  sms : bool;
  platforms : nat
}.
Definition settled (j : t) : bool := negb (slack j || zoom j || sms j).
Definition slack_done (j : t) : t :=
  {| caller_ := caller_ j; slack := false; zoom := zoom j; sms := sms j;
     platforms := platforms j |}.
Definition zoom_done (j : t) : t :=
  {| caller_ := caller_ j; slack := slack j; zoom := false; sms := sms j;
     platforms := platforms j |}.
Definition sms_done (j : t) : t :=
  {| caller_ := caller_ j; slack := slack j; zoom := zoom j; sms := false;
     platforms := platforms j |}.
End Join.

Module EndJoin.
Record t := {
  slack : bool;
  sms : bool;
  platforms : nat
}.
Definition settled (j : t) : bool := negb (slack j || sms j).
Definition slack_done (j : t) : t :=
  {| slack := false; sms := sms j; platforms := platforms j |}.
Definition sms_done (j : t) : t :=
  {| slack := slack j; sms := false; platforms := platforms j |}.
End EndJoin.

Record machine := {
  agent : AIAgent.t;
  chats : gmap nat caller;
  sends : gmap nat Join.t;
  smsNudges : gmap nat PromiseAll.t;
  slackStarts : nat;
  flushes : gmap nat EndJoin.t;
  smsEnds : gmap nat PromiseAll.t;
  nextFlush : nat
}.

Definition set_agent (a : AIAgent.t) (m : machine) : machine :=
  {| agent := a; chats := chats m; sends := sends m; smsNudges := smsNudges m;
     slackStarts := slackStarts m; flushes := flushes m; smsEnds := smsEnds m;
     nextFlush := nextFlush m |}.

Definition set_chats (c : gmap nat caller) (m : machine) : machine :=
  {| agent := agent m; chats := c; sends := sends m; smsNudges := smsNudges m;
     slackStarts := slackStarts m; flushes := flushes m; smsEnds := smsEnds m;
     nextFlush := nextFlush m |}.

Definition set_sends (s : gmap nat Join.t) (m : machine) : machine :=
  {| agent := agent m; chats := chats m; sends := s; smsNudges := smsNudges m;
     slackStarts := slackStarts m; flushes := flushes m; smsEnds := smsEnds m;
     nextFlush := nextFlush m |}.

Definition set_smsNudges (s : gmap nat PromiseAll.t) (m : machine) : machine :=
  {| agent := agent m; chats := chats m; sends := sends m; smsNudges := s;
     slackStarts := slackStarts m; flushes := flushes m; smsEnds := smsEnds m;
     nextFlush := nextFlush m |}.

Definition set_slackStarts (n : nat) (m : machine) : machine :=
  {| agent := agent m; chats := chats m; sends := sends m;
     smsNudges := smsNudges m; slackStarts := n; flushes := flushes m;
     smsEnds := smsEnds m; nextFlush := nextFlush m |}.

Definition set_flushes (f : gmap nat EndJoin.t) (m : machine) : machine :=
  {| agent := agent m; chats := chats m; sends := sends m;
     smsNudges := smsNudges m; slackStarts := slackStarts m; flushes := f;
     smsEnds := smsEnds m; nextFlush := nextFlush m |}.

Definition set_smsEnds (s : gmap nat PromiseAll.t) (m : machine) : machine :=
  {| agent := agent m; chats := chats m; sends := sends m;
     smsNudges := smsNudges m; slackStarts := slackStarts m;
     flushes := flushes m; smsEnds := s; nextFlush := nextFlush m |}.

Definition set_nextFlush (n : nat) (m : machine) : machine :=
  {| agent := agent m; chats := chats m; sends := sends m;
     smsNudges := smsNudges m; slackStarts := slackStarts m;
     flushes := flushes m; smsEnds := smsEnds m; nextFlush := n |}.

(** A freshly constructed agent: nothing is suspended. *)
Definition new_machine (a : AIAgent.t) : machine :=
  {| agent := a; chats := ∅; sends := ∅; smsNudges := ∅; slackStarts := 0;
     flushes := ∅; smsEnds := ∅; nextFlush := 0 |}.

(** Records the chat call and the parent posts issued by a piece of code:
    their settlement resumes code that changes the agent. *)
Definition suspend (k : caller) (os : list output) (m : machine) : machine :=
  foldl (fun m o =>
           match o with
           | Call (chat_sendMessage b _) => set_chats (<[b := k]> (chats m)) m
           | Call (slack_postMessage _ (SlackSessionStarted _)) =>
               set_slackStarts (S (slackStarts m)) m
           | _ => m
           end) m os.

Definition outs (o : option (list output)) : list output := default [] o.

(** The rest of [flushBuffer], from "End sessions on all active platforms":
    it returns at once when no summary call is in flight. *)
Definition flushBuffer_rest (cfg : Config) (now : Z) (f : nat) (m : machine)
  : machine * list output :=
  let '(a, e) := AIAgent.endAll cfg now (agent m) in
  let j := {| EndJoin.slack := has_call (outs (AIAgent.slack_end e));
              EndJoin.sms := has_call (outs (AIAgent.sms_end e));
              EndJoin.platforms := AIAgent.ended_platforms e |} in
  let m1 := set_agent a m in
  let m2 :=
    if EndJoin.sms j then
      set_smsEnds (<[f := PromiseAll.start
                            (length (calls (outs (AIAgent.sms_end e))))]>
                     (smsEnds m1)) m1
    else m1 in
  if EndJoin.settled j then
    (m2, AIAgent.ended_outputs e
           ++ AIAgent.flushBuffer_ended (EndJoin.platforms j)
           ++ [Resolved_flushBuffer f])
  else (set_flushes (<[f := j]> (flushes m2)) m2, AIAgent.ended_outputs e).

(** [analyzeBatch] has returned to whoever awaited it. *)
Definition resume (cfg : Config) (now : Z) (k : caller) (m : machine)
  : machine * list output :=
  match k with
  | by_processTranscript => (m, [])
  | by_flushBuffer f => flushBuffer_rest cfg now f m
  end.

(** A channel of batch [b] has settled, leaving [j] unsettled: when nothing
    is left [analyzeBatch] prints its two closing lines and returns. *)
Definition join (cfg : Config) (now : Z) (b : nat) (j : Join.t) (m : machine)
    (o : list output) : machine * list output :=
  if Join.settled j then
    let '(m', o') :=
      resume cfg now (Join.caller_ j) (set_sends (delete b (sends m)) m) in
    (m', o ++ AIAgent.analyzeBatch_delivered (Join.platforms j) ++ o')
  else (set_sends (<[b := j]> (sends m)) m, o).

(** A summary of flush [f] has settled, leaving [j] unsettled. *)
Definition end_join (f : nat) (j : EndJoin.t) (m : machine) (o : list output)
  : machine * list output :=
  if EndJoin.settled j then
    (set_flushes (delete f (flushes m)) m,
     o ++ AIAgent.flushBuffer_ended (EndJoin.platforms j)
       ++ [Resolved_flushBuffer f])
  else (set_flushes (<[f := j]> (flushes m)) m, o).

Inductive method :=
| call_processTranscript (speaker : string) (participantId : jsval)
    (isHost : bool) (text : string)
| call_setInterviewer (name : option string) (id : jsval)
| call_flushBuffer.

(** A method of the agent is called: the code up to the first suspension. *)
Definition invoke (cfg : Config) (now : Z) (c : method) (m : machine)
  : machine * list output :=
  match c with
  | call_processTranscript speaker participantId isHost text =>
      let '(a, o) :=
        AIAgent.processTranscript cfg now speaker participantId isHost text
          (agent m) in
      (suspend by_processTranscript o (set_agent a m), o)
  | call_setInterviewer name id =>
      let '(a, o) := AIAgent.setInterviewer cfg now name id (agent m) in
      (suspend by_processTranscript o (set_agent a m), o)
  | call_flushBuffer =>
      let f := nextFlush m in
      let m0 := set_nextFlush (S f) m in
      let remaining := length (AIAgent.transcriptBuffer (agent m0)) in
      if (0 <? remaining)%nat then
        let '(a, o) := AIAgent.analyzeBatch (agent m0) in
        let m1 := suspend (by_flushBuffer f) o (set_agent a m0) in
        if has_call o then (m1, Log (log_flushing remaining) :: o)
        else
          let '(m2, o') := flushBuffer_rest cfg now f m1 in
          (m2, Log (log_flushing remaining) :: o ++ o')
      else flushBuffer_rest cfg now f m0
  end.

Inductive settlement :=
| chat_settled (batch : nat) (r : chat_result)
| slack_start_settled (r : option jsval)
| slack_reply_settled (batch : nat) (ok : bool)
| zoom_settled (batch : nat) (r : fetch_result)
| sms_nudge_settled (batch : nat) (i : nat) (ok : bool)
| slack_end_settled (flush : nat) (ok : bool)
| sms_end_settled (flush : nat) (i : nat) (ok : bool).

Definition phone (a : AIAgent.t) (i : nat) : string :=
  match AIAgent.smsManager a with
  | Some s => default "" (SMSManager.phoneNumbers s !! i)
  | None => ""
  end.

(** A network call settles and the code waiting for it runs up to its next
    suspension; [None] when no such call is in flight. *)
Definition settle (cfg : Config) (now : Z) (s : settlement) (m : machine)
  : option (machine * list output) :=
  match s with
  | chat_settled b r =>
      k ← chats m !! b;
      let m0 := set_chats (delete b (chats m)) m in
      let '(a, o, d) := AIAgent.analyzeBatch_settled cfg now r (agent m0) in
      let m1 := set_agent a m0 in
      match d with
      | None => let '(m2, o') := resume cfg now k m1 in Some (m2, o ++ o')
      | Some d =>
          let j := {| Join.caller_ := k;
                      Join.slack := has_call (outs (AIAgent.slack d));
                      Join.zoom := has_call (outs (AIAgent.zoom d));
                      Join.sms := has_call (outs (AIAgent.sms d));
                      Join.platforms := AIAgent.platforms d |} in
          let m2 :=
            if Join.sms j then
              set_smsNudges
                (<[b := PromiseAll.start
                          (length (calls (outs (AIAgent.sms d))))]>
                   (smsNudges m1)) m1
            else m1 in
          Some (join cfg now b j m2 o)
      end
  | slack_start_settled r =>
      match slackStarts m with
      | O => None
      | S n =>
          let '(a, o) := AIAgent.initializeSlackThread_settled r (agent m) in
          Some (set_slackStarts n (set_agent a m), o)
      end
  | slack_reply_settled b ok =>
      j ← sends m !! b;
      if Join.slack j then
        let o := match AIAgent.slackThread (agent m) with
                 | Some s => SlackThreadManager.sendCoachingReply_settled ok s
                 | None => []
                 end in
        Some (join cfg now b (Join.slack_done j) m o)
      else None
  | zoom_settled b r =>
      j ← sends m !! b;
      if Join.zoom j then
        Some (join cfg now b (Join.zoom_done j) m
                (snd (sendPrivateChatMessage_settled r)))
      else None
  | sms_nudge_settled b i ok =>
      p ← smsNudges m !! b;
      '(p', all) ← PromiseAll.settle i ok p;
      let o := [SMSManager.sendSMS_settled (phone (agent m) i) ok] in
      let m1 :=
        set_smsNudges
          (if Nat.eqb (length (PromiseAll.open p')) 0
           then delete b (smsNudges m) else <[b := p']> (smsNudges m)) m in
      match all, sends m1 !! b, AIAgent.smsManager (agent m1) with
      | Some ok_all, Some j, Some mgr =>
          Some (join cfg now b (Join.sms_done j) m1
                  (o ++ SMSManager.sendCoachingNudge_settled ok_all mgr))
      | _, _, _ => Some (m1, o)
      end
  | slack_end_settled f ok =>
      j ← flushes m !! f;
      if EndJoin.slack j then
        match AIAgent.slackThread (agent m) with
        | Some s =>
            let '(s', o) := SlackThreadManager.endSessionThread_settled ok s in
            Some (end_join f (EndJoin.slack_done j)
                    (set_agent (AIAgent.with_slackThread (Some s') (agent m)) m)
                    o)
        | None => None
        end
      else None
  | sms_end_settled f i ok =>
      p ← smsEnds m !! f;
      '(p', all) ← PromiseAll.settle i ok p;
      let o := [SMSManager.sendSMS_settled (phone (agent m) i) ok] in
      let m1 :=
        set_smsEnds
          (if Nat.eqb (length (PromiseAll.open p')) 0
           then delete f (smsEnds m) else <[f := p']> (smsEnds m)) m in
      match all, flushes m1 !! f, AIAgent.smsManager (agent m1) with
      | Some ok_all, Some j, Some mgr =>
          let '(mgr', o') := SMSManager.endSession_settled ok_all mgr in
          Some (end_join f (EndJoin.sms_done j)
                  (set_agent (AIAgent.with_smsManager (Some mgr') (agent m1)) m1)
                  (o ++ o'))
      | _, _, _ => Some (m1, o)
      end
  end.

Inductive event :=
| Invoke (c : method)
| Settle (s : settlement).

Definition step (cfg : Config) (now : Z) (e : event) (m : machine)
  : option (machine * list output) :=
  match e with
  | Invoke c => Some (invoke cfg now c m)
  | Settle s => settle cfg now s m
  end.

(** A run: the events in the order the event loop takes them, each with the
    clock reading at that moment; the result keeps the outputs of each step
    apart. *)
Fixpoint run (cfg : Config) (es : list (Z * event)) (m : machine)
  : option (machine * list (list output)) :=
  match es with
  | [] => Some (m, [])
  | (now, e) :: es' =>
      '(m1, o) ← step cfg now e m;
      '(m2, os) ← run cfg es' m1;
      Some (m2, o :: os)
  end.

(** ** The session table and the routes

    [sessions] is the [Map] of [server.js].  A session holds a reference to
    its agent; the agent objects live in [agents], where code suspended on
    one of them still finds it after the session has left the table. *)

Module Session.
Record message := {
  speaker : string;
  words : string;
  timestamp : Z;
  isHost : bool
}.
Record t := {
  botId : string;
  meetingUrl : string;
  phoneNumbers : list string;
  transcripts : list message;
  aiAgent : nat
}.
Definition push (msg : message) (s : t) : t :=
  {| botId := botId s; meetingUrl := meetingUrl s;
     phoneNumbers := phoneNumbers s;
     transcripts := transcripts s ++ [msg]; aiAgent := aiAgent s |}.
End Session.

Record server := {
  sessions : gmap string Session.t;
  agents : gmap nat machine;
  nextAgent : nat;
  (** stop handlers waiting for [flushBuffer], by agent and flush *)
  stopping : gmap (nat * nat) string;
  (** stop handlers waiting for the DELETE of the bot *)
  deleting : gmap nat string;
  nextStop : nat
}.

Definition empty_server : server :=
  {| sessions := ∅; agents := ∅; nextAgent := 0; stopping := ∅;
     deleting := ∅; nextStop := 0 |}.

Definition set_sessions (s : gmap string Session.t) (srv : server) : server :=
  {| sessions := s; agents := agents srv; nextAgent := nextAgent srv;
     stopping := stopping srv; deleting := deleting srv;
     nextStop := nextStop srv |}.

Definition set_agents (a : gmap nat machine) (srv : server) : server :=
  {| sessions := sessions srv; agents := a; nextAgent := nextAgent srv;
     stopping := stopping srv; deleting := deleting srv;
     nextStop := nextStop srv |}.

Definition set_stopping (s : gmap (nat * nat) string) (srv : server) : server :=
  {| sessions := sessions srv; agents := agents srv;
     nextAgent := nextAgent srv; stopping := s; deleting := deleting srv;
     nextStop := nextStop srv |}.

(** The body of a webhook request, as far as the handler reads it. *)
Module Webhook.
Record participant := {
  name : option string;
  id : jsval;
  is_host : bool
}.
Inductive words :=
| words_array (texts : list string)
| words_string (s : string)
| words_other.
(** [data.data] *)
Record payload := {
  participant_ : option participant;
  words_ : words
}.
(** [data], with [data.bot?.id] *)
Record data := {
  bot_id : option string;
  data_ : option payload
}.
Record request := {
  secret : string;
  event : string;
  body_data : option data
}.
End Webhook.

(** The callback of the webhook route once a session was found and the
    event is a final transcript. *)
Definition webhook_transcript (cfg : Config) (now : Z) (key : string)
    (session : Session.t) (transcript : Webhook.payload) (srv : server)
  : server * list output :=
  let p := Webhook.participant_ transcript in
  let speaker := or_default (p ≫= Webhook.name) "Unknown" in
  let participantId := default JUndefined (Webhook.id <$> p) in
  let isHost := default false (Webhook.is_host <$> p) in
  let text :=
    match Webhook.words_ transcript with
    | Webhook.words_array ws => String.concat " " ws
    | Webhook.words_string s => s
    | Webhook.words_other => ""
    end in
  if negb (String.eqb text "") then
    let message := {| Session.speaker := speaker; Session.words := text;
                      Session.timestamp := now; Session.isHost := isHost |} in
    let srv1 := set_sessions (<[key := Session.push message session]>
                                (sessions srv)) srv in
    match agents srv1 !! Session.aiAgent session with
    | Some m =>
        if truthy participantId then
          let '(m', o) :=
            invoke cfg now
              (call_processTranscript speaker participantId isHost text) m in
          (set_agents (<[Session.aiAgent session := m']> (agents srv1)) srv1, o)
        else (srv1, [])
    | None => (srv1, [])
    end
  else (srv, []).

(** The callback of the webhook route for a join event. *)
Definition webhook_join (cfg : Config) (now : Z) (session : Session.t)
    (payload : option Webhook.payload) (srv : server) : server * list output :=
  match payload ≫= Webhook.participant_ with
  | Some participant =>
      match agents srv !! Session.aiAgent session with
      | Some m =>
          if Webhook.is_host participant then
            let '(m', o) :=
              invoke cfg now
                (call_setInterviewer (Webhook.name participant)
                   (Webhook.id participant)) m in
            (set_agents (<[Session.aiAgent session := m']> (agents srv)) srv, o)
          else (srv, [])
      | None => (srv, [])
      end
  | None => (srv, [])
  end.

(** [app.post('/api/webhook')]: the answer is sent before the event is
    looked at; the callback then runs without suspension up to the agent. *)
Definition webhook (cfg : Config) (now : Z) (req : Webhook.request)
    (srv : server) : server * list output :=
  if negb (String.eqb (Webhook.secret req) (WEBHOOK_SECRET cfg)) then
    (srv, [Respond res_401_Unauthorized])
  else
    let '(srv', o) :=
      match Webhook.body_data req with
      | Some data =>
          if String.eqb (Webhook.event req) "" then (srv, [])
          else
            match Webhook.bot_id data ≫= (fun k => (k,.) <$> sessions srv !! k) with
            | None => (srv, [Log (log_no_session (Webhook.bot_id data))])
            | Some (key, session) =>
                if String.eqb (Webhook.event req) "transcript.data"
                   || String.eqb (Webhook.event req) "transcript.partial_data"
                then
                  match Webhook.data_ data with
                  | None => (srv, [])
                  | Some transcript =>
                      if String.eqb (Webhook.event req) "transcript.partial_data"
                      then (srv, [])
                      else webhook_transcript cfg now key session transcript srv
                  end
                else if String.eqb (Webhook.event req) "participant_events.join"
                then webhook_join cfg now session (Webhook.data_ data) srv
                else (srv, [])
            end
      | None => (srv, [])
      end in
    (srv', Respond res_200_OK :: o).

(** [app.post('/api/start-bot')] from the moment the bot service has
    answered with the bot's id: the session is stored with a new agent. *)
Definition start_bot_created (cfg : Config) (now : Z) (id meeting_url : string)
    (phoneNumbersArray : list string) (srv : server) : server * list output :=
  let ref := nextAgent srv in
  ({| sessions :=
        <[id := {| Session.botId := id; Session.meetingUrl := meeting_url;
                   Session.phoneNumbers := phoneNumbersArray;
                   Session.transcripts := []; Session.aiAgent := ref |}]>
          (sessions srv);
      agents :=
        <[ref := new_machine
                   (AIAgent.constructor cfg now id meeting_url phoneNumbersArray)]>
          (agents srv);
      nextAgent := S ref; stopping := stopping srv; deleting := deleting srv;
      nextStop := nextStop srv |},
   [Respond res_success]).

(** The stop handler after [flushBuffer]: the DELETE of the bot is sent. *)
Definition stop_bot_delete (botId : string) (srv : server)
  : server * list output :=
  ({| sessions := sessions srv; agents := agents srv;
      nextAgent := nextAgent srv; stopping := stopping srv;
      deleting := <[nextStop srv := botId]> (deleting srv);
      nextStop := S (nextStop srv) |},
   [Call (recall_delete_bot botId)]).

(** Stop handlers whose [flushBuffer] is reported resolved in [o] go on. *)
Definition resume_stops (ref : nat) (o : list output) (srv : server)
  : server * list output :=
  foldl (fun '(srv, acc) x =>
           match x with
           | Resolved_flushBuffer f =>
               match stopping srv !! (ref, f) with
               | Some botId =>
                   let '(srv', o') :=
                     stop_bot_delete botId
                       (set_stopping (delete (ref, f) (stopping srv)) srv) in
                   (srv', acc ++ o')
               | None => (srv, acc)
               end
           | _ => (srv, acc)
           end) (srv, o) o.

(** [app.post('/api/stop-bot/:botId')] up to its first suspension. *)
Definition stop_bot (cfg : Config) (now : Z) (botId : string) (srv : server)
  : server * list output :=
  match sessions srv !! botId with
  | Some session =>
      match agents srv !! Session.aiAgent session with
      | Some m =>
          let ref := Session.aiAgent session in
          let '(m', o) := invoke cfg now call_flushBuffer m in
          let srv1 := set_agents (<[ref := m']> (agents srv)) srv in
          resume_stops ref o
            (set_stopping (<[(ref, nextFlush m) := botId]> (stopping srv1)) srv1)
      | None => stop_bot_delete botId srv
      end
  | None => stop_bot_delete botId srv
  end.

(** The DELETE settles: on success the session leaves the table. *)
Definition stop_bot_deleted (stop : nat) (ok : bool) (srv : server)
  : option (server * list output) :=
  botId ← deleting srv !! stop;
  let srv1 :=
    {| sessions := sessions srv; agents := agents srv;
       nextAgent := nextAgent srv; stopping := stopping srv;
       deleting := delete stop (deleting srv); nextStop := nextStop srv |} in
  if ok then
    Some (set_sessions (delete botId (sessions srv1)) srv1,
          [Log (log_bot_stopped botId); Respond res_success])
  else Some (srv1, [Respond res_500]).

Inductive request :=
| bot_created (id meeting_url : string) (phoneNumbersArray : list string)
| post_webhook (req : Webhook.request)
| post_stop_bot (botId : string)
| agent_settles (ref : nat) (s : settlement)
| delete_settles (stop : nat) (ok : bool).

Definition serve (cfg : Config) (now : Z) (r : request) (srv : server)
  : option (server * list output) :=
  match r with
  | bot_created id meeting_url phones =>
      Some (start_bot_created cfg now id meeting_url phones srv)
  | post_webhook req => Some (webhook cfg now req srv)
  | post_stop_bot botId => Some (stop_bot cfg now botId srv)
  | agent_settles ref s =>
      m ← agents srv !! ref;
      '(m', o) ← settle cfg now s m;
      Some (resume_stops ref o (set_agents (<[ref := m']> (agents srv)) srv))
  | delete_settles stop ok => stop_bot_deleted stop ok srv
  end.

Fixpoint serve_all (cfg : Config) (rs : list (Z * request)) (srv : server)
  : option (server * list (list output)) :=
  match rs with
  | [] => Some (srv, [])
  | (now, r) :: rs' =>
      '(srv1, o) ← serve cfg now r srv;
      '(srv2, os) ← serve_all cfg rs' srv1;
      Some (srv2, o :: os)
  end.

(** * Vocabulary of the properties *)

(** What a network call is for. *)
Inductive kind :=
| k_chat
| k_slack_start
| k_sms_start
| k_nudge
| k_summary
| k_delete.

#[global] Instance kind_eq_dec : EqDecision kind.
Proof. solve_decision. Defined.

Definition kind_of (c : call) : kind :=
  match c with
  | chat_sendMessage _ _ => k_chat
  | slack_postMessage _ (SlackSessionStarted _) => k_slack_start
  | slack_postMessage _ (SlackNudge _ _ _) => k_nudge
  | slack_postMessage _ (SlackSessionEnded _ _ _ _) => k_summary
  | twilio_create _ (SmsSessionStarted _) _ => k_sms_start
  | twilio_create _ (SmsNudge _ _) _ => k_nudge
  | twilio_create _ (SmsSessionEnded _ _ _) _ => k_summary
  | recall_send_chat_message _ _ _ => k_nudge
  | recall_delete_bot _ => k_delete
  end.

(** The calls among [o] that are of kind [k]. *)
Definition calls_of (k : kind) (o : list output) : list call :=
  filter (fun c => kind_of c = k) (calls o).

(** Every call among [o] is of one of the kinds [ks]. *)
Definition all_kind (ks : list kind) (o : list output) : Prop :=
  Forall (fun c => In (kind_of c) ks) (calls o).

Definition cfg_all : Config :=
  {| INTEGRATION_MODES := ["ZOOM_DM"; "SLACK"; "SMS"];
     SLACK_CHANNEL_ID := "C1";
     TWILIO_CREDENTIALS := true;
     TWILIO_MESSAGING_SERVICE_SID := "MG1";
     WEBHOOK_SECRET := "s3cret" |}.

Definition agent0 : AIAgent.t :=
  AIAgent.constructor cfg_all 0 "bot-1" "https://zoom.us/j/1" ["+15550001"; "+15550002"].

Definition args_for (id : jsval) (name : string) : FunctionCall.args :=
  {| FunctionCall.participant_id := id;
     FunctionCall.participant_name := Some name;
     FunctionCall.message := "Ask about budget";
     FunctionCall.reason := "No BANT qualification yet" |}.

Definition directive (id : jsval) (name : string) : chat_result :=
  chat_functionCall "send_message" (args_for id name).

Definition same_batcher (a a' : AIAgent.t) : Prop :=
  AIAgent.transcriptBuffer a' = AIAgent.transcriptBuffer a
  /\ AIAgent.batchSize a' = AIAgent.batchSize a
  /\ AIAgent.batchCount a' = AIAgent.batchCount a.

(** Emptied or untouched: what a settlement can do to the buffer. *)
Definition buffer_kept_or_cleared (a a' : AIAgent.t) : Prop :=
  AIAgent.batchSize a' = AIAgent.batchSize a
  /\ AIAgent.batchCount a' = AIAgent.batchCount a
  /\ (AIAgent.transcriptBuffer a' = AIAgent.transcriptBuffer a
      \/ AIAgent.transcriptBuffer a' = []).

(** The lines a run has pushed on the buffer, in the order of ingestion. *)
Definition pushed (e : event) : list string :=
  match e with
  | Invoke (call_processTranscript speaker _ isHost text) =>
      [AIAgent.line isHost speaker text]
  | _ => []
  end.

Definition ingested (es : list (Z * event)) : list string :=
  flat_map (fun x => pushed (snd x)) es.


(** The batcher of a running agent: the window is 6 and the buffer holds
    fewer lines than that between two steps. *)
Definition batcher_ok (a : AIAgent.t) : Prop :=
  AIAgent.batchSize a = 6 /\ length (AIAgent.transcriptBuffer a) < 6.

Definition machine0 : machine := new_machine agent0.

Definition says (now : Z) (isHost : bool) (text : string) : Z * event :=
  (now, Invoke (call_processTranscript (if isHost then "Ann" else "Bob")
                  (JNum (if isHost then 7 else 8)) isHost text)).

Definition five_lines : list (Z * event) :=
  [says 1 true "Hi, thanks for joining"; says 2 false "Happy to be here";
   says 3 true "Let me show you the product"; says 4 false "What does it cost";
   says 5 true "We will get to that"].

(** The analyses and thread starts in flight, and the flush counter. *)
Definition same_starts (m m' : machine) : Prop :=
  chats m' = chats m /\ slackStarts m' = slackStarts m
  /\ nextFlush m' = nextFlush m.

(** What [suspend] registers. *)
Definition register_chat (k : caller) (c : gmap nat caller) (x : call)
  : gmap nat caller :=
  match x with
  | chat_sendMessage b _ => <[b := k]> c
  | _ => c
  end.

(** Whether event [e] starts an analysis in state [m]: a transcript whose
    line fills the buffer, or a flush of a buffer that is not empty. *)
Definition starts_analysis (e : event) (m : machine) : bool :=
  match e with
  | Invoke (call_processTranscript _ _ _ _) =>
      (AIAgent.batchSize (agent m)
       <=? S (length (AIAgent.transcriptBuffer (agent m))))%nat
  | Invoke call_flushBuffer =>
      (0 <? length (AIAgent.transcriptBuffer (agent m)))%nat
  | _ => false
  end.

(** A run in which every event that starts an analysis finds none in
    flight. *)
Fixpoint paced (cfg : Config) (es : list (Z * event)) (m : machine) : Prop :=
  match es with
  | [] => True
  | (now, e) :: es' =>
      (starts_analysis e m = true -> chats m = ∅)
      /\ match step cfg now e m with
         | Some (m1, _) => paced cfg es' m1
         | None => True
         end
  end.

Definition twelve_lines : list (Z * event) :=
  five_lines
  ++ [says 6 false "We have no budget this quarter";
      says 7 true "Understood"; says 8 false "Maybe next year";
      says 9 true "Here is the dashboard"; says 10 false "Looks nice";
      says 11 true "And here are the reports"; says 12 false "I see"].

Definition six_lines_settled : list (Z * event) :=
  five_lines
  ++ [says 6 false "We have no budget this quarter";
      (7%Z, Settle (chat_settled 1 (chat_text "Too early to coach")));
      says 8 true "Understood"].

(** The console lines among the outputs. *)
Definition prints (o : list output) : list console :=
  omap (fun x => match x with Log l => Some l | _ => None end) o.

(** Lines printed by the end-of-session part of [flushBuffer]. *)
Definition is_end_line (l : console) : bool :=
  match l with
  | err_no_active_slack_thread_to_end
  | log_sms_no_active_session
  | log_ended_sessions _ => true
  | _ => false
  end.

(** The state and the outputs of a run or of a step that goes through. *)
Definition state_after (cfg : Config) (es : list (Z * event)) (m0 : machine)
  : machine := from_option fst m0 (run cfg es m0).

Definition outputs_after (cfg : Config) (es : list (Z * event)) (m0 : machine)
  : list (list output) := from_option snd [] (run cfg es m0).

Definition step_state (cfg : Config) (now : Z) (e : event) (m : machine)
  : machine := from_option fst m (step cfg now e m).

Definition step_outputs (cfg : Config) (now : Z) (e : event) (m : machine)
  : list output := from_option snd [] (step cfg now e m).





Definition transcript_request (botId speaker : string) (id : jsval)
    (is_host : bool) (texts : list string) : Webhook.request :=
  {| Webhook.secret := "s3cret";
     Webhook.event := "transcript.data";
     Webhook.body_data :=
       Some {| Webhook.bot_id := Some botId;
               Webhook.data_ :=
                 Some {| Webhook.participant_ :=
                           Some {| Webhook.name := Some speaker;
                                   Webhook.id := id;
                                   Webhook.is_host := is_host |};
                         Webhook.words_ := Webhook.words_array texts |} |} |}.

(** A bot is created, stopped at once, and a transcript arrives after the
    DELETE of the bot has succeeded. *)
Definition transcript_after_stop : list (Z * request) :=
  [(0%Z, bot_created "bot-1" "https://zoom.us/j/1" ["+15550001"]);
   (1%Z, post_stop_bot "bot-1");
   (2%Z, delete_settles 0 true);
   (3%Z, post_webhook
           (transcript_request "bot-1" "Ann" (JNum 7) true ["Hello"; "there"]))].

(** The identity an event would resolve the host to. *)
Definition resolves_host (e : event) : option jsval :=
  match e with
  | Invoke (call_processTranscript _ participantId true _) => Some participantId
  | Invoke (call_setInterviewer _ id) => Some id
  | _ => None
  end.

(** Every host-attributed event of the run carries a truthy identifier. *)
Definition host_ids_truthy (es : list (Z * event)) : Prop :=
  Forall (fun x => forall id, resolves_host (snd x) = Some id -> truthy id = true)
    es.

(** The agent has a Slack manager without a thread. *)
Definition no_thread (a : AIAgent.t) : Prop :=
  exists s, AIAgent.slackThread a = Some s
            /\ truthy (SlackThreadManager.threadTs s) = false.

Definition same_interviewer (a a' : AIAgent.t) : Prop :=
  AIAgent.interviewerId a' = AIAgent.interviewerId a.

(** The host speaks first, the thread start fails, and a nudge is decided
    after the sixth line. *)
Definition nudge_without_thread : list (Z * event) :=
  [says 1 true "Hi, thanks for joining";
   (2%Z, Settle (slack_start_settled None));
   says 3 false "Happy to be here";
   says 4 true "Let me show you the product"; says 5 false "What does it cost";
   says 6 true "We will get to that";
   says 7 false "We have no budget this quarter";
   (8%Z, Settle (chat_settled 1 (directive (JNum 8) "Bob")))].

(** The lines with which [sendCoachingNudge] reports on a whole fan-out. *)
Definition is_fan_out_report (l : console) : bool :=
  match l with
  | log_sms_nudge_sent_all _ | err_sms_nudge => true
  | _ => false
  end.

Definition fan_out_report (os : list (list output)) : list console :=
  filter (fun l => is_fan_out_report l = true) (prints (concat os)).

(** The host speaks first, both session starts go out, the thread is
    created, and a nudge is decided after the sixth line. *)
Definition nudge_dispatched : list (Z * event) :=
  five_lines
  ++ [(6%Z, Settle (slack_start_settled (Some (JStr "1700000000.000100"))));
      says 7 false "We have no budget this quarter";
      (8%Z, Settle (chat_settled 1 (directive (JNum 8) "Bob")))].

(** The first number cannot be reached, the second one can. *)
Definition sms_partial_failure : list (Z * event) :=
  nudge_dispatched
  ++ [(9%Z, Settle (sms_nudge_settled 1 0 false));
      (10%Z, Settle (sms_nudge_settled 1 1 true))].

(** Neither number can be reached. *)
Definition sms_total_failure : list (Z * event) :=
  nudge_dispatched
  ++ [(9%Z, Settle (sms_nudge_settled 1 0 false));
      (10%Z, Settle (sms_nudge_settled 1 1 false))].

(** The thread is created only after the first nudge was dispatched; the
    session is then flushed with an empty buffer. *)
Definition late_thread_then_stop : list (Z * event) :=
  five_lines
  ++ [says 6 false "We have no budget this quarter";
      (7%Z, Settle (chat_settled 1 (directive (JNum 8) "Bob")));
      (8%Z, Settle (slack_start_settled (Some (JStr "1700000000.000100"))));
      (9%Z, Settle (zoom_settled 1 fetch_ok));
      (10%Z, Settle (sms_nudge_settled 1 0 true));
      (11%Z, Settle (sms_nudge_settled 1 1 true));
      (120000%Z, Invoke call_flushBuffer)].

(** Everything of the agent but its channel managers and the time of the
    last nudge. *)
Definition same_session (a a' : AIAgent.t) : Prop :=
  AIAgent.botId a' = AIAgent.botId a
  /\ AIAgent.meetingUrl a' = AIAgent.meetingUrl a
  /\ AIAgent.phoneNumbers a' = AIAgent.phoneNumbers a
  /\ AIAgent.conversationHistory a' = AIAgent.conversationHistory a
  /\ AIAgent.interviewerId a' = AIAgent.interviewerId a
  /\ AIAgent.interviewerName a' = AIAgent.interviewerName a
  /\ AIAgent.transcriptBuffer a' = AIAgent.transcriptBuffer a
  /\ AIAgent.batchSize a' = AIAgent.batchSize a
  /\ AIAgent.batchCount a' = AIAgent.batchCount a.


(** The server after the requests [rs], and the server once the DELETE of
    stop [stop] has succeeded. *)
Definition server_after (cfg : Config) (rs : list (Z * request)) : server :=
  from_option fst empty_server (serve_all cfg rs empty_server).

Definition server_deleted (stop : nat) (srv : server) : server :=
  from_option fst srv (stop_bot_deleted stop true srv).

Definition created_then_stopped : list (Z * request) :=
  [(0%Z, bot_created "bot-1" "https://zoom.us/j/1" ["+15550001"]);
   (1%Z, post_stop_bot "bot-1")].

(** An agent whose host is participant 7. *)
Definition agent_with_host : AIAgent.t :=
  AIAgent.with_interviewer (JNum 7) (Some "Ann") agent0.

(** ** The batcher as a function of the events

    The buffer of a batcher of window 6 after one more event: a line is
    appended and a full window leaves as a batch; a flush empties the
    buffer, and so does the settlement of a failed analysis; nothing else
    touches it. *)
Definition held_after (buf : list string) (e : event) : list string :=
  match e with
  | Invoke (call_processTranscript speaker _ isHost text) =>
      let batch := buf ++ [AIAgent.line isHost speaker text] in
      if Nat.eqb (length batch) 6 then [] else batch
  | Invoke call_flushBuffer => []
  | Settle (chat_settled _ chat_throws) => []
  | _ => buf
  end.

(** The lines held after the events [es], starting empty. *)
Definition held (es : list (Z * event)) : list string :=
  foldl (fun buf x => held_after buf (snd x)) [] es.

(** Nine lines, then the analysis of the first six fails, then three more
    lines: six lines since the only batch. *)
Definition failure_between_lines : list (Z * event) :=
  five_lines
  ++ [says 6 false "We have no budget this quarter";
      says 7 true "Understood"; says 8 false "Maybe next year";
      says 9 true "Here is the dashboard";
      (10%Z, Settle (chat_settled 1 chat_throws));
      says 11 false "Looks nice"; says 12 true "And here are the reports";
      says 13 false "I see"].


(** * The routes and the event stream; further vocabulary *)

(** ** The host, the batch numbers and the history *)

(** The host as the agent knows it. *)
Definition same_host (a a' : AIAgent.t) : Prop :=
  AIAgent.interviewerId a' = AIAgent.interviewerId a
  /\ AIAgent.interviewerName a' = AIAgent.interviewerName a.

(** The batch numbers of the analyze calls among [o], in order. *)
Definition batch_number (c : call) : option nat :=
  match c with
  | chat_sendMessage b _ => Some b
  | _ => None
  end.

Definition batch_numbers (o : list output) : list nat :=
  omap batch_number (calls o).

(** The history entry that an event appends. *)
Definition transcribed (x : Z * event) : list AIAgent.entry :=
  match snd x with
  | Invoke (call_processTranscript speaker _ isHost text) =>
      [{| AIAgent.role := AIAgent.role_of isHost; AIAgent.speaker := speaker;
          AIAgent.text := text; AIAgent.timestamp := fst x |}]
  | _ => []
  end.

Definition same_history (a a' : AIAgent.t) : Prop :=
  AIAgent.conversationHistory a' = AIAgent.conversationHistory a.

(** Twelve lines, the analysis of the first six of which fails. *)
Definition twelve_lines_first_fails : list (Z * event) :=
  twelve_lines ++ [(13%Z, Settle (chat_settled 1 chat_throws))].

(** ** The webhook route and the table of sessions *)

(** The answers sent among the outputs, and the flushes reported resolved. *)
Definition answers (o : list output) : list response :=
  omap (fun x => match x with Respond r => Some r | _ => None end) o.

Definition resolved (o : list output) : list nat :=
  omap (fun x => match x with Resolved_flushBuffer f => Some f | _ => None end) o.

(** Outputs of the agent's own code: calls and console lines. *)
Definition plain (o : list output) : Prop :=
  Forall (fun x => match x with Call _ | Log _ => True | _ => False end) o.

(** The bot a webhook request names: [data.bot?.id]. *)
Definition webhook_bot (req : Webhook.request) : option string :=
  Webhook.body_data req ≫= Webhook.bot_id.

(** [text] as the webhook callback extracts it from a transcript. *)
Definition webhook_text (transcript : Webhook.payload) : string :=
  match Webhook.words_ transcript with
  | Webhook.words_array ws => String.concat " " ws
  | Webhook.words_string s => s
  | Webhook.words_other => ""
  end.

(** The events the webhook callback acts on: with the right secret and for
    a bot of the table, a final transcript with some text, or the join of a
    participant flagged as host. *)
Definition acted_on (cfg : Config) (req : Webhook.request) (srv : server) : Prop :=
  Webhook.secret req = WEBHOOK_SECRET cfg
  /\ exists data key session,
       Webhook.body_data req = Some data
       /\ Webhook.bot_id data = Some key
       /\ sessions srv !! key = Some session
       /\ ((Webhook.event req = "transcript.data"
            /\ exists transcript,
                 Webhook.data_ data = Some transcript
                 /\ webhook_text transcript <> "")
           \/ (Webhook.event req = "participant_events.join"
               /\ exists payload participant,
                    Webhook.data_ data = Some payload
                    /\ Webhook.participant_ payload = Some participant
                    /\ Webhook.is_host participant = true)).

(** No two sessions of the table share an agent, and every agent of a
    session was allocated before [nextAgent]. *)
Definition agents_unshared (srv : server) : Prop :=
  (forall k s, sessions srv !! k = Some s -> Session.aiAgent s < nextAgent srv)
  /\ (forall k1 k2 s1 s2,
        sessions srv !! k1 = Some s1 -> sessions srv !! k2 = Some s2 ->
        Session.aiAgent s1 = Session.aiAgent s2 -> k1 = k2).

(** Request [r] concerns the session [s] stored for bot [k]. *)
Definition concerns (r : request) (srv : server) (k : string) (s : Session.t)
  : Prop :=
  match r with
  | bot_created id _ _ => id = k
  | post_webhook req => webhook_bot req = Some k
  | post_stop_bot botId => botId = k
  | agent_settles ref _ => ref = Session.aiAgent s
  | delete_settles stop _ => deleting srv !! stop = Some k
  end.

(** One step of [resume_stops]: the stop handler waiting for the flush that
    output [x] reports resolved, if there is one, goes on. *)
Definition resume_stop (ref : nat) (st : server * list output) (x : output)
  : server * list output :=
  match x with
  | Resolved_flushBuffer f =>
      match stopping (fst st) !! (ref, f) with
      | Some botId =>
          (fst (stop_bot_delete botId
                  (set_stopping (delete (ref, f) (stopping (fst st))) (fst st))),
           snd st ++ [Call (recall_delete_bot botId)])
      | None => st
      end
  | _ => st
  end.

(** Two bots are created and the first one hears six lines. *)
Definition two_bots : list (Z * request) :=
  [(0%Z, bot_created "bot-1" "https://zoom.us/j/1" ["+15550001"]);
   (1%Z, bot_created "bot-2" "https://meet.google.com/abc" []);
   (2%Z, post_webhook
           (transcript_request "bot-1" "Ann" (JNum 7) true ["Hello"; "there"]))].

(** A bot is created and hears one line. *)
Definition one_line_heard : list (Z * request) :=
  [(0%Z, bot_created "bot-1" "https://zoom.us/j/1" ["+15550001"]);
   (1%Z, post_webhook
           (transcript_request "bot-1" "Bob" (JNum 8) false ["Hello"; "there"]))].

(** The agent with reference [ref]. *)
Definition agent_at (ref : nat) (srv : server) : machine :=
  from_option id machine0 (agents srv !! ref).

Definition serve_state (cfg : Config) (now : Z) (r : request) (srv : server)
  : server := from_option fst srv (serve cfg now r srv).

Definition serve_outputs (cfg : Config) (now : Z) (r : request) (srv : server)
  : list output := from_option snd [] (serve cfg now r srv).

(** ** [split] and [trim]

    A string is the sequence of its code units, here those below 256. *)

(** [s.split(sep)] for a separator of one character: the pieces between
    the separators, at least one piece. *)
Fixpoint str_split (sep : Ascii.ascii) (s : string) : list string :=
  match s with
  | EmptyString => [EmptyString]
  | String c s' =>
      if Ascii.eqb c sep then EmptyString :: str_split sep s'
      else match str_split sep s' with
           | piece :: pieces => String c piece :: pieces
           | [] => [String c EmptyString]
           end
  end.

Definition comma : Ascii.ascii := Eval cbv in Ascii.ascii_of_nat 44.
Definition space : Ascii.ascii := Eval cbv in Ascii.ascii_of_nat 32.

(** White space and line terminators, as [trim] removes them: TAB, LF, VT,
    FF, CR, SP and NBSP. *)
Definition is_space (c : Ascii.ascii) : bool :=
  let n := Ascii.nat_of_ascii c in
  (Nat.leb 9 n && Nat.leb n 13) || Nat.eqb n 32 || Nat.eqb n 160.

Fixpoint str_trimStart (s : string) : string :=
  match s with
  | EmptyString => EmptyString
  | String c s' => if is_space c then str_trimStart s' else s
  end.

Fixpoint str_trimEnd (s : string) : string :=
  match s with
  | EmptyString => EmptyString
  | String c s' =>
      match str_trimEnd s' with
      | EmptyString => if is_space c then EmptyString else String c EmptyString
      | t => String c t
      end
  end.

(** [s.trim()] *)
Definition str_trim (s : string) : string := str_trimEnd (str_trimStart s).

(** ** [app.post('/api/start-bot')] *)

(** [req.body.phone_numbers] *)
Inductive phone_numbers :=
| phones_missing
| phones_array (numbers : list string)
| phones_string (s : string)
| phones_other.

Module StartBot.
Record body := {
  meeting_url : option string;
  phone_numbers_ : phone_numbers
}.
End StartBot.

(** "Parse phone numbers (can be array or comma-separated string)" *)
Definition phoneNumbersArray (phone_numbers : phone_numbers) : list string :=
  match phone_numbers with
  | phones_array numbers => numbers
  | phones_string s =>
      if String.eqb s "" then []
      else List.filter (fun num => negb (String.eqb num ""))
             (map str_trim (str_split comma s))
  | phones_missing | phones_other => []
  end.

(** What the routes below answer. *)
Inductive reply :=
| res_400_meeting_url_required
| res_bot_started (bot_id : string) (phone_numbers : list string)
| res_500_error
| res_404_session_not_found
| res_history (bot_id : string) (conversation_history : list AIAgent.entry)
| res_cleared (sessionsCleared : nat).

(** The route up to its [fetch]: either it has answered, or it waits for
    the bot service with the URL and the numbers in hand. *)
Inductive started :=
| start_replied (r : reply)
| start_awaits (meeting_url : string) (phoneNumbersArray : list string).

Definition start_bot (body : StartBot.body) : started :=
  match StartBot.meeting_url body with
  | Some meeting_url =>
      if String.eqb meeting_url "" then start_replied res_400_meeting_url_required
      else start_awaits meeting_url
             (phoneNumbersArray (StartBot.phone_numbers_ body))
  | None => start_replied res_400_meeting_url_required
  end.

(** How the creation of the bot ends: a response that is [ok] and carries
    the bot's id, a response that is not, or an exception. *)
Inductive create_result :=
| created (id : string)
| create_not_ok
| create_throws.

(** The route from the moment the [fetch] settles. *)
Definition start_bot_settled (cfg : Config) (now : Z) (meeting_url : string)
    (phoneNumbersArray : list string) (r : create_result) (srv : server)
  : server * reply :=
  match r with
  | created id =>
      (fst (start_bot_created cfg now id meeting_url phoneNumbersArray srv),
       res_bot_started id phoneNumbersArray)
  | create_not_ok | create_throws => (srv, res_500_error)
  end.

(** ** [app.get('/api/ai-history/:botId')] *)

Definition ai_history (botId : string) (srv : server) : reply :=
  match sessions srv !! botId with
  | Some session =>
      match agents srv !! Session.aiAgent session with
      | Some m =>
          res_history botId (AIAgent.getConversationSummary (agent m))
      | None => res_404_session_not_found
      end
  | None => res_404_session_not_found
  end.

(** ** Phone numbers as the route keeps them *)

(** A phone number as the parser leaves it: not empty, without a comma and
    without white space at either end. *)
Definition clean (num : string) : Prop :=
  num <> "" /\ str_includes "," num = false /\ str_trim num = num.

Definition ends_with_space (s : string) : bool :=
  match String.get (String.length s - 1) s with
  | Some c => is_space c
  | None => false
  end.

Definition starts_with_space (s : string) : bool :=
  match s with
  | String c _ => is_space c
  | EmptyString => false
  end.

(** ** The event stream: [sseClients], [app.get('/api/stream')], [broadcast] *)

(** The messages that are broadcast, and what is written on a response. *)
Inductive sse_message :=
| sse_connected
| sse_transcript (message : Session.message)
| sse_participant_join (name : option string) (id : jsval) (isHost : bool).

Inductive chunk :=
| chunk_data (message : sse_message)
| chunk_keepalive.

(** [sseClients] is the [Set] of responses, in insertion order; a response
    is a number.  [open] lists the responses whose connection is open: those
    are the ones whose keepalive interval is set. *)
Module Stream.
Record t := {
  sseClients : list nat;
  open : list nat;
  nextClient : nat
}.
Definition empty : t := {| sseClients := []; open := []; nextClient := 0 |}.
End Stream.

Definition without (res : nat) (l : list nat) : list nat :=
  List.filter (fun c => negb (Nat.eqb c res)) l.

(** [app.get('/api/stream')]: the response joins the set and is greeted. *)
Definition get_stream (st : Stream.t) : Stream.t * list (nat * chunk) :=
  let res := Stream.nextClient st in
  ({| Stream.sseClients := Stream.sseClients st ++ [res];
      Stream.open := Stream.open st ++ [res];
      Stream.nextClient := S res |},
   [(res, chunk_data sse_connected)]).

(** The callback of [setInterval], for as long as the interval is set. *)
Definition keepalive (res : nat) (st : Stream.t) : option (list (nat * chunk)) :=
  if existsb (Nat.eqb res) (Stream.open st) then Some [(res, chunk_keepalive)]
  else None.

(** [req.on('close')] *)
Definition stream_close (res : nat) (st : Stream.t) : option Stream.t :=
  if existsb (Nat.eqb res) (Stream.open st) then
    Some {| Stream.sseClients := without res (Stream.sseClients st);
            Stream.open := without res (Stream.open st);
            Stream.nextClient := Stream.nextClient st |}
  else None.

(** [broadcast(message)] *)
Definition broadcast (message : sse_message) (st : Stream.t)
  : list (nat * chunk) :=
  map (fun client => (client, chunk_data message)) (Stream.sseClients st).

(** [sseClients.clear()] *)
Definition clear_clients (st : Stream.t) : Stream.t :=
  {| Stream.sseClients := []; Stream.open := Stream.open st;
     Stream.nextClient := Stream.nextClient st |}.

(** [message] as the webhook callback builds it from a transcript. *)
Definition webhook_message (now : Z) (transcript : Webhook.payload)
  : Session.message :=
  let p := Webhook.participant_ transcript in
  {| Session.speaker := or_default (p ≫= Webhook.name) "Unknown";
     Session.words := webhook_text transcript;
     Session.timestamp := now;
     Session.isHost := default false (Webhook.is_host <$> p) |}.

(** The calls of [broadcast] in the webhook callback: what [webhook] does
    to the tables, this does to the event stream. *)
Definition webhook_broadcast (cfg : Config) (now : Z) (req : Webhook.request)
    (srv : server) : list sse_message :=
  if negb (String.eqb (Webhook.secret req) (WEBHOOK_SECRET cfg)) then []
  else
    match Webhook.body_data req with
    | Some data =>
        if String.eqb (Webhook.event req) "" then []
        else
          match Webhook.bot_id data ≫= (fun k => sessions srv !! k) with
          | None => []
          | Some session =>
              if String.eqb (Webhook.event req) "transcript.data"
                 || String.eqb (Webhook.event req) "transcript.partial_data"
              then
                match Webhook.data_ data with
                | None => []
                | Some transcript =>
                    if String.eqb (Webhook.event req) "transcript.partial_data"
                    then []
                    else if negb (String.eqb (webhook_text transcript) "")
                         then [sse_transcript (webhook_message now transcript)]
                         else []
                end
              else if String.eqb (Webhook.event req) "participant_events.join"
              then
                match Webhook.data_ data ≫= Webhook.participant_ with
                | Some participant =>
                    [sse_participant_join (Webhook.name participant)
                       (Webhook.id participant) (Webhook.is_host participant)]
                | None => []
                end
              else []
          end
    | None => []
    end.

(** ** [app.post('/api/clear-sessions')] *)

(** A handler of the route waiting at [await Promise.all(stopPromises)]:
    the flushes, by agent and flush, and the DELETEs, by bot, that have not
    settled. *)
Module Clear.
Record t := {
  flushes : list (nat * nat);
  deletes : list string
}.
Definition empty : t := {| flushes := []; deletes := [] |}.
Definition settled (c : t) : bool :=
  Nat.eqb (length (flushes c)) 0 && Nat.eqb (length (deletes c)) 0.
End Clear.

(** The server with its event stream and the waiting handlers of the
    clear-sessions route. *)
Record hub := {
  server_ : server;
  stream : Stream.t;
  clearing : gmap nat Clear.t;
  nextClear : nat
}.

Definition empty_hub : hub :=
  {| server_ := empty_server; stream := Stream.empty; clearing := ∅;
     nextClear := 0 |}.

Definition set_server (srv : server) (h : hub) : hub :=
  {| server_ := srv; stream := stream h; clearing := clearing h;
     nextClear := nextClear h |}.

Definition set_stream (st : Stream.t) (h : hub) : hub :=
  {| server_ := server_ h; stream := st; clearing := clearing h;
     nextClear := nextClear h |}.

Definition set_clearing (c : gmap nat Clear.t) (h : hub) : hub :=
  {| server_ := server_ h; stream := stream h; clearing := c;
     nextClear := nextClear h |}.

Inductive hub_output :=
| Out (o : output)
| Write (res : nat) (c : chunk)
| Reply (r : reply).

Definition writes (ws : list (nat * chunk)) : list hub_output :=
  map (fun w => Write (fst w) (snd w)) ws.

Definition is_resolved (f : nat) (x : output) : bool :=
  match x with
  | Resolved_flushBuffer g => Nat.eqb f g
  | _ => false
  end.

(** One turn of the loop over [sessions.entries()]: the flush of the
    session's agent is started and the DELETE of its bot is sent, both
    without waiting. *)
Definition clear_one (cfg : Config) (now : Z)
    (st : server * Clear.t * list output) (botId : string)
  : server * Clear.t * list output :=
  let '(srv, c, o) := st in
  match sessions srv !! botId with
  | Some session =>
      let ref := Session.aiAgent session in
      let '(srv1, fl, o1) :=
        match agents srv !! ref with
        | Some m =>
            let '(m', om) := invoke cfg now call_flushBuffer m in
            (set_agents (<[ref := m']> (agents srv)) srv,
             if existsb (is_resolved (nextFlush m)) om then Clear.flushes c
             else Clear.flushes c ++ [(ref, nextFlush m)],
             om)
        | None => (srv, Clear.flushes c, [])
        end in
      (srv1,
       {| Clear.flushes := fl; Clear.deletes := Clear.deletes c ++ [botId] |},
       o ++ o1 ++ [Call (recall_delete_bot botId)])
  | None => st
  end.

(** The route after [await Promise.all(stopPromises)]. *)
Definition clear_finish (h : hub) : hub * list hub_output :=
  (set_stream (clear_clients (stream h))
     (set_server (set_sessions ∅ (server_ h)) h),
   [Reply (res_cleared (size (sessions (server_ h))))]).

(** The route up to [await Promise.all(stopPromises)]; [order] lists the
    keys of [sessions] in the order in which the [Map] iterates. *)
Definition clear_sessions (cfg : Config) (now : Z) (order : list string)
    (h : hub) : hub * list hub_output :=
  let '(srv1, c, o) :=
    foldl (clear_one cfg now) (server_ h, Clear.empty, []) order in
  let h1 := set_server srv1 h in
  if Clear.settled c then
    let '(h2, o2) := clear_finish h1 in (h2, map Out o ++ o2)
  else
    ({| server_ := srv1; stream := stream h;
        clearing := <[nextClear h := c]> (clearing h);
        nextClear := S (nextClear h) |},
     map Out o).

(** The handlers that have nothing left to wait for finish. *)
Definition finish_settled (h : hub) : hub * list hub_output :=
  foldl (fun '(h, o) '(i, c) =>
           if Clear.settled c then
             let '(h', o') :=
               clear_finish (set_clearing (delete i (clearing h)) h) in
             (h', o ++ o')
           else (h, o))
        (h, []) (map_to_list (clearing h)).

(** A flush of agent [ref] is reported resolved in [o]. *)
Definition flush_resolved (ref : nat) (o : list output) (fl : nat * nat) : bool :=
  Nat.eqb (fst fl) ref && existsb (is_resolved (snd fl)) o.

Definition resolve_flushes (ref : nat) (o : list output) (c : Clear.t)
  : Clear.t :=
  {| Clear.flushes :=
       List.filter (fun fl => negb (flush_resolved ref o fl)) (Clear.flushes c);
     Clear.deletes := Clear.deletes c |}.

(** Removes the first occurrence of [botId]. *)
Fixpoint delete_settled (botId : string) (l : list string) : list string :=
  match l with
  | [] => []
  | b :: l' => if String.eqb b botId then l' else b :: delete_settled botId l'
  end.

Inductive hub_event :=
| to_server (r : request)
| get_api_stream
| stream_closes (res : nat)
| keepalive_fires (res : nat)
| post_clear_sessions (order : list string)
| clear_delete_settles (clear : nat) (botId : string) (ok : bool).

(** The outputs of a webhook request with the writes of its broadcast at
    their place: a transcript is broadcast before it is handed to the
    agent, a join after. *)
Definition webhook_outputs (req : Webhook.request) (o : list output)
    (ws : list (nat * chunk)) : list hub_output :=
  match o with
  | x :: rest =>
      if String.eqb (Webhook.event req) "participant_events.join"
      then Out x :: map Out rest ++ writes ws
      else Out x :: writes ws ++ map Out rest
  | [] => writes ws
  end.

Definition hub_step (cfg : Config) (now : Z) (e : hub_event) (h : hub)
  : option (hub * list hub_output) :=
  match e with
  | to_server r =>
      '(srv', o) ← serve cfg now r (server_ h);
      let h1 := set_server srv' h in
      match r with
      | post_webhook req =>
          let ws :=
            flat_map (fun message => broadcast message (stream h))
              (webhook_broadcast cfg now req (server_ h)) in
          Some (h1, webhook_outputs req o ws)
      | agent_settles ref _ =>
          let '(h2, o2) :=
            finish_settled
              (set_clearing (resolve_flushes ref o <$> clearing h1) h1) in
          Some (h2, map Out o ++ o2)
      | _ => Some (h1, map Out o)
      end
  | get_api_stream =>
      let '(st, ws) := get_stream (stream h) in
      Some (set_stream st h, writes ws)
  | stream_closes res =>
      st ← stream_close res (stream h);
      Some (set_stream st h, [])
  | keepalive_fires res =>
      ws ← keepalive res (stream h);
      Some (h, writes ws)
  | post_clear_sessions order => Some (clear_sessions cfg now order h)
  | clear_delete_settles clear botId ok =>
      c ← clearing h !! clear;
      if existsb (String.eqb botId) (Clear.deletes c) then
        let c' := {| Clear.flushes := Clear.flushes c;
                     Clear.deletes := delete_settled botId (Clear.deletes c) |} in
        Some (finish_settled (set_clearing (<[clear := c']> (clearing h)) h))
      else None
  end.

Fixpoint hub_run (cfg : Config) (es : list (Z * hub_event)) (h : hub)
  : option (hub * list (list hub_output)) :=
  match es with
  | [] => Some (h, [])
  | (now, e) :: es' =>
      '(h1, o) ← hub_step cfg now e h;
      '(h2, os) ← hub_run cfg es' h1;
      Some (h2, o :: os)
  end.

(** ** Reading the outputs of the hub *)

(** What is written on response [res], in order. *)
Definition written (res : nat) (o : list hub_output) : list chunk :=
  omap (fun x => match x with
                 | Write r c => if Nat.eqb r res then Some c else None
                 | _ => None
                 end) o.

Definition hub_calls (o : list hub_output) : list call :=
  omap (fun x => match x with Out (Call c) => Some c | _ => None end) o.

Definition hub_replies (o : list hub_output) : list reply :=
  omap (fun x => match x with Reply r => Some r | _ => None end) o.

(** The state of the stream in every state the hub reaches: the set has no
    duplicates, its members are open, and open responses are numbered below
    [nextClient]. *)
Definition stream_ok (st : Stream.t) : Prop :=
  NoDup (Stream.sseClients st)
  /\ (forall res, In res (Stream.sseClients st) -> In res (Stream.open st))
  /\ (forall res, In res (Stream.open st) -> res < Stream.nextClient st).

Definition hub_state (cfg : Config) (es : list (Z * hub_event)) : hub :=
  from_option fst empty_hub (hub_run cfg es empty_hub).

Definition hub_outputs (cfg : Config) (es : list (Z * hub_event))
  : list (list hub_output) :=
  from_option snd [] (hub_run cfg es empty_hub).

(** Two dashboards connect, a bot is created and hears a line, and all
    sessions are cleared. *)
Definition dashboards : list (Z * hub_event) :=
  [(0%Z, get_api_stream);
   (1%Z, to_server (bot_created "bot-1" "https://zoom.us/j/1" ["+15550001"]));
   (2%Z, get_api_stream);
   (3%Z, to_server
           (post_webhook
              (transcript_request "bot-1" "Ann" (JNum 7) true ["Hello"; "there"])));
   (4%Z, post_clear_sessions ["bot-1"])].

(** What finishing clear handlers does to the hub. *)
Definition finished (h h' : hub) (o : list hub_output) : Prop :=
  Stream.open (stream h') = Stream.open (stream h)
  /\ Stream.nextClient (stream h') = Stream.nextClient (stream h)
  /\ agents (server_ h') = agents (server_ h)
  /\ nextClear h' = nextClear h
  /\ Forall (fun x => exists n, x = Reply (res_cleared n)) o
  /\ ((o = [] /\ server_ h' = server_ h /\ stream h' = stream h)
      \/ (sessions (server_ h') = ∅
          /\ Stream.sseClients (stream h') = []
          /\ exists o', o = Reply (res_cleared (size (sessions (server_ h))))
                            :: o')).

(** The bots of [order] that have a session. *)
Definition known (srv : server) (order : list string) : list string :=
  List.filter (fun botId => bool_decide (is_Some (sessions srv !! botId))) order.

(** A request to clear finds one session with a line in its buffer; its
    DELETE settles, the final analysis returns, and the text message that
    ends the SMS session is about to settle. *)
Definition clearing_run : list (Z * hub_event) :=
  dashboards
  ++ [(5%Z, clear_delete_settles 0 "bot-1" true);
      (6%Z, to_server (bot_created "bot-2" "https://meet.google.com/abc" []));
      (7%Z, to_server
              (agent_settles 0 (chat_settled 1 (chat_text "Nothing to coach"))))].

Definition hub_step_state (cfg : Config) (now : Z) (e : hub_event) (h : hub)
  : hub := from_option fst h (hub_step cfg now e h).

Definition hub_step_outputs (cfg : Config) (now : Z) (e : hub_event) (h : hub)
  : list hub_output := from_option snd [] (hub_step cfg now e h).

(** ** Steps of the agent *)

(** The settlement reports a failed analysis. *)
Definition is_failed_analysis (s : settlement) : bool :=
  match s with
  | chat_settled _ chat_throws => true
  | _ => false
  end.

Definition same_buffer (a a' : AIAgent.t) : Prop :=
  AIAgent.transcriptBuffer a' = AIAgent.transcriptBuffer a.

Definition same_lastCoachingTime (a a' : AIAgent.t) : Prop :=
  AIAgent.lastCoachingTime a' = AIAgent.lastCoachingTime a.

(** The decision of the reasoning engine is a [send_message]. *)
Definition is_send_message (r : chat_result) : bool :=
  match r with
  | chat_functionCall name _ => String.eqb name "send_message"
  | _ => false
  end.

(** The steps of a run that send the text messages of a session start. *)
Definition starts_sms_session (o : list output) : bool :=
  negb (Nat.eqb (length (calls_of k_sms_start o)) 0).

(** The host speaks first, the thread is created, and the analysis of the
    first six lines is in flight. *)
Definition analysis_in_flight : list (Z * event) :=
  five_lines
  ++ [(6%Z, Settle (slack_start_settled (Some (JStr "1700000000.000100"))));
      says 7 false "We have no budget this quarter"].

(** ** Calls and configuration *)

(** A call that the configuration and the start request allow for the
    agent of bot [botId] started with the numbers [phones]: to the reasoning
    engine; to Slack, in Slack mode and on the configured channel; a text,
    in SMS mode with credentials, from the configured service to one of the
    numbers; a direct message through the agent's own bot, in Zoom mode.
    An agent never deletes a bot. *)
Definition allowed (cfg : Config) (botId : string) (phones : list string)
    (c : call) : Prop :=
  match c with
  | chat_sendMessage _ _ => True
  | slack_postMessage channel _ =>
      includes "SLACK" (INTEGRATION_MODES cfg) = true
      /\ channel = SLACK_CHANNEL_ID cfg
  | twilio_create sid _ to =>
      includes "SMS" (INTEGRATION_MODES cfg) = true
      /\ TWILIO_CREDENTIALS cfg = true
      /\ sid = TWILIO_MESSAGING_SERVICE_SID cfg
      /\ In to phones
  | recall_send_chat_message bot _ _ =>
      includes "ZOOM_DM" (INTEGRATION_MODES cfg) = true /\ bot = botId
  | recall_delete_bot _ => False
  end.

(** The agent of bot [botId] with its managers as the constructor sets
    them up. *)
Definition configured (cfg : Config) (botId : string) (phones : list string)
    (a : AIAgent.t) : Prop :=
  AIAgent.botId a = botId
  /\ (forall s, AIAgent.slackThread a = Some s ->
                SlackThreadManager.channelId s = SLACK_CHANNEL_ID cfg)
  /\ (forall g, AIAgent.smsManager a = Some g ->
                SMSManager.phoneNumbers g = phones
                /\ SMSManager.messagingServiceSid g
                   = TWILIO_MESSAGING_SERVICE_SID cfg).

(** * Properties *)

(** ** Numbers as text *)

Lemma to_double_safe n : (Z.abs n < 2 ^ 53)%Z -> to_double n = n.
Proof.
  intros H. unfold to_double. cbv zeta.
  destruct (Z.leb_spec (Z.log2 (Z.abs n) - 52) 0) as [_|Hgt]; [done|].
  exfalso. assert (Hl : (Z.log2 (Z.abs n) < 53)%Z).
  { destruct (Z.eq_dec (Z.abs n) 0%Z) as [->|Hne]; [simpl; lia|].
    apply Z.log2_lt_pow2; lia. }
  lia.
Qed.

Lemma String_of_numbers :
  String_ (JNum 7) = "7"
  /\ String_ (JNum (-8)) = "-8"
  /\ String_ (JNum (2 ^ 53 + 1)) = "9007199254740992"
  /\ String_ (JNum (2 ^ 60)) = "1152921504606847000"
  /\ String_ (JNum (10 ^ 21)) = "1e+21"
  /\ String_ (JNum (2 ^ 70)) = "1.1805916207174113e+21".
Proof. vm_compute. auto 10. Qed.

(** ** Reading the outputs of a step *)

Lemma calls_app (o1 o2 : list output) : calls (o1 ++ o2) = calls o1 ++ calls o2.
Proof. apply omap_app. Qed.

Lemma calls_cons_print l (o : list output) : calls (Log l :: o) = calls o.
Proof. reflexivity. Qed.

Lemma calls_sendAll m body :
  calls (SMSManager.sendAll m body)
  = map (twilio_create (SMSManager.messagingServiceSid m) body)
      (SMSManager.phoneNumbers m).
Proof.
  unfold SMSManager.sendAll, SMSManager.sendSMS.
  induction (SMSManager.phoneNumbers m) as [|p ps IH]; simpl; [reflexivity|].
  unfold calls in *. simpl. by rewrite IH.
Qed.

Lemma sendCoachingReply_calls d m :
  calls (snd (SlackThreadManager.sendCoachingReply d m))
  = if truthy (SlackThreadManager.threadTs m)
    then [slack_postMessage (SlackThreadManager.channelId m)
            (SlackNudge (SlackThreadManager.threadTs m)
               (S (SlackThreadManager.nudgeCount m)) d)]
    else [].
Proof.
  unfold SlackThreadManager.sendCoachingReply.
  destruct (truthy (SlackThreadManager.threadTs m)); reflexivity.
Qed.

Lemma sendCoachingNudge_calls cfg d m :
  calls (snd (SMSManager.sendCoachingNudge cfg d m))
  = if negb (twilioClient cfg)
       || Nat.eqb (length (SMSManager.phoneNumbers m)) 0
       || negb (SMSManager.sessionActive m)
    then []
    else map (twilio_create (SMSManager.messagingServiceSid m)
                (SmsNudge (S (SMSManager.nudgeCount m)) d))
           (SMSManager.phoneNumbers m).
Proof.
  unfold SMSManager.sendCoachingNudge.
  destruct (_ || _ || _); [reflexivity|]. simpl. by rewrite calls_sendAll.
Qed.

(** The direct message of a dispatch goes to the agent's interviewer. *)
Lemma toSlack_no_direct cfg d a bot to m :
  ~ In (recall_send_chat_message bot to m)
      (calls (outs (snd (AIAgent.toSlack cfg d a)))).
Proof.
  unfold AIAgent.toSlack.
  destruct (AIAgent.slackThread a) as [s|]; [|simpl; tauto].
  destruct (includes "SLACK" _); [|simpl; tauto].
  pose proof (sendCoachingReply_calls d s) as Hc.
  destruct (SlackThreadManager.sendCoachingReply d s) as [s' o]. simpl in *.
  rewrite Hc. destruct (truthy _); simpl; [|tauto].
  intros [H|[]]. discriminate.
Qed.

Lemma toSMS_no_direct cfg d a bot to m :
  ~ In (recall_send_chat_message bot to m)
      (calls (outs (snd (AIAgent.toSMS cfg d a)))).
Proof.
  unfold AIAgent.toSMS.
  destruct (AIAgent.smsManager a) as [s|]; [|simpl; tauto].
  destruct (includes "SMS" _); [|simpl; tauto].
  pose proof (sendCoachingNudge_calls cfg d s) as Hc.
  destruct (SMSManager.sendCoachingNudge cfg d s) as [s' o]. simpl in *.
  rewrite Hc. destruct (_ || _ || _); simpl; [tauto|].
  rewrite in_map_iff. intros (p & Hp & _). discriminate.
Qed.

Lemma toSlack_interviewer cfg d a :
  AIAgent.interviewerId (fst (AIAgent.toSlack cfg d a)) = AIAgent.interviewerId a
  /\ AIAgent.botId (fst (AIAgent.toSlack cfg d a)) = AIAgent.botId a.
Proof.
  unfold AIAgent.toSlack.
  destruct (AIAgent.slackThread a); [|done].
  destruct (includes _ _); [|done].
  destruct (SlackThreadManager.sendCoachingReply d t). done.
Qed.

Lemma sendToAll_direct cfg now msg rsn a bot to m :
  In (recall_send_chat_message bot to m)
     (calls (AIAgent.sent_outputs (snd (AIAgent.sendToAll cfg now msg rsn a)))) ->
  bot = AIAgent.botId a
  /\ to = (if truthy (AIAgent.interviewerId a)
           then Some (String_ (AIAgent.interviewerId a)) else None)
  /\ m = msg.
Proof.
  unfold AIAgent.sendToAll, AIAgent.sent_outputs. simpl.
  rewrite !calls_app, !in_app_iff.
  intros [H|[H|H]].
  - by apply toSlack_no_direct in H.
  - destruct (toSlack_interviewer cfg
                (AIAgent.coachingData now msg rsn
                   (AIAgent.with_lastCoachingTime (Some now) a))
                (AIAgent.with_lastCoachingTime (Some now) a)) as [Hi Hb].
    unfold AIAgent.toZoom in H. rewrite Hi, Hb in H.
    destruct (includes "ZOOM_DM" _); simpl in H; [|tauto].
    destruct H as [H|[]]. by inversion H.
  - by apply toSMS_no_direct in H.
Qed.

Lemma analyzeBatch_settled_send_message cfg now args a :
  AIAgent.analyzeBatch_settled cfg now (chat_functionCall "send_message" args) a
  = if truthy (AIAgent.interviewerId a) then
      let '(a', s) :=
        AIAgent.sendToAll cfg now (FunctionCall.message args)
          (FunctionCall.reason args) a in
      (a', Log (log_sending_coaching (AIAgent.interviewerName a))
             :: AIAgent.sent_outputs s, Some s)
    else (a, [Log log_no_sales_rep], None).
Proof. reflexivity. Qed.

Lemma sendToAll_direct_sent cfg now msg rsn a :
  includes "ZOOM_DM" (INTEGRATION_MODES cfg) = true ->
  truthy (AIAgent.interviewerId a) = true ->
  In (recall_send_chat_message (AIAgent.botId a)
        (Some (String_ (AIAgent.interviewerId a))) msg)
     (calls (AIAgent.sent_outputs (snd (AIAgent.sendToAll cfg now msg rsn a)))).
Proof.
  intros Hz Hid. unfold AIAgent.sendToAll, AIAgent.sent_outputs. simpl.
  rewrite !calls_app, !in_app_iff. right. left.
  destruct (toSlack_interviewer cfg
              (AIAgent.coachingData now msg rsn
                 (AIAgent.with_lastCoachingTime (Some now) a))
              (AIAgent.with_lastCoachingTime (Some now) a)) as [Hi Hb].
  unfold AIAgent.toZoom. rewrite Hz, Hi, Hb. simpl. rewrite Hid. by left.
Qed.

(** C1. A [send_message] decision is delivered to the interviewer the agent
    has resolved: every direct message of the dispatch is addressed to
    [interviewerId], whatever participant the reasoning engine named (the
    outcome does not depend on [participant_id] or [participant_name]), and
    with the direct channel enabled that message is sent; when no
    interviewer is resolved the decision is dropped: the agent is unchanged,
    no call is issued and nothing is awaited. *)
Theorem directive_addressed_to_host cfg now a args a' o d :
  AIAgent.analyzeBatch_settled cfg now (chat_functionCall "send_message" args) a
  = (a', o, d) ->
  (forall bot to msg,
     In (recall_send_chat_message bot to msg) (calls o) ->
     truthy (AIAgent.interviewerId a) = true
     /\ bot = AIAgent.botId a
     /\ to = Some (String_ (AIAgent.interviewerId a))
     /\ msg = FunctionCall.message args)
  /\ (forall id name,
        AIAgent.analyzeBatch_settled cfg now
          (chat_functionCall "send_message"
             {| FunctionCall.participant_id := id;
                FunctionCall.participant_name := name;
                FunctionCall.message := FunctionCall.message args;
                FunctionCall.reason := FunctionCall.reason args |}) a
        = (a', o, d))
  /\ (truthy (AIAgent.interviewerId a) = true ->
      includes "ZOOM_DM" (INTEGRATION_MODES cfg) = true ->
      In (recall_send_chat_message (AIAgent.botId a)
            (Some (String_ (AIAgent.interviewerId a)))
            (FunctionCall.message args)) (calls o))
  /\ (truthy (AIAgent.interviewerId a) = false ->
      a' = a /\ calls o = [] /\ d = None).
Proof.
  intros H. rewrite analyzeBatch_settled_send_message in H.
  split; [|split; [|split]].
  - intros bot to msg Hin.
    destruct (truthy (AIAgent.interviewerId a)) eqn:Hid.
    + destruct (AIAgent.sendToAll _ _ _ _ _) as [a1 s] eqn:Hs.
      inversion H; subst; clear H. rewrite calls_cons_print in Hin.
      pose proof (sendToAll_direct cfg now (FunctionCall.message args)
                    (FunctionCall.reason args) a bot to msg) as Hd.
      rewrite Hs, Hid in Hd. specialize (Hd Hin). tauto.
    + inversion H; subst. simpl in Hin. tauto.
  - intros id name. rewrite analyzeBatch_settled_send_message. exact H.
  - intros Hid Hz. rewrite Hid in H.
    pose proof (sendToAll_direct_sent cfg now (FunctionCall.message args)
                  (FunctionCall.reason args) a Hz Hid) as Hd.
    destruct (AIAgent.sendToAll _ _ _ _ _) as [a1 s].
    inversion H; subst. by rewrite calls_cons_print.
  - intros Hid. rewrite Hid in H. inversion H. done.
Qed.

Lemma directive_addressed_to_host_witness :
  calls (snd (fst (AIAgent.analyzeBatch_settled cfg_all 9
                     (directive (JNum 8) "Bob") agent0))) = [].
Proof.
  pose proof (directive_addressed_to_host cfg_all 9 agent0
                (args_for (JNum 8) "Bob") _ _ _ eq_refl) as (_ & _ & _ & H).
  destruct (H eq_refl) as (_ & Hc & _). exact Hc.
Defined.


(** ** Fields that a piece of code leaves alone

    Most of the agent's code touches only the channel managers.  The lemmas
    of this section transport any relation [R] between the agent before and
    after that is reflexive, transitive and holds across the elementary
    updates a piece of code makes. *)

Arguments AIAgent.sendToAll : simpl never.
Arguments AIAgent.endAll : simpl never.
Arguments AIAgent.setInterviewer : simpl never.
Arguments AIAgent.analyzeBatch_settled : simpl never.
Arguments flushBuffer_rest : simpl never.
Arguments join : simpl never.
Arguments end_join : simpl never.

Section Frame.

Variable R : AIAgent.t -> AIAgent.t -> Prop.
Hypothesis R_refl : forall a, R a a.
Hypothesis R_trans : forall a b c, R a b -> R b c -> R a c.
Hypothesis R_slackThread : forall s a, R a (AIAgent.with_slackThread s a).
Hypothesis R_smsManager : forall s a, R a (AIAgent.with_smsManager s a).
Hypothesis R_lastCoachingTime :
  forall x a, R a (AIAgent.with_lastCoachingTime x a).
Hypothesis R_interviewer :
  forall id name a, R a (AIAgent.with_interviewer id name a).
Hypothesis R_buffer_cleared : forall a, R a (AIAgent.with_buffer [] a).

Lemma initializeSlackThread_frame now name a :
  R a (fst (AIAgent.initializeSlackThread now name a)).
Proof.
  unfold AIAgent.initializeSlackThread.
  destruct (AIAgent.slackThread a); [|done].
  destruct (negb _); [|done]. apply R_slackThread.
Qed.

Lemma initializeSlackThread_settled_frame r a :
  R a (fst (AIAgent.initializeSlackThread_settled r a)).
Proof.
  unfold AIAgent.initializeSlackThread_settled.
  destruct (AIAgent.slackThread a) as [s|]; [|done].
  destruct (SlackThreadManager.startSessionThread_settled r s).
  apply R_slackThread.
Qed.

Lemma setInterviewer_frame cfg now name id a :
  R a (fst (AIAgent.setInterviewer cfg now name id a)).
Proof.
  unfold AIAgent.setInterviewer.
  destruct (negb _); [|done].
  set (a1 := AIAgent.with_interviewer id name a).
  assert (H1 : R a a1) by apply R_interviewer.
  assert (H2 : R a (fst (if includes "SLACK" (INTEGRATION_MODES cfg)
                            && bool_decide (is_Some (AIAgent.slackThread a1))
                         then AIAgent.initializeSlackThread now name a1
                         else (a1, [])))).
  { destruct (_ && _); [|done].
    eapply R_trans; [exact H1|apply initializeSlackThread_frame]. }
  destruct (if _ && _ then _ else _) as [a2 o1]. cbn [fst] in H2.
  destruct (AIAgent.smsManager a2); [|done].
  destruct (includes "SMS" _); [|done].
  destruct (SMSManager.startSession _ _ _). cbn [fst].
  eapply R_trans; [exact H2|apply R_smsManager].
Qed.

Lemma toSlack_frame cfg d a : R a (fst (AIAgent.toSlack cfg d a)).
Proof.
  unfold AIAgent.toSlack.
  destruct (AIAgent.slackThread a) as [s|]; [|done].
  destruct (includes _ _); [|done].
  destruct (SlackThreadManager.sendCoachingReply d s). apply R_slackThread.
Qed.

Lemma toSMS_frame cfg d a : R a (fst (AIAgent.toSMS cfg d a)).
Proof.
  unfold AIAgent.toSMS.
  destruct (AIAgent.smsManager a) as [s|]; [|done].
  destruct (includes _ _); [|done].
  destruct (SMSManager.sendCoachingNudge cfg d s). apply R_smsManager.
Qed.

Lemma sendToAll_frame cfg now msg rsn a :
  R a (fst (AIAgent.sendToAll cfg now msg rsn a)).
Proof.
  unfold AIAgent.sendToAll. cbn [fst].
  eapply R_trans; [|apply toSMS_frame].
  eapply R_trans; [|apply toSlack_frame]. apply R_lastCoachingTime.
Qed.

Lemma analyzeBatch_settled_frame cfg now r a :
  R a (fst (fst (AIAgent.analyzeBatch_settled cfg now r a))).
Proof.
  unfold AIAgent.analyzeBatch_settled.
  destruct r as [|name args|t]; cbn [fst]; [apply R_buffer_cleared| |done].
  destruct (String.eqb name "send_message"); [|done].
  destruct (truthy _); [|done].
  pose proof (sendToAll_frame cfg now (FunctionCall.message args)
                (FunctionCall.reason args) a) as H.
  destruct (AIAgent.sendToAll _ _ _ _ _). done.
Qed.

Lemma endSlack_frame cfg now a : R a (fst (AIAgent.endSlack cfg now a)).
Proof.
  unfold AIAgent.endSlack.
  destruct (AIAgent.slackThread a) as [s|]; [|done].
  destruct (_ && _); [|done].
  destruct (SlackThreadManager.endSessionThread now s). apply R_slackThread.
Qed.

Lemma endSMS_frame cfg now a : R a (fst (AIAgent.endSMS cfg now a)).
Proof.
  unfold AIAgent.endSMS.
  destruct (AIAgent.smsManager a) as [s|]; [|done].
  destruct (_ && _); [|done].
  destruct (SMSManager.endSession cfg now s). apply R_smsManager.
Qed.

Lemma endAll_frame cfg now a : R a (fst (AIAgent.endAll cfg now a)).
Proof.
  unfold AIAgent.endAll. cbn [fst].
  eapply R_trans; [apply endSlack_frame|apply endSMS_frame].
Qed.

Lemma flushBuffer_rest_frame cfg now f m :
  R (agent m) (agent (fst (flushBuffer_rest cfg now f m))).
Proof.
  unfold flushBuffer_rest.
  pose proof (endAll_frame cfg now (agent m)) as H.
  destruct (AIAgent.endAll cfg now (agent m)) as [a e]. cbn [fst] in H.
  repeat match goal with
         | |- context [if ?x then _ else _] => destruct x
         end; exact H.
Qed.

Lemma resume_frame cfg now k m :
  R (agent m) (agent (fst (resume cfg now k m))).
Proof. destruct k; [apply R_refl|apply flushBuffer_rest_frame]. Qed.

Lemma join_frame cfg now b j m o :
  R (agent m) (agent (fst (join cfg now b j m o))).
Proof.
  unfold join. destruct (Join.settled j); [|apply R_refl].
  pose proof (resume_frame cfg now (Join.caller_ j)
                (set_sends (delete b (sends m)) m)) as H.
  destruct (resume _ _ _ _). exact H.
Qed.

Lemma end_join_frame f j m o : R (agent m) (agent (fst (end_join f j m o))).
Proof. unfold end_join. destruct (EndJoin.settled j); apply R_refl. Qed.

Lemma settle_frame cfg now s m m' o :
  settle cfg now s m = Some (m', o) -> R (agent m) (agent m').
Proof.
  destruct s; simpl; intros H.
  - destruct (chats m !! batch) as [k|]; [|done]. simpl in H.
    pose proof (analyzeBatch_settled_frame cfg now r (agent m)) as Hd.
    destruct (AIAgent.analyzeBatch_settled _ _ _ _) as [[a o0] d].
    cbn [fst] in Hd. destruct d as [d|].
    + match type of H with
      | Some (join ?c ?n ?b ?j ?m1 ?o1) = _ =>
          pose proof (join_frame c n b j m1 o1) as Hj
      end.
      inversion H as [He]. rewrite He in Hj. cbn [fst] in Hj.
      eapply R_trans; [exact Hd|].
      destruct (has_call (outs (AIAgent.sms d))); exact Hj.
    + pose proof (resume_frame cfg now k
                    (set_agent a (set_chats (delete batch (chats m)) m))) as Hr.
      destruct (resume _ _ _ _) as [m2 o2]. inversion H; subst.
      eapply R_trans; [exact Hd|exact Hr].
  - destruct (slackStarts m); [done|].
    pose proof (initializeSlackThread_settled_frame r (agent m)) as Hi.
    destruct (AIAgent.initializeSlackThread_settled r (agent m)).
    inversion H; subst. exact Hi.
  - destruct (sends m !! batch) as [j|]; [|done]. simpl in H.
    destruct (Join.slack j); [|done].
    match type of H with
    | Some (join ?c ?n ?b ?j ?m1 ?o1) = _ =>
        pose proof (join_frame c n b j m1 o1) as Hj
    end.
    inversion H as [He]. rewrite He in Hj. exact Hj.
  - destruct (sends m !! batch) as [j|]; [|done]. simpl in H.
    destruct (Join.zoom j); [|done].
    match type of H with
    | Some (join ?c ?n ?b ?j ?m1 ?o1) = _ =>
        pose proof (join_frame c n b j m1 o1) as Hj
    end.
    inversion H as [He]. rewrite He in Hj. exact Hj.
  - destruct (smsNudges m !! batch) as [p|]; [|done]. simpl in H.
    destruct (PromiseAll.settle i ok p) as [[p' all]|]; [|done]. simpl in H.
    destruct all as [ok_all|]; [|inversion H; subst; apply R_refl].
    match type of H with
    | context [sends ?m1 !! batch] => destruct (sends m1 !! batch) as [j|]
    end; [|inversion H; subst; apply R_refl].
    match type of H with
    | context [AIAgent.smsManager ?a1] =>
        destruct (AIAgent.smsManager a1) as [mgr|]
    end; [|inversion H; subst; apply R_refl].
    match type of H with
    | Some (join ?c ?n ?b ?j ?m1 ?o1) = _ =>
        pose proof (join_frame c n b j m1 o1) as Hj
    end.
    inversion H as [He]. rewrite He in Hj. exact Hj.
  - destruct (flushes m !! flush) as [j|]; [|done]. simpl in H.
    destruct (EndJoin.slack j); [|done].
    destruct (AIAgent.slackThread (agent m)) as [t|]; [|done].
    destruct (SlackThreadManager.endSessionThread_settled ok t) as [t' o0].
    match type of H with
    | Some (end_join ?f ?j ?m1 ?o1) = _ =>
        pose proof (end_join_frame f j m1 o1) as Hj
    end.
    inversion H as [He]. rewrite He in Hj. cbn [fst agent set_agent] in Hj.
    eapply R_trans; [|exact Hj]. apply R_slackThread.
  - destruct (smsEnds m !! flush) as [p|]; [|done]. simpl in H.
    destruct (PromiseAll.settle i ok p) as [[p' all]|]; [|done]. simpl in H.
    destruct all as [ok_all|]; [|inversion H; subst; apply R_refl].
    match type of H with
    | context [flushes ?m1 !! flush] => destruct (flushes m1 !! flush) as [j|]
    end; [|inversion H; subst; apply R_refl].
    match type of H with
    | context [AIAgent.smsManager ?a1] =>
        destruct (AIAgent.smsManager a1) as [mgr|]
    end; [|inversion H; subst; apply R_refl].
    destruct (SMSManager.endSession_settled ok_all mgr) as [mgr' o1].
    match type of H with
    | Some (end_join ?f ?j ?m1 ?o1) = _ =>
        pose proof (end_join_frame f j m1 o1) as Hj
    end.
    inversion H as [He]. rewrite He in Hj. cbn [fst agent set_agent] in Hj.
    eapply R_trans; [|exact Hj]. apply R_smsManager.
Qed.

End Frame.

Lemma suspend_agent k o m : agent (suspend k o m) = agent m.
Proof.
  unfold suspend. revert m.
  induction o as [|x o IH]; intros m; simpl; [done|].
  rewrite IH. destruct x as [c| | |]; try done.
  destruct c; try done. destruct msg; done.
Qed.

(** *** The batcher: buffer, batch size and batch count *)

Lemma same_batcher_trans a b c :
  same_batcher a b -> same_batcher b c -> same_batcher a c.
Proof. unfold same_batcher. intuition congruence. Qed.

Lemma buffer_kept_or_cleared_trans a b c :
  buffer_kept_or_cleared a b -> buffer_kept_or_cleared b c ->
  buffer_kept_or_cleared a c.
Proof. unfold buffer_kept_or_cleared. intuition congruence. Qed.

Lemma settle_buffer cfg now s m m' o :
  settle cfg now s m = Some (m', o) ->
  buffer_kept_or_cleared (agent m) (agent m').
Proof.
  apply settle_frame; try (unfold buffer_kept_or_cleared; simpl; by auto).
  apply buffer_kept_or_cleared_trans.
Qed.

Lemma setInterviewer_batcher cfg now name id a :
  same_batcher a (fst (AIAgent.setInterviewer cfg now name id a)).
Proof.
  apply setInterviewer_frame; try done. apply same_batcher_trans.
Qed.

Lemma flushBuffer_rest_batcher cfg now f m :
  same_batcher (agent m) (agent (fst (flushBuffer_rest cfg now f m))).
Proof.
  apply flushBuffer_rest_frame; try done. apply same_batcher_trans.
Qed.


(** ** The kinds of call each piece of code can issue *)

Lemma all_kind_nil ks : all_kind ks [].
Proof. constructor. Qed.

Lemma all_kind_app ks o1 o2 :
  all_kind ks o1 -> all_kind ks o2 -> all_kind ks (o1 ++ o2).
Proof. unfold all_kind. rewrite calls_app. apply Forall_app_2. Qed.

Lemma all_kind_print ks l o : all_kind ks o -> all_kind ks (Log l :: o).
Proof. done. Qed.

Lemma all_kind_mono ks ks' o :
  (forall k, In k ks -> In k ks') -> all_kind ks o -> all_kind ks' o.
Proof.
  intros H Ho. unfold all_kind in *. eapply Forall_impl; [exact Ho|].
  simpl. auto.
Qed.

Lemma all_kind_no ks k o :
  all_kind ks o -> ~ In k ks -> calls_of k o = [].
Proof.
  unfold all_kind, calls_of. intros H Hk.
  induction H as [|c l Hc _ IH]; [done|].
  rewrite filter_cons. destruct (decide (kind_of c = k)); [|done].
  subst. contradiction.
Qed.

Lemma all_kind_sendAll ks m body :
  In (kind_of (twilio_create (SMSManager.messagingServiceSid m) body "")) ks ->
  all_kind ks (SMSManager.sendAll m body).
Proof.
  intros H. unfold all_kind. rewrite calls_sendAll.
  apply Forall_map, Forall_forall. intros p _. destruct body; exact H.
Qed.

Lemma sendCoachingReply_kind d m :
  all_kind [k_nudge] (snd (SlackThreadManager.sendCoachingReply d m)).
Proof.
  unfold SlackThreadManager.sendCoachingReply.
  destruct (negb _); repeat constructor.
Qed.

Lemma endSessionThread_kind now m :
  all_kind [k_summary] (snd (SlackThreadManager.endSessionThread now m)).
Proof.
  unfold SlackThreadManager.endSessionThread.
  destruct (negb _); repeat constructor.
Qed.

Lemma startSession_kind cfg info m :
  all_kind [k_sms_start] (snd (SMSManager.startSession cfg info m)).
Proof.
  unfold SMSManager.startSession.
  destruct (_ || _); [repeat constructor|].
  apply all_kind_sendAll. simpl. auto.
Qed.

Lemma sendCoachingNudge_kind cfg d m :
  all_kind [k_nudge] (snd (SMSManager.sendCoachingNudge cfg d m)).
Proof.
  unfold SMSManager.sendCoachingNudge.
  destruct (_ || _ || _); [repeat constructor|].
  apply all_kind_sendAll. simpl. auto.
Qed.

Lemma endSession_kind cfg now m :
  all_kind [k_summary] (snd (SMSManager.endSession cfg now m)).
Proof.
  unfold SMSManager.endSession.
  destruct (_ || _ || _); [repeat constructor|].
  apply all_kind_sendAll. simpl. auto.
Qed.

Lemma toSlack_kind cfg d a : all_kind [k_nudge] (outs (snd (AIAgent.toSlack cfg d a))).
Proof.
  unfold AIAgent.toSlack.
  destruct (AIAgent.slackThread a) as [s|]; [|apply all_kind_nil].
  destruct (includes _ _); [|apply all_kind_nil].
  pose proof (sendCoachingReply_kind d s).
  destruct (SlackThreadManager.sendCoachingReply d s). done.
Qed.

Lemma toZoom_kind cfg msg a : all_kind [k_nudge] (outs (AIAgent.toZoom cfg msg a)).
Proof.
  unfold AIAgent.toZoom. destruct (includes _ _); repeat constructor.
Qed.

Lemma toSMS_kind cfg d a : all_kind [k_nudge] (outs (snd (AIAgent.toSMS cfg d a))).
Proof.
  unfold AIAgent.toSMS.
  destruct (AIAgent.smsManager a) as [s|]; [|apply all_kind_nil].
  destruct (includes _ _); [|apply all_kind_nil].
  pose proof (sendCoachingNudge_kind cfg d s).
  destruct (SMSManager.sendCoachingNudge cfg d s). done.
Qed.

Lemma sendToAll_kind cfg now msg rsn a :
  all_kind [k_nudge]
    (AIAgent.sent_outputs (snd (AIAgent.sendToAll cfg now msg rsn a))).
Proof.
  unfold AIAgent.sendToAll, AIAgent.sent_outputs. cbn [snd AIAgent.slack
    AIAgent.zoom AIAgent.sms].
  repeat apply all_kind_app.
  - apply toSlack_kind.
  - apply toZoom_kind.
  - apply toSMS_kind.
Qed.

Lemma endSlack_kind cfg now a :
  all_kind [k_summary] (outs (snd (AIAgent.endSlack cfg now a))).
Proof.
  unfold AIAgent.endSlack.
  destruct (AIAgent.slackThread a) as [s|]; [|apply all_kind_nil].
  destruct (_ && _); [|apply all_kind_nil].
  pose proof (endSessionThread_kind now s).
  destruct (SlackThreadManager.endSessionThread now s). done.
Qed.

Lemma endSMS_kind cfg now a :
  all_kind [k_summary] (outs (snd (AIAgent.endSMS cfg now a))).
Proof.
  unfold AIAgent.endSMS.
  destruct (AIAgent.smsManager a) as [s|]; [|apply all_kind_nil].
  destruct (_ && _); [|apply all_kind_nil].
  pose proof (endSession_kind cfg now s).
  destruct (SMSManager.endSession cfg now s). done.
Qed.

Lemma endAll_kind cfg now a :
  all_kind [k_summary] (AIAgent.ended_outputs (snd (AIAgent.endAll cfg now a))).
Proof.
  unfold AIAgent.endAll, AIAgent.ended_outputs.
  cbn [snd AIAgent.slack_end AIAgent.sms_end].
  apply all_kind_app; [apply endSlack_kind|apply endSMS_kind].
Qed.

Lemma initializeSlackThread_kind now name a :
  all_kind [k_slack_start] (snd (AIAgent.initializeSlackThread now name a)).
Proof.
  unfold AIAgent.initializeSlackThread.
  destruct (AIAgent.slackThread a) as [s|]; [|apply all_kind_nil].
  destruct (negb _); [|apply all_kind_nil]. repeat constructor.
Qed.

Lemma setInterviewer_kind cfg now name id a :
  all_kind [k_slack_start; k_sms_start]
    (snd (AIAgent.setInterviewer cfg now name id a)).
Proof.
  unfold AIAgent.setInterviewer.
  destruct (negb _); [|apply all_kind_nil].
  set (a1 := AIAgent.with_interviewer id name a).
  assert (Hs : all_kind [k_slack_start; k_sms_start]
                 (snd (if includes "SLACK" (INTEGRATION_MODES cfg)
                          && bool_decide (is_Some (AIAgent.slackThread a1))
                       then AIAgent.initializeSlackThread now name a1
                       else (a1, [])))).
  { destruct (_ && _); [|apply all_kind_nil].
    eapply all_kind_mono; [|apply initializeSlackThread_kind].
    simpl. intuition. }
  destruct (if _ && _ then _ else _) as [a2 o1]. cbn [snd] in Hs.
  destruct (AIAgent.smsManager a2) as [g|]; cbn [snd].
  - destruct (includes "SMS" _); cbn [snd].
    + pose proof (startSession_kind cfg (AIAgent.sessionInfo now name a2) g) as H.
      destruct (SMSManager.startSession _ _ _) as [g' o2]. cbn [snd] in *.
      apply all_kind_app; [done|].
      eapply all_kind_mono; [|exact H]. simpl. intuition.
    + apply all_kind_app; [done|apply all_kind_nil].
  - apply all_kind_app; [done|apply all_kind_nil].
Qed.

Lemma analyzeBatch_kind a : all_kind [k_chat] (snd (AIAgent.analyzeBatch a)).
Proof.
  unfold AIAgent.analyzeBatch. destruct (Nat.eqb _ _); repeat constructor.
Qed.

Lemma analyzeBatch_settled_kind cfg now r a :
  all_kind [k_nudge] (snd (fst (AIAgent.analyzeBatch_settled cfg now r a))).
Proof.
  unfold AIAgent.analyzeBatch_settled.
  destruct r as [|name args|t];
    [repeat constructor| |apply all_kind_print, all_kind_nil].
  destruct (String.eqb _ _); [|apply all_kind_nil].
  destruct (truthy _); [|repeat constructor].
  pose proof (sendToAll_kind cfg now (FunctionCall.message args)
                (FunctionCall.reason args) a) as H.
  destruct (AIAgent.sendToAll _ _ _ _ _). cbn [fst snd] in *.
  by apply all_kind_print.
Qed.

Lemma flushBuffer_ended_kind ks n : all_kind ks (AIAgent.flushBuffer_ended n).
Proof. unfold AIAgent.flushBuffer_ended. destruct (_ <? _)%nat; repeat constructor. Qed.

Lemma flushBuffer_rest_kind cfg now f m :
  all_kind [k_summary] (snd (flushBuffer_rest cfg now f m)).
Proof.
  unfold flushBuffer_rest.
  pose proof (endAll_kind cfg now (agent m)) as H.
  destruct (AIAgent.endAll cfg now (agent m)) as [a e]. cbn [snd] in H.
  destruct (EndJoin.settled _); cbn [snd]; [|done].
  apply all_kind_app; [done|].
  apply all_kind_app; [apply flushBuffer_ended_kind|repeat constructor].
Qed.

Lemma resume_kind cfg now k m : all_kind [k_summary] (snd (resume cfg now k m)).
Proof. destruct k; [apply all_kind_nil|apply flushBuffer_rest_kind]. Qed.

Lemma join_kind cfg now b j m o ks :
  all_kind ks o -> In k_summary ks ->
  all_kind ks (snd (join cfg now b j m o)).
Proof.
  intros Ho Hk. unfold join. destruct (Join.settled j); [|done].
  pose proof (resume_kind cfg now (Join.caller_ j)
                (set_sends (delete b (sends m)) m)) as H.
  destruct (resume _ _ _ _) as [m' o']. cbn [snd] in *.
  apply all_kind_app; [done|].
  apply all_kind_app; [repeat constructor|].
  eapply all_kind_mono; [|exact H]. intros k [<-|[]]. done.
Qed.

Lemma end_join_kind f j m o ks :
  all_kind ks o -> all_kind ks (snd (end_join f j m o)).
Proof.
  intros Ho. unfold end_join. destruct (EndJoin.settled j); [|done].
  cbn [snd]. apply all_kind_app; [done|].
  apply all_kind_app; [apply flushBuffer_ended_kind|repeat constructor].
Qed.

Ltac use_join H Ho Hk :=
  match type of H with
  | Some (join ?c ?n ?b ?j ?m ?o) = Some _ =>
      let Hj := fresh in
      pose proof (join_kind c n b j m o _ Ho Hk) as Hj;
      inversion H as [He]; rewrite He in Hj; exact Hj
  | Some (end_join ?f ?j ?m ?o) = Some _ =>
      let Hj := fresh in
      pose proof (end_join_kind f j m o _ Ho) as Hj;
      inversion H as [He]; rewrite He in Hj; exact Hj
  end.

(** A settlement issues nudges (the dispatch of a decision) and summaries
    (a flush going on); it never starts an analysis or a thread. *)
Lemma settle_kind cfg now s m m' o :
  settle cfg now s m = Some (m', o) -> all_kind [k_nudge; k_summary] o.
Proof.
  assert (Hn : forall o, all_kind [k_nudge] o -> all_kind [k_nudge; k_summary] o).
  { intros o0. apply all_kind_mono. simpl. intuition. }
  assert (Hs : forall o, all_kind [k_summary] o -> all_kind [k_nudge; k_summary] o).
  { intros o0. apply all_kind_mono. simpl. intuition. }
  assert (Hk : In k_summary [k_nudge; k_summary]) by (simpl; auto).
  assert (Hsms : forall a i ok,
             all_kind [k_nudge; k_summary]
               [SMSManager.sendSMS_settled (phone a i) ok]).
  { intros a i ok. unfold SMSManager.sendSMS_settled.
    destruct ok; repeat constructor. }
  destruct s; simpl; intros H.
  - destruct (chats m !! batch) as [k|]; [|done]. simpl in H.
    pose proof (analyzeBatch_settled_kind cfg now r (agent m)) as Hd.
    destruct (AIAgent.analyzeBatch_settled _ _ _ _) as [[a o0] d].
    cbn [fst snd] in Hd. apply Hn in Hd. destruct d as [d|].
    + use_join H Hd Hk.
    + pose proof (resume_kind cfg now k
                    (set_agent a (set_chats (delete batch (chats m)) m))) as Hr.
      destruct (resume _ _ _ _) as [m2 o2]. inversion H; subst.
      apply all_kind_app; auto.
  - destruct (slackStarts m); [done|].
    unfold AIAgent.initializeSlackThread_settled in H.
    destruct (AIAgent.slackThread (agent m)) as [t|].
    + unfold SlackThreadManager.startSessionThread_settled in H.
      destruct r; inversion H; repeat constructor.
    + inversion H. apply all_kind_nil.
  - destruct (sends m !! batch) as [j|]; [|done]. simpl in H.
    destruct (Join.slack j); [|done].
    match type of H with
    | Some (join _ _ _ _ _ ?o0) = _ =>
        assert (Ho : all_kind [k_nudge; k_summary] o0)
    end.
    { destruct (AIAgent.slackThread (agent m)); [|apply all_kind_nil].
      unfold SlackThreadManager.sendCoachingReply_settled.
      destruct ok; repeat constructor. }
    use_join H Ho Hk.
  - destruct (sends m !! batch) as [j|]; [|done]. simpl in H.
    destruct (Join.zoom j); [|done].
    match type of H with
    | Some (join _ _ _ _ _ ?o0) = _ =>
        assert (Ho : all_kind [k_nudge; k_summary] o0)
    end.
    { destruct r; repeat constructor. }
    use_join H Ho Hk.
  - destruct (smsNudges m !! batch) as [p|]; [|done]. simpl in H.
    destruct (PromiseAll.settle i ok p) as [[p' all]|]; [|done]. simpl in H.
    specialize (Hsms (agent m) i ok).
    destruct all as [ok_all|]; [|by inversion H; subst].
    match type of H with
    | context [sends ?m1 !! batch] => destruct (sends m1 !! batch) as [j|]
    end; [|by inversion H; subst].
    match type of H with
    | context [AIAgent.smsManager ?a1] =>
        destruct (AIAgent.smsManager a1) as [mgr|]
    end; [|by inversion H; subst].
    match type of H with
    | Some (join _ _ _ _ _ ?o0) = _ =>
        assert (Ho : all_kind [k_nudge; k_summary] o0)
    end.
    { apply (all_kind_app _ [_]); [done|].
      unfold SMSManager.sendCoachingNudge_settled.
      destruct ok_all; repeat constructor. }
    use_join H Ho Hk.
  - destruct (flushes m !! flush) as [j|]; [|done]. simpl in H.
    destruct (EndJoin.slack j); [|done].
    destruct (AIAgent.slackThread (agent m)) as [t|]; [|done].
    destruct (SlackThreadManager.endSessionThread_settled ok t) as [t' o0] eqn:Ht.
    assert (Ho : all_kind [k_nudge; k_summary] o0).
    { unfold SlackThreadManager.endSessionThread_settled in Ht.
      destruct ok; inversion Ht; repeat constructor. }
    use_join H Ho Hk.
  - destruct (smsEnds m !! flush) as [p|]; [|done]. simpl in H.
    destruct (PromiseAll.settle i ok p) as [[p' all]|]; [|done]. simpl in H.
    specialize (Hsms (agent m) i ok).
    destruct all as [ok_all|]; [|by inversion H; subst].
    match type of H with
    | context [flushes ?m1 !! flush] => destruct (flushes m1 !! flush) as [j|]
    end; [|by inversion H; subst].
    match type of H with
    | context [AIAgent.smsManager ?a1] =>
        destruct (AIAgent.smsManager a1) as [mgr|]
    end; [|by inversion H; subst].
    destruct (SMSManager.endSession_settled ok_all mgr) as [mgr' o1] eqn:Hm.
    match type of H with
    | Some (end_join _ _ _ ?o0) = _ =>
        assert (Ho : all_kind [k_nudge; k_summary] o0)
    end.
    { apply (all_kind_app _ [_]); [done|].
      unfold SMSManager.endSession_settled in Hm.
      destruct ok_all; inversion Hm; repeat constructor. }
    use_join H Ho Hk.
Qed.


(** ** Batching *)

Lemma calls_of_app k o1 o2 : calls_of k (o1 ++ o2) = calls_of k o1 ++ calls_of k o2.
Proof. unfold calls_of. by rewrite calls_app, filter_app. Qed.

Lemma calls_of_print k l o : calls_of k (Log l :: o) = calls_of k o.
Proof. done. Qed.

Lemma analyzeBatch_nonempty a :
  AIAgent.transcriptBuffer a <> [] ->
  AIAgent.analyzeBatch a
  = (AIAgent.with_buffer [] (AIAgent.with_batchCount (S (AIAgent.batchCount a)) a),
     [Call (chat_sendMessage (S (AIAgent.batchCount a))
              (String.concat newline (AIAgent.transcriptBuffer a)))]).
Proof.
  unfold AIAgent.analyzeBatch. destruct (AIAgent.transcriptBuffer a); done.
Qed.

(** [processTranscript]: one line is pushed; the buffer is drained into an
    analyze call exactly when it has then reached the batch size. *)
Lemma processTranscript_batch cfg now speaker pid isHost text a :
  let r := AIAgent.processTranscript cfg now speaker pid isHost text a in
  let batch := AIAgent.transcriptBuffer a ++ [AIAgent.line isHost speaker text] in
  AIAgent.batchSize (fst r) = AIAgent.batchSize a
  /\ if (AIAgent.batchSize a <=? length batch)%nat then
       AIAgent.transcriptBuffer (fst r) = []
       /\ AIAgent.batchCount (fst r) = S (AIAgent.batchCount a)
       /\ calls_of k_chat (snd r)
          = [chat_sendMessage (S (AIAgent.batchCount a))
               (String.concat newline batch)]
     else
       AIAgent.transcriptBuffer (fst r) = batch
       /\ AIAgent.batchCount (fst r) = AIAgent.batchCount a
       /\ calls_of k_chat (snd r) = [].
Proof.
  intros r batch. subst r. unfold AIAgent.processTranscript.
  assert (H1 : exists a1 o1,
             (if isHost && negb (truthy (AIAgent.interviewerId a))
              then AIAgent.setInterviewer cfg now (Some speaker) pid a
              else (a, [])) = (a1, o1)
             /\ same_batcher a a1 /\ calls_of k_chat o1 = []).
  { destruct (_ && _).
    - pose proof (setInterviewer_batcher cfg now (Some speaker) pid a) as Hb.
      pose proof (setInterviewer_kind cfg now (Some speaker) pid a) as Hk.
      destruct (AIAgent.setInterviewer _ _ _ _ _) as [a1 o1].
      exists a1, o1. split; [done|]. split; [done|].
      eapply all_kind_no; [exact Hk|]. simpl. intuition discriminate.
    - exists a, []. done. }
  destruct H1 as (a1 & o1 & -> & (Hb & Hs & Hc) & Hk).
  cbn [AIAgent.transcriptBuffer AIAgent.with_buffer AIAgent.with_history
         AIAgent.batchSize AIAgent.batchCount].
  rewrite Hb, Hs. fold batch.
  destruct (AIAgent.batchSize a <=? length batch)%nat.
  - rewrite analyzeBatch_nonempty.
    + cbn [fst snd AIAgent.transcriptBuffer AIAgent.with_buffer
             AIAgent.with_batchCount AIAgent.with_history AIAgent.batchSize
             AIAgent.batchCount].
      rewrite Hs, Hc, calls_of_app, Hk. done.
    + cbn [AIAgent.transcriptBuffer AIAgent.with_buffer]. subst batch.
      by destruct (AIAgent.transcriptBuffer a).
  - cbn [fst snd AIAgent.transcriptBuffer AIAgent.with_buffer
           AIAgent.with_history AIAgent.batchSize AIAgent.batchCount].
    rewrite Hs, Hc, calls_of_app, Hk. done.
Qed.

(** The analyze calls of a step and what the step leaves in the buffer. *)
Lemma step_batch cfg now e m m' o :
  step cfg now e m = Some (m', o) ->
  let a := agent m in
  let buf := AIAgent.transcriptBuffer a in
  AIAgent.batchSize (agent m') = AIAgent.batchSize a
  /\ match e with
     | Invoke (call_processTranscript speaker pid isHost text) =>
         let batch := buf ++ [AIAgent.line isHost speaker text] in
         if (AIAgent.batchSize a <=? length batch)%nat then
           AIAgent.transcriptBuffer (agent m') = []
           /\ calls_of k_chat o
              = [chat_sendMessage (S (AIAgent.batchCount a))
                   (String.concat newline batch)]
         else
           AIAgent.transcriptBuffer (agent m') = batch
           /\ calls_of k_chat o = []
     | Invoke (call_setInterviewer _ _) =>
         AIAgent.transcriptBuffer (agent m') = buf /\ calls_of k_chat o = []
     | Invoke call_flushBuffer =>
         AIAgent.transcriptBuffer (agent m') = []
         /\ calls_of k_chat o
            = match buf with
              | [] => []
              | _ => [chat_sendMessage (S (AIAgent.batchCount a))
                        (String.concat newline buf)]
              end
     | Settle _ =>
         (AIAgent.transcriptBuffer (agent m') = buf
          \/ AIAgent.transcriptBuffer (agent m') = [])
         /\ calls_of k_chat o = []
     end.
Proof.
  intros H a buf. subst a buf. destruct e as [c|s]; simpl in H.
  - inversion H as [Hi]; clear H. destruct c as [speaker pid isHost text|name id|].
    + simpl in Hi.
      pose proof (processTranscript_batch cfg now speaker pid isHost text
                    (agent m)) as Hp.
      destruct (AIAgent.processTranscript _ _ _ _ _ _ _) as [a1 o1].
      inversion Hi; subst. rewrite suspend_agent. cbn [agent set_agent].
      cbn zeta in Hp. cbn [fst snd] in Hp. destruct Hp as [Hs Hp].
      split; [done|]. destruct (_ <=? _)%nat; tauto.
    + simpl in Hi.
      pose proof (setInterviewer_batcher cfg now name id (agent m)) as Hb.
      pose proof (setInterviewer_kind cfg now name id (agent m)) as Hk.
      destruct (AIAgent.setInterviewer _ _ _ _ _) as [a1 o1].
      inversion Hi; subst. rewrite suspend_agent. cbn [agent set_agent].
      destruct Hb as (Hb & Hs & _). cbn [fst snd] in *.
      repeat split; [done..|].
      eapply all_kind_no; [exact Hk|]. simpl. intuition discriminate.
    + simpl in Hi.
      destruct (AIAgent.transcriptBuffer (agent m)) as [|l ls] eqn:Hbuf.
      * simpl in Hi.
        pose proof (flushBuffer_rest_batcher cfg now (nextFlush m)
                      (set_nextFlush (S (nextFlush m)) m)) as (Hb & Hs & _).
        pose proof (flushBuffer_rest_kind cfg now (nextFlush m)
                      (set_nextFlush (S (nextFlush m)) m)) as Hk.
        rewrite Hi in Hb, Hs, Hk. cbn [fst snd agent set_nextFlush] in *.
        rewrite Hb, Hs, Hbuf. repeat split.
        eapply all_kind_no; [exact Hk|]. simpl. intuition discriminate.
      * cbn [length Nat.ltb Nat.leb] in Hi.
        rewrite analyzeBatch_nonempty in Hi by (rewrite Hbuf; done).
        cbn [has_call existsb is_call orb] in Hi.
        injection Hi as <- <-. rewrite Hbuf. done.
  - pose proof (settle_buffer _ _ _ _ _ _ H) as (Hs & _ & Hb).
    pose proof (settle_kind _ _ _ _ _ _ H) as Hk.
    repeat split; [done..|].
    eapply all_kind_no; [exact Hk|]. simpl. intuition discriminate.
Qed.

Lemma step_batcher_ok cfg now e m m' o :
  step cfg now e m = Some (m', o) ->
  batcher_ok (agent m) -> batcher_ok (agent m').
Proof.
  intros H [Hs Hl]. apply step_batch in H. cbn zeta in H.
  destruct H as [Hs' H]. unfold batcher_ok. rewrite Hs', Hs in *.
  split; [done|].
  destruct e as [[speaker pid isHost text|name id|]|s].
  - destruct (6 <=? _)%nat eqn:Hle; destruct H as [-> _]; simpl; [lia|].
    apply Nat.leb_gt in Hle. done.
  - destruct H as [-> _]. done.
  - destruct H as [-> _]. simpl. lia.
  - destruct H as [[-> | ->] _]; simpl; lia.
Qed.

Lemma step_suffix cfg now e m m' o :
  step cfg now e m = Some (m', o) ->
  exists older,
    AIAgent.transcriptBuffer (agent m) ++ pushed e
    = older ++ AIAgent.transcriptBuffer (agent m').
Proof.
  intros H. apply step_batch in H. cbn zeta in H. destruct H as [_ H].
  destruct e as [[speaker pid isHost text|name id|]|s]; simpl.
  - destruct (_ <=? _)%nat; destruct H as [-> _].
    + eexists. by rewrite app_nil_r.
    + by exists [].
  - destruct H as [-> _]. exists []. by rewrite app_nil_r.
  - destruct H as [-> _]. eexists. by rewrite !app_nil_r.
  - destruct H as [[-> | ->] _].
    + exists []. by rewrite app_nil_r.
    + eexists. by rewrite !app_nil_r.
Qed.

Lemma run_batcher cfg es m0 m os :
  run cfg es m0 = Some (m, os) ->
  batcher_ok (agent m0) ->
  batcher_ok (agent m)
  /\ exists older,
       AIAgent.transcriptBuffer (agent m0) ++ ingested es
       = older ++ AIAgent.transcriptBuffer (agent m).
Proof.
  revert m0 os. induction es as [|[now e] es IH]; intros m0 os H Hok; simpl in H.
  - injection H as <- <-. split; [done|]. exists []. by rewrite app_nil_r.
  - destruct (step cfg now e m0) as [[m1 o]|] eqn:Hstep; [|done]. simpl in H.
    destruct (run cfg es m1) as [[m2 os2]|] eqn:Hrun; [|done]. simpl in H.
    injection H as <- <-.
    destruct (IH _ _ Hrun (step_batcher_ok _ _ _ _ _ _ Hstep Hok))
      as (Hok2 & older2 & Hsuf2).
    split; [done|].
    destruct (step_suffix _ _ _ _ _ _ Hstep) as (older1 & Hsuf1).
    exists (older1 ++ older2). simpl.
    rewrite app_assoc, Hsuf1, <- !app_assoc. by rewrite Hsuf2.
Qed.

Lemma constructor_batcher_ok cfg now botId url phones :
  batcher_ok (AIAgent.constructor cfg now botId url phones).
Proof. split; simpl; [done|lia]. Qed.

(** In every run of an agent, whatever the interleaving of transcripts,
    settlements and flushes: the buffer holds, in ingestion order, the most
    recently ingested lines and fewer than 6 of them; a transcript event
    issues an analyze call if and only if its line brings the buffer to
    exactly 6, the batch being the buffered lines in order and the buffer
    left empty; a flush submits whatever the buffer holds and leaves it
    empty; no other event issues an analyze call. *)
Lemma batcher_in_runs cfg now0 botId url phones es m os
    now e m' o :
  run cfg es (new_machine (AIAgent.constructor cfg now0 botId url phones))
  = Some (m, os) ->
  step cfg now e m = Some (m', o) ->
  let buf := AIAgent.transcriptBuffer (agent m) in
  let n := S (AIAgent.batchCount (agent m)) in
  (exists older, ingested es = older ++ buf)
  /\ length buf < 6
  /\ match e with
     | Invoke (call_processTranscript speaker pid isHost text) =>
         let batch := buf ++ [AIAgent.line isHost speaker text] in
         if decide (length batch = 6) then
           calls_of k_chat o = [chat_sendMessage n (String.concat newline batch)]
           /\ AIAgent.transcriptBuffer (agent m') = []
         else
           calls_of k_chat o = []
           /\ AIAgent.transcriptBuffer (agent m') = batch
     | Invoke call_flushBuffer =>
         calls_of k_chat o
         = match buf with
           | [] => []
           | _ => [chat_sendMessage n (String.concat newline buf)]
           end
         /\ AIAgent.transcriptBuffer (agent m') = []
     | _ => calls_of k_chat o = []
     end.
Proof.
  intros Hrun Hstep buf n.
  destruct (run_batcher _ _ _ _ _ Hrun (constructor_batcher_ok _ _ _ _ _))
    as ([Hs Hl] & older & Hsuf).
  simpl in Hsuf. split; [by exists older|]. split; [done|].
  apply step_batch in Hstep. cbn zeta in Hstep. destruct Hstep as [_ H].
  destruct e as [[speaker pid isHost text|name id|]|s]; try tauto.
  cbn zeta. rewrite Hs in H. fold buf in H.
  destruct (decide _) as [Heq|Hne].
  - rewrite Heq in H. simpl in H. tauto.
  - destruct (6 <=? _)%nat eqn:Hle; [|tauto].
    apply Nat.leb_le in Hle. rewrite length_app in Hle, Hne.
    simpl in Hle, Hne. fold buf in Hl. lia.
Qed.

(** ** Suspended calls that a piece of code leaves alone *)

Section MachineFrame.

Variable Q : machine -> machine -> Prop.
Hypothesis Q_refl : forall m, Q m m.
Hypothesis Q_trans : forall a b c, Q a b -> Q b c -> Q a c.
Hypothesis Q_agent : forall a m, Q m (set_agent a m).
Hypothesis Q_sends : forall s m, Q m (set_sends s m).
Hypothesis Q_smsNudges : forall s m, Q m (set_smsNudges s m).
Hypothesis Q_flushes : forall s m, Q m (set_flushes s m).
Hypothesis Q_smsEnds : forall s m, Q m (set_smsEnds s m).

Lemma flushBuffer_rest_mframe cfg now f m :
  Q m (fst (flushBuffer_rest cfg now f m)).
Proof.
  unfold flushBuffer_rest.
  destruct (AIAgent.endAll cfg now (agent m)) as [a e].
  assert (H : Q m (if has_call (outs (AIAgent.sms_end e))
                   then set_smsEnds
                          (<[f := PromiseAll.start
                                    (length (calls (outs (AIAgent.sms_end e))))]>
                             (smsEnds (set_agent a m))) (set_agent a m)
                   else set_agent a m)).
  { destruct (has_call _); [|apply Q_agent].
    eapply Q_trans; [apply Q_agent|apply Q_smsEnds]. }
  cbn [EndJoin.sms]. destruct (EndJoin.settled _); cbn [fst]; [done|].
  eapply Q_trans; [exact H|apply Q_flushes].
Qed.

Lemma resume_mframe cfg now k m : Q m (fst (resume cfg now k m)).
Proof. destruct k; [apply Q_refl|apply flushBuffer_rest_mframe]. Qed.

Lemma join_mframe cfg now b j m o : Q m (fst (join cfg now b j m o)).
Proof.
  unfold join. destruct (Join.settled j); [|apply Q_sends].
  pose proof (resume_mframe cfg now (Join.caller_ j)
                (set_sends (delete b (sends m)) m)) as H.
  destruct (resume _ _ _ _). cbn [fst] in *.
  eapply Q_trans; [apply Q_sends|exact H].
Qed.

Lemma end_join_mframe f j m o : Q m (fst (end_join f j m o)).
Proof. unfold end_join. destruct (EndJoin.settled j); apply Q_flushes. Qed.

(** Settlements other than that of a chat call or of a thread start. *)
Lemma settle_mframe cfg now s m m' o :
  settle cfg now s m = Some (m', o) ->
  match s with
  | chat_settled b _ => Q (set_chats (delete b (chats m)) m) m'
  | slack_start_settled _ => Q (set_slackStarts (pred (slackStarts m)) m) m'
  | _ => Q m m'
  end.
Proof.
  destruct s; simpl; intros H.
  - destruct (chats m !! batch) as [k|]; [|done]. simpl in H.
    destruct (AIAgent.analyzeBatch_settled _ _ _ _) as [[a o0] d].
    destruct d as [d|].
    + match type of H with
      | Some (join ?c ?n ?b ?j ?m1 ?o1) = _ =>
          pose proof (join_mframe c n b j m1 o1) as Hj
      end.
      injection H as He. rewrite He in Hj. cbn [fst] in Hj.
      eapply Q_trans; [|exact Hj].
      destruct (has_call (outs (AIAgent.sms d))); [|apply Q_agent].
      eapply Q_trans; [apply Q_agent|apply Q_smsNudges].
    + pose proof (resume_mframe cfg now k
                    (set_agent a (set_chats (delete batch (chats m)) m))) as Hr.
      destruct (resume _ _ _ _) as [m2 o2]. injection H as <- <-.
      eapply Q_trans; [apply Q_agent|exact Hr].
  - destruct (slackStarts m) as [|n] eqn:Hn; [done|].
    destruct (AIAgent.initializeSlackThread_settled r (agent m)).
    injection H as <- <-. cbn [pred].
    replace (set_slackStarts n (set_agent t m))
      with (set_agent t (set_slackStarts n m)) by done.
    apply Q_agent.
  - destruct (sends m !! batch) as [j|]; [|done]. simpl in H.
    destruct (Join.slack j); [|done].
    match type of H with
    | Some (join ?c ?n ?b ?j ?m1 ?o1) = _ =>
        pose proof (join_mframe c n b j m1 o1) as Hj
    end.
    injection H as He. rewrite He in Hj. exact Hj.
  - destruct (sends m !! batch) as [j|]; [|done]. simpl in H.
    destruct (Join.zoom j); [|done].
    match type of H with
    | Some (join ?c ?n ?b ?j ?m1 ?o1) = _ =>
        pose proof (join_mframe c n b j m1 o1) as Hj
    end.
    injection H as He. rewrite He in Hj. exact Hj.
  - destruct (smsNudges m !! batch) as [p|]; [|done]. simpl in H.
    destruct (PromiseAll.settle i ok p) as [[p' all]|]; [|done]. simpl in H.
    destruct all as [ok_all|]; [|injection H as <- <-; apply Q_smsNudges].
    match type of H with
    | context [sends ?m1 !! batch] => destruct (sends m1 !! batch) as [j|]
    end; [|injection H as <- <-; apply Q_smsNudges].
    match type of H with
    | context [AIAgent.smsManager ?a1] =>
        destruct (AIAgent.smsManager a1) as [mgr|]
    end; [|injection H as <- <-; apply Q_smsNudges].
    match type of H with
    | Some (join ?c ?n ?b ?j ?m1 ?o1) = _ =>
        pose proof (join_mframe c n b j m1 o1) as Hj
    end.
    injection H as He. rewrite He in Hj. cbn [fst] in Hj.
    eapply Q_trans; [apply Q_smsNudges|exact Hj].
  - destruct (flushes m !! flush) as [j|]; [|done]. simpl in H.
    destruct (EndJoin.slack j); [|done].
    destruct (AIAgent.slackThread (agent m)) as [t|]; [|done].
    destruct (SlackThreadManager.endSessionThread_settled ok t) as [t' o0].
    match type of H with
    | Some (end_join ?f ?j ?m1 ?o1) = _ =>
        pose proof (end_join_mframe f j m1 o1) as Hj
    end.
    injection H as He. rewrite He in Hj. cbn [fst] in Hj.
    eapply Q_trans; [apply Q_agent|exact Hj].
  - destruct (smsEnds m !! flush) as [p|]; [|done]. simpl in H.
    destruct (PromiseAll.settle i ok p) as [[p' all]|]; [|done]. simpl in H.
    destruct all as [ok_all|]; [|injection H as <- <-; apply Q_smsEnds].
    match type of H with
    | context [flushes ?m1 !! flush] => destruct (flushes m1 !! flush) as [j|]
    end; [|injection H as <- <-; apply Q_smsEnds].
    match type of H with
    | context [AIAgent.smsManager ?a1] =>
        destruct (AIAgent.smsManager a1) as [mgr|]
    end; [|injection H as <- <-; apply Q_smsEnds].
    destruct (SMSManager.endSession_settled ok_all mgr) as [mgr' o1].
    match type of H with
    | Some (end_join ?f ?j ?m1 ?o1) = _ =>
        pose proof (end_join_mframe f j m1 o1) as Hj
    end.
    injection H as He. rewrite He in Hj. cbn [fst] in Hj.
    eapply Q_trans; [|exact Hj].
    eapply Q_trans; [apply Q_smsEnds|apply Q_agent].
Qed.

End MachineFrame.

Lemma same_starts_trans a b c : same_starts a b -> same_starts b c -> same_starts a c.
Proof. unfold same_starts. intuition congruence. Qed.

Lemma settle_starts cfg now s m m' o :
  settle cfg now s m = Some (m', o) ->
  match s with
  | chat_settled b _ => same_starts (set_chats (delete b (chats m)) m) m'
  | slack_start_settled _ => same_starts (set_slackStarts (pred (slackStarts m)) m) m'
  | _ => same_starts m m'
  end.
Proof. apply settle_mframe; try done. apply same_starts_trans. Qed.

Lemma flushBuffer_rest_starts cfg now f m :
  same_starts m (fst (flushBuffer_rest cfg now f m)).
Proof. apply flushBuffer_rest_mframe; try done. apply same_starts_trans. Qed.

Lemma suspend_cons k x o m :
  suspend k (x :: o) m
  = suspend k o
      match x with
      | Call (chat_sendMessage b _) => set_chats (<[b := k]> (chats m)) m
      | Call (slack_postMessage _ (SlackSessionStarted _)) =>
          set_slackStarts (S (slackStarts m)) m
      | _ => m
      end.
Proof. reflexivity. Qed.

Lemma calls_of_cons k c o :
  calls_of k (Call c :: o)
  = if decide (kind_of c = k) then c :: calls_of k o else calls_of k o.
Proof. reflexivity. Qed.

Lemma suspend_chats k o m :
  chats (suspend k o m) = foldl (register_chat k) (chats m) (calls_of k_chat o).
Proof.
  revert m. induction o as [|x o IH]; intros m; [done|].
  rewrite suspend_cons, IH.
  destruct x as [c| | |]; try done.
  rewrite calls_of_cons.
  destruct c as [| ? msg | ? body ? | |]; try done;
    [destruct msg|destruct body]; done.
Qed.

(** The analyses in flight after a step. *)
Lemma step_chats cfg now e m m' o :
  step cfg now e m = Some (m', o) ->
  match e with
  | Invoke (call_flushBuffer) =>
      chats m' = foldl (register_chat (by_flushBuffer (nextFlush m))) (chats m)
                   (calls_of k_chat o)
  | Invoke _ =>
      chats m' = foldl (register_chat by_processTranscript) (chats m)
                   (calls_of k_chat o)
  | Settle (chat_settled b _) => chats m' = delete b (chats m)
  | Settle _ => chats m' = chats m
  end.
Proof.
  destruct e as [c|s]; simpl; intros H.
  - injection H as H. destruct c as [speaker pid isHost text|name id|]; simpl in H.
    + destruct (AIAgent.processTranscript _ _ _ _ _ _ _) as [a1 o1].
      injection H as <- <-. by rewrite suspend_chats.
    + destruct (AIAgent.setInterviewer _ _ _ _ _) as [a1 o1].
      injection H as <- <-. by rewrite suspend_chats.
    + destruct (AIAgent.transcriptBuffer (agent m)) as [|l ls] eqn:Hbuf.
      * simpl in H.
        pose proof (flushBuffer_rest_starts cfg now (nextFlush m)
                      (set_nextFlush (S (nextFlush m)) m)) as (Hc & _).
        pose proof (flushBuffer_rest_kind cfg now (nextFlush m)
                      (set_nextFlush (S (nextFlush m)) m)) as Hk.
        rewrite H in Hc, Hk. cbn [fst snd] in *.
        rewrite (all_kind_no _ k_chat _ Hk) by (simpl; intuition discriminate).
        done.
      * cbn [length Nat.ltb Nat.leb] in H.
        rewrite analyzeBatch_nonempty in H by (rewrite Hbuf; done).
        cbn [has_call existsb is_call orb] in H.
        injection H as <- <-. done.
  - pose proof (settle_starts _ _ _ _ _ _ H) as Hs.
    destruct s; destruct Hs as (Hc & _); done.
Qed.


(** ** Analyses in flight *)

Lemma step_starts_analysis cfg now e m m' o :
  step cfg now e m = Some (m', o) ->
  length (calls_of k_chat o) = if starts_analysis e m then 1 else 0.
Proof.
  intros H. apply step_batch in H. cbn zeta in H. destruct H as [_ H].
  destruct e as [[speaker pid isHost text|name id|]|s]; simpl.
  - rewrite length_app, Nat.add_1_r in H.
    destruct (_ <=? _)%nat; destruct H as [_ ->]; done.
  - by destruct H as [_ ->].
  - destruct H as [_ ->]. by destruct (AIAgent.transcriptBuffer (agent m)).
  - by destruct H as [_ ->].
Qed.

Lemma step_in_flight cfg now e m m' o :
  step cfg now e m = Some (m', o) ->
  size (chats m) <= 1 ->
  (starts_analysis e m = true -> chats m = ∅) ->
  size (chats m') <= 1.
Proof.
  intros H Hsz Hp.
  pose proof (step_starts_analysis _ _ _ _ _ _ H) as Hn.
  pose proof (step_chats _ _ _ _ _ _ H) as Hc.
  assert (Hk : forall k,
             size (foldl (register_chat k) (chats m) (calls_of k_chat o)) <= 1).
  { intros k. destruct (starts_analysis e m).
    - rewrite (Hp eq_refl).
      destruct (calls_of k_chat o) as [|c [|c' l]] eqn:Hl; [done| |done].
      assert (Hkc : kind_of c = k_chat).
      { assert (Hin : c ∈ calls_of k_chat o) by (rewrite Hl; left).
        unfold calls_of in Hin. by apply list_elem_of_filter in Hin as [? _]. }
      destruct c as [| ? msg | ? body ? | |]; try done;
        [|destruct msg; done|destruct body; done].
      simpl. rewrite insert_empty, map_size_singleton. done.
    - destruct (calls_of k_chat o); done. }
  destruct e as [[speaker pid isHost text|name id|]|s]; try (rewrite Hc; apply Hk).
  assert (Hd : forall b, size (delete b (chats m)) <= 1).
  { intros b. rewrite map_size_delete. destruct (chats m !! b); simpl; lia. }
  destruct s; rewrite Hc; done.
Qed.

Lemma run_paced cfg es m0 m os :
  run cfg es m0 = Some (m, os) ->
  size (chats m0) <= 1 -> paced cfg es m0 -> size (chats m) <= 1.
Proof.
  revert m0 os. induction es as [|[now e] es IH]; intros m0 os H Hsz Hp;
    simpl in H.
  - by injection H as <- <-.
  - destruct Hp as [Hp1 Hp2].
    destruct (step cfg now e m0) as [[m1 o]|] eqn:Hstep; [|done]. simpl in H.
    destruct (run cfg es m1) as [[m2 os2]|] eqn:Hrun; [|done].
    injection H as <- <-.
    eapply IH; [exact Hrun| |exact Hp2].
    eapply step_in_flight; eauto.
Qed.

(** C3 (as amended).  The agent takes no lock around the analysis: one is
    started by the transcript that fills the buffer and by a flush of a
    non-empty buffer, by no other event, and whether or not another is in
    flight.  Hence, in a run in which every such event finds no analysis in
    flight, at most one analysis is in flight at any time. *)
Theorem analyze_one_at_a_time_when_paced cfg now0 botId url phones es m os :
  run cfg es (new_machine (AIAgent.constructor cfg now0 botId url phones))
  = Some (m, os) ->
  paced cfg es (new_machine (AIAgent.constructor cfg now0 botId url phones)) ->
  size (chats m) <= 1
  /\ forall now e m' o,
       step cfg now e m = Some (m', o) ->
       length (calls_of k_chat o) = if starts_analysis e m then 1 else 0.
Proof.
  intros Hrun Hp. split.
  - eapply run_paced; [exact Hrun| |exact Hp]. simpl. rewrite map_size_empty. lia.
  - intros now e m' o. apply step_starts_analysis.
Qed.

(** C3 (as stated) fails: twelve transcripts arriving while the first
    analysis has not returned put two analyses in flight at once. *)
Lemma analyze_calls_overlap :
  exists m os,
    run cfg_all twelve_lines machine0 = Some (m, os)
    /\ size (chats m) = 2
    /\ chats m !! 1 = Some by_processTranscript
    /\ chats m !! 2 = Some by_processTranscript.
Proof.
  exists (state_after cfg_all twelve_lines machine0),
    (outputs_after cfg_all twelve_lines machine0).
  vm_compute. auto.
Qed.

Lemma analyze_one_at_a_time_when_paced_witness :
  size (chats (state_after cfg_all six_lines_settled machine0)) <= 1.
Proof.
  refine (proj1 (analyze_one_at_a_time_when_paced cfg_all 0 "bot-1"
                   "https://zoom.us/j/1" ["+15550001"; "+15550002"]
                   six_lines_settled
                   (state_after cfg_all six_lines_settled machine0)
                   (outputs_after cfg_all six_lines_settled machine0) _ _)).
  - vm_compute; reflexivity.
  - vm_compute. intuition discriminate.
Defined.

(** ** A failed analysis *)

Lemma prints_app (o1 o2 : list output) : prints (o1 ++ o2) = prints o1 ++ prints o2.
Proof. apply omap_app. Qed.

Lemma prints_In l (o : list output) : In (Log l) o <-> In l (prints o).
Proof.
  unfold prints. induction o as [|x o IH]; simpl; [tauto|].
  destruct x; simpl; rewrite <- IH; intuition (try discriminate).
  - left. congruence.
  - left. congruence.
Qed.

Lemma prints_sendAll m body : prints (SMSManager.sendAll m body) = [].
Proof.
  unfold SMSManager.sendAll. induction (SMSManager.phoneNumbers m); done.
Qed.

Lemma endSessionThread_prints now s :
  Forall (fun l => is_end_line l = true)
    (prints (snd (SlackThreadManager.endSessionThread now s))).
Proof.
  unfold SlackThreadManager.endSessionThread.
  destruct (negb _); repeat constructor.
Qed.

Lemma endSession_prints cfg now g :
  Forall (fun l => is_end_line l = true)
    (prints (snd (SMSManager.endSession cfg now g))).
Proof.
  unfold SMSManager.endSession.
  destruct (_ || _ || _); cbn [snd]; [repeat constructor|].
  rewrite prints_sendAll. constructor.
Qed.

Lemma endAll_prints cfg now a :
  Forall (fun l => is_end_line l = true)
    (prints (AIAgent.ended_outputs (snd (AIAgent.endAll cfg now a)))).
Proof.
  unfold AIAgent.endAll, AIAgent.ended_outputs.
  cbn [snd AIAgent.slack_end AIAgent.sms_end].
  rewrite prints_app. apply Forall_app_2.
  - unfold AIAgent.endSlack.
    destruct (AIAgent.slackThread a) as [s|]; [|constructor].
    destruct (_ && _); [|constructor].
    pose proof (endSessionThread_prints now s) as H.
    destruct (SlackThreadManager.endSessionThread now s). exact H.
  - unfold AIAgent.endSMS.
    destruct (AIAgent.smsManager _) as [g|]; [|constructor].
    destruct (_ && _); [|constructor].
    pose proof (endSession_prints cfg now g) as H.
    destruct (SMSManager.endSession cfg now g). exact H.
Qed.

Lemma flushBuffer_rest_prints cfg now f m :
  Forall (fun l => is_end_line l = true)
    (prints (snd (flushBuffer_rest cfg now f m))).
Proof.
  unfold flushBuffer_rest.
  pose proof (endAll_prints cfg now (agent m)) as H.
  destruct (AIAgent.endAll cfg now (agent m)) as [a e]. cbn [snd] in H.
  destruct (EndJoin.settled _); cbn [snd]; [|done].
  rewrite !prints_app. apply Forall_app_2; [done|].
  apply Forall_app_2; [|constructor].
  unfold AIAgent.flushBuffer_ended. destruct (_ <? _)%nat; repeat constructor.
Qed.

Lemma resume_prints cfg now k m :
  Forall (fun l => is_end_line l = true) (prints (snd (resume cfg now k m))).
Proof. destruct k; [constructor|apply flushBuffer_rest_prints]. Qed.


Lemma resume_batcher cfg now k m :
  same_batcher (agent m) (agent (fst (resume cfg now k m))).
Proof. apply resume_frame; try done. apply same_batcher_trans. Qed.

(** C4. When the chat call of batch [b] fails, the error is printed and
    nothing else happens to the batch: the step issues no nudge on any
    channel and no new analyze call, the batch is no longer awaited, and the
    buffer is empty afterwards. *)
Theorem failed_analysis_forfeits_batch cfg now b m m' o :
  step cfg now (Settle (chat_settled b chat_throws)) m = Some (m', o) ->
  In (Log err_batch_analysis) o
  /\ calls_of k_nudge o = []
  /\ calls_of k_chat o = []
  /\ AIAgent.transcriptBuffer (agent m') = []
  /\ chats m' = delete b (chats m)
  /\ chats m' !! b = None.
Proof.
  intros H. pose proof (step_chats _ _ _ _ _ _ H) as Hc. simpl in Hc, H.
  destruct (chats m !! b) as [k|]; [|done]. simpl in H.
  set (m1 := set_agent _ _) in H.
  pose proof (resume_kind cfg now k m1) as Hk.
  pose proof (resume_batcher cfg now k m1) as (Hb & _).
  destruct (resume cfg now k m1) as [m2 o2]. cbn [fst snd] in *.
  injection H as <- <-.
  split; [by left|].
  rewrite !calls_of_print.
  rewrite (all_kind_no _ k_nudge _ Hk) by (simpl; intuition discriminate).
  rewrite (all_kind_no _ k_chat _ Hk) by (simpl; intuition discriminate).
  repeat split; try done.
  rewrite Hc. apply lookup_delete_eq.
Qed.

Lemma failed_analysis_forfeits_batch_witness :
  AIAgent.transcriptBuffer
    (agent (step_state cfg_all 13 (Settle (chat_settled 1 chat_throws))
              (state_after cfg_all twelve_lines machine0))) = [].
Proof.
  refine (proj1 (proj2 (proj2 (proj2
            (failed_analysis_forfeits_batch cfg_all 13 1
               (state_after cfg_all twelve_lines machine0) _
               (step_outputs cfg_all 13 (Settle (chat_settled 1 chat_throws))
                  (state_after cfg_all twelve_lines machine0)) _))))).
  vm_compute. reflexivity.
Defined.

(** ** Dispatch to several channels *)




(** ** Session end *)

Lemma processTranscript_kind cfg now speaker pid isHost text a :
  all_kind [k_slack_start; k_sms_start; k_chat]
    (snd (AIAgent.processTranscript cfg now speaker pid isHost text a)).
Proof.
  unfold AIAgent.processTranscript.
  assert (H1 : all_kind [k_slack_start; k_sms_start; k_chat]
                 (snd (if isHost && negb (truthy (AIAgent.interviewerId a))
                       then AIAgent.setInterviewer cfg now (Some speaker) pid a
                       else (a, [])))).
  { destruct (_ && _); [|apply all_kind_nil].
    eapply all_kind_mono; [|apply setInterviewer_kind]. simpl. intuition. }
  destruct (if _ && _ then _ else _) as [a1 o1]. cbn [snd] in H1.
  destruct (_ <=? _)%nat.
  - match goal with
    | |- context [AIAgent.analyzeBatch ?x] =>
        pose proof (analyzeBatch_kind x) as H2;
        destruct (AIAgent.analyzeBatch x) as [a4 o2]
    end.
    cbn [snd] in *. apply all_kind_app; [done|].
    do 2 apply all_kind_print.
    eapply all_kind_mono; [|exact H2]. simpl. intuition.
  - cbn [snd]. apply all_kind_app; [done|repeat constructor].
Qed.

Lemma invoke_flush_nonempty cfg now m :
  AIAgent.transcriptBuffer (agent m) <> [] ->
  invoke cfg now call_flushBuffer m
  = (set_chats (<[S (AIAgent.batchCount (agent m))
                    := by_flushBuffer (nextFlush m)]> (chats m))
       (set_agent
          (AIAgent.with_buffer []
             (AIAgent.with_batchCount (S (AIAgent.batchCount (agent m)))
                (agent m)))
          (set_nextFlush (S (nextFlush m)) m)),
     [Log (log_flushing (length (AIAgent.transcriptBuffer (agent m))));
      Call (chat_sendMessage (S (AIAgent.batchCount (agent m)))
              (String.concat newline (AIAgent.transcriptBuffer (agent m))))]).
Proof.
  intros Hne. simpl.
  destruct (AIAgent.transcriptBuffer (agent m)) as [|l ls] eqn:Hbuf; [done|].
  cbn [length Nat.ltb Nat.leb].
  rewrite analyzeBatch_nonempty by (rewrite Hbuf; done).
  rewrite Hbuf. reflexivity.
Qed.

Lemma invoke_flush_empty cfg now m :
  AIAgent.transcriptBuffer (agent m) = [] ->
  invoke cfg now call_flushBuffer m
  = flushBuffer_rest cfg now (nextFlush m) (set_nextFlush (S (nextFlush m)) m).
Proof. intros Hbuf. simpl. by rewrite Hbuf. Qed.






Lemma endSession_calls cfg now g :
  calls (snd (SMSManager.endSession cfg now g))
  = if negb (twilioClient cfg)
       || Nat.eqb (length (SMSManager.phoneNumbers g)) 0
       || negb (SMSManager.sessionActive g)
    then []
    else map (twilio_create (SMSManager.messagingServiceSid g)
                (SmsSessionEnded
                   (minutes (now - SMSManager.sessionStartTime g))
                   (SMSManager.nudgeCount g) now))
           (SMSManager.phoneNumbers g).
Proof.
  unfold SMSManager.endSession.
  destruct (_ || _ || _); [done|]. cbn [snd]. by rewrite calls_sendAll.
Qed.



Lemma calls_flushBuffer_ended n : calls (AIAgent.flushBuffer_ended n) = [].
Proof. unfold AIAgent.flushBuffer_ended. by destruct (_ <? _)%nat. Qed.






(** ** Transcripts for a session that has been stopped *)

Lemma stop_bot_deleted_sessions stop srv botId srv1 o1 :
  deleting srv !! stop = Some botId ->
  stop_bot_deleted stop true srv = Some (srv1, o1) ->
  sessions srv1 = delete botId (sessions srv)
  /\ agents srv1 = agents srv
  /\ o1 = [Log (log_bot_stopped botId); Respond res_success].
Proof.
  unfold stop_bot_deleted. intros ->. simpl. intros H.
  injection H as <- <-. done.
Qed.

Lemma webhook_no_session cfg now req data botId srv :
  Webhook.secret req = WEBHOOK_SECRET cfg ->
  Webhook.body_data req = Some data ->
  Webhook.bot_id data = Some botId ->
  Webhook.event req <> "" ->
  sessions srv !! botId = None ->
  webhook cfg now req srv
  = (srv, [Respond res_200_OK; Log (log_no_session (Some botId))]).
Proof.
  intros Hs Hd Hb He Hn. unfold webhook.
  rewrite Hs, String.eqb_refl, Hd. simpl.
  destruct (String.eqb_spec (Webhook.event req) ""); [done|].
  rewrite Hb. simpl. rewrite Hn. done.
Qed.

(** C7 (as amended).  Once the stop of a session has completed, that is,
    once the DELETE of its bot has succeeded and the session has left the
    table, a webhook event for that session is answered [200 OK] like any
    other, a warning is printed, and nothing changes: no session, no agent
    and no buffer is touched.  No error is returned to the caller. *)
Theorem ingest_after_stop_is_dropped cfg now req data botId stop srv srv1 o1 :
  deleting srv !! stop = Some botId ->
  stop_bot_deleted stop true srv = Some (srv1, o1) ->
  Webhook.secret req = WEBHOOK_SECRET cfg ->
  Webhook.body_data req = Some data ->
  Webhook.bot_id data = Some botId ->
  Webhook.event req <> "" ->
  sessions srv1 !! botId = None
  /\ serve cfg now (post_webhook req) srv1
     = Some (srv1, [Respond res_200_OK; Log (log_no_session (Some botId))]).
Proof.
  intros Hd Hstop Hs Hb Hi He.
  destruct (stop_bot_deleted_sessions _ _ _ _ _ Hd Hstop) as (Hsess & _ & _).
  assert (Hn : sessions srv1 !! botId = None).
  { rewrite Hsess. apply lookup_delete_eq. }
  split; [done|]. simpl. f_equal.
  by eapply webhook_no_session.
Qed.

(** C7 (as stated) fails: the transcript that arrives after the stop is
    answered [200 OK], not with an error. *)
Lemma ingest_after_stop_answers_ok :
  exists srv os,
    serve_all cfg_all transcript_after_stop empty_server = Some (srv, os)
    /\ last os = Some [Respond res_200_OK; Log (log_no_session (Some "bot-1"))].
Proof.
  eexists _, _. split; vm_compute; reflexivity.
Qed.

(** ** The Slack thread *)

Lemma initializeSlackThread_starts now name a :
  let o := snd (AIAgent.initializeSlackThread now name a) in
  length (calls_of k_slack_start o) <= 1
  /\ (calls_of k_slack_start o <> [] -> no_thread a).
Proof.
  unfold AIAgent.initializeSlackThread, no_thread.
  destruct (AIAgent.slackThread a) as [s|]; [|simpl; split; [lia|done]].
  destruct (truthy (SlackThreadManager.threadTs s)) eqn:Ht; simpl.
  - split; [lia|done].
  - split; [done|]. intros _. by exists s.
Qed.

Lemma setInterviewer_starts cfg now name id a :
  let r := AIAgent.setInterviewer cfg now name id a in
  length (calls_of k_slack_start (snd r)) <= 1
  /\ (calls_of k_slack_start (snd r) <> [] ->
      truthy (AIAgent.interviewerId a) = false /\ no_thread a)
  /\ (truthy (AIAgent.interviewerId a) = false ->
      AIAgent.interviewerId (fst r) = id)
  /\ (truthy (AIAgent.interviewerId a) = true -> r = (a, [])).
Proof.
  cbn zeta. unfold AIAgent.setInterviewer.
  destruct (truthy (AIAgent.interviewerId a)) eqn:Hid; cbn [negb].
  { simpl. repeat split; try done. lia. }
  set (a1 := AIAgent.with_interviewer id name a).
  assert (H1 : exists a2 o1,
             (if includes "SLACK" (INTEGRATION_MODES cfg)
                 && bool_decide (is_Some (AIAgent.slackThread a1))
              then AIAgent.initializeSlackThread now name a1
              else (a1, [])) = (a2, o1)
             /\ AIAgent.interviewerId a2 = id
             /\ length (calls_of k_slack_start o1) <= 1
             /\ (calls_of k_slack_start o1 <> [] -> no_thread a)).
  { destruct (_ && _).
    - pose proof (initializeSlackThread_starts now name a1) as [Hl Hn].
      pose proof (initializeSlackThread_frame same_interviewer
                    (fun a => eq_refl) (fun s a => eq_refl) now name a1) as Hf.
      destruct (AIAgent.initializeSlackThread now name a1) as [a2 o1].
      exists a2, o1. cbn [fst snd] in *. repeat split; try done.
    - exists a1, []. repeat split; try done. simpl. lia. }
  destruct H1 as (a2 & o1 & -> & Hid2 & Hl & Hn).
  assert (H2 : exists a3 o2,
             match AIAgent.smsManager a2 with
             | Some m =>
                 if includes "SMS" (INTEGRATION_MODES cfg)
                 then
                   let '(m', o) :=
                     SMSManager.startSession cfg
                       (AIAgent.sessionInfo now name a2) m in
                   (AIAgent.with_smsManager (Some m') a2, o)
                 else (a2, [])
             | None => (a2, [])
             end = (a3, o2)
             /\ AIAgent.interviewerId a3 = id
             /\ calls_of k_slack_start o2 = []).
  { destruct (AIAgent.smsManager a2) as [g|]; [|by exists a2, []].
    destruct (includes "SMS" _); [|by exists a2, []].
    pose proof (startSession_kind cfg (AIAgent.sessionInfo now name a2) g) as Hk.
    destruct (SMSManager.startSession _ _ _) as [g' o2].
    eexists _, _. split; [done|]. split; [done|].
    eapply all_kind_no; [exact Hk|]. simpl. intuition discriminate. }
  destruct H2 as (a3 & o2 & -> & Hid3 & Hs).
  cbn [fst snd]. rewrite calls_of_app, Hs, app_nil_r.
  repeat split; try done. by apply Hn.
Qed.

Lemma processTranscript_setInterviewer cfg now speaker pid isHost text a :
  let r := AIAgent.processTranscript cfg now speaker pid isHost text a in
  let r0 := if isHost && negb (truthy (AIAgent.interviewerId a))
            then AIAgent.setInterviewer cfg now (Some speaker) pid a
            else (a, []) in
  calls_of k_slack_start (snd r) = calls_of k_slack_start (snd r0)
  /\ AIAgent.interviewerId (fst r) = AIAgent.interviewerId (fst r0).
Proof.
  cbn zeta. unfold AIAgent.processTranscript.
  destruct (if _ && _ then _ else _) as [a1 o1]. cbn [fst snd].
  destruct (_ <=? _)%nat.
  - unfold AIAgent.analyzeBatch. destruct (Nat.eqb _ _); cbn [fst snd];
      rewrite calls_of_app; simpl; by rewrite app_nil_r.
  - cbn [fst snd]. rewrite calls_of_app. simpl. by rewrite app_nil_r.
Qed.

Lemma processTranscript_starts cfg now speaker pid isHost text a :
  let r := AIAgent.processTranscript cfg now speaker pid isHost text a in
  length (calls_of k_slack_start (snd r)) <= 1
  /\ (calls_of k_slack_start (snd r) <> [] ->
      isHost = true /\ truthy (AIAgent.interviewerId a) = false /\ no_thread a
      /\ AIAgent.interviewerId (fst r) = pid)
  /\ (truthy (AIAgent.interviewerId a) = true ->
      AIAgent.interviewerId (fst r) = AIAgent.interviewerId a).
Proof.
  cbn zeta.
  destruct (processTranscript_setInterviewer cfg now speaker pid isHost text a)
    as [-> ->].
  pose proof (setInterviewer_starts cfg now (Some speaker) pid a)
    as (Hl & Hn & Hset & Hkeep). cbn zeta in *.
  destruct isHost; cbn [andb]; [|simpl; repeat split; try done; lia].
  destruct (truthy (AIAgent.interviewerId a)) eqn:Hid; cbn [negb].
  - simpl. repeat split; try done. lia.
  - repeat split; try done; tauto.
Qed.

Lemma step_thread_start cfg now e m m' o :
  step cfg now e m = Some (m', o) ->
  length (calls_of k_slack_start o) <= 1
  /\ (calls_of k_slack_start o <> [] ->
      truthy (AIAgent.interviewerId (agent m)) = false
      /\ no_thread (agent m)
      /\ exists id, resolves_host e = Some id
                    /\ AIAgent.interviewerId (agent m') = id)
  /\ (truthy (AIAgent.interviewerId (agent m)) = true ->
      AIAgent.interviewerId (agent m') = AIAgent.interviewerId (agent m)).
Proof.
  intros H.
  assert (Hnone : forall ks, all_kind ks o -> ~ In k_slack_start ks ->
            length (calls_of k_slack_start o) <= 1
            /\ (calls_of k_slack_start o <> [] ->
                truthy (AIAgent.interviewerId (agent m)) = false
                /\ no_thread (agent m)
                /\ exists id, resolves_host e = Some id
                              /\ AIAgent.interviewerId (agent m') = id)).
  { intros ks Hk Hn. rewrite (all_kind_no _ _ _ Hk Hn). simpl. split; [lia|done]. }
  destruct e as [[speaker pid isHost text|name id|]|s]; cbn [step] in H.
  - assert (Hi : invoke cfg now
                   (call_processTranscript speaker pid isHost text) m = (m', o))
      by congruence.
    simpl in Hi.
    pose proof (processTranscript_starts cfg now speaker pid isHost text
                  (agent m)) as (Hl & Hn & Hkeep). cbn zeta in *.
    destruct (AIAgent.processTranscript _ _ _ _ _ _ _) as [a1 o1].
    injection Hi as <- <-. rewrite suspend_agent. cbn [fst snd agent set_agent] in *.
    split; [done|]. split; [|done].
    intros Hne. destruct (Hn Hne) as (-> & Hid & Hno & Hpid).
    repeat split; try done. by exists pid.
  - assert (Hi : invoke cfg now (call_setInterviewer name id) m = (m', o))
      by congruence.
    simpl in Hi.
    pose proof (setInterviewer_starts cfg now name id (agent m))
      as (Hl & Hn & Hset & Hkeep). cbn zeta in *.
    destruct (AIAgent.setInterviewer _ _ _ _ _) as [a1 o1].
    injection Hi as <- <-. rewrite suspend_agent. cbn [fst snd agent set_agent] in *.
    split; [done|]. split.
    + intros Hne. destruct (Hn Hne) as (Hid & Hno).
      repeat split; try done. exists id. split; [done|]. by apply Hset.
    + intros Hid. specialize (Hkeep Hid). by injection Hkeep as -> _.
  - assert (Hi : invoke cfg now call_flushBuffer m = (m', o)) by congruence.
    assert (Hk : all_kind [k_chat; k_summary] o
                 /\ AIAgent.interviewerId (agent m')
                    = AIAgent.interviewerId (agent m)).
    { destruct (AIAgent.transcriptBuffer (agent m)) as [|l ls] eqn:Hbuf.
      - rewrite invoke_flush_empty in Hi by done.
        pose proof (flushBuffer_rest_kind cfg now (nextFlush m)
                      (set_nextFlush (S (nextFlush m)) m)) as Hk.
        pose proof (flushBuffer_rest_frame same_interviewer
                      (fun a => eq_refl)
                      (fun a b c (H1 : same_interviewer a b)
                           (H2 : same_interviewer b c) => eq_trans H2 H1)
                      (fun s a => eq_refl) (fun s a => eq_refl)
                      cfg now (nextFlush m)
                      (set_nextFlush (S (nextFlush m)) m)) as Hf.
        rewrite Hi in Hk, Hf. cbn [fst snd] in *. split; [|exact Hf].
        eapply all_kind_mono; [|exact Hk]. simpl. intuition.
      - rewrite invoke_flush_nonempty in Hi by (rewrite Hbuf; done).
        injection Hi as <- <-. split; [repeat constructor; simpl; auto|done]. }
    destruct Hk as [Hk Hid].
    destruct (Hnone _ Hk) as [Hl Hn]; [simpl; intuition discriminate|].
    repeat split; try done; tauto.
  - pose proof (settle_kind _ _ _ _ _ _ H) as Hk.
    pose proof (settle_frame same_interviewer
                  (fun a => eq_refl)
                  (fun a b c (H1 : same_interviewer a b)
                       (H2 : same_interviewer b c) => eq_trans H2 H1)
                  (fun s a => eq_refl) (fun s a => eq_refl)
                  (fun x a => eq_refl) (fun a => eq_refl)
                  _ _ _ _ _ _ H) as Hf.
    destruct (Hnone _ Hk) as [Hl Hn]; [simpl; intuition discriminate|].
    repeat split; try done; tauto.
Qed.

Lemma toSlack_no_thread cfg d a :
  no_thread a ->
  calls (outs (snd (AIAgent.toSlack cfg d a))) = []
  /\ AIAgent.slackThread (fst (AIAgent.toSlack cfg d a)) = AIAgent.slackThread a.
Proof.
  intros (s & Hs & Ht). unfold AIAgent.toSlack. rewrite Hs.
  destruct (includes "SLACK" _); [|done].
  unfold SlackThreadManager.sendCoachingReply. rewrite Ht. done.
Qed.

Lemma toSMS_slackThread cfg d a :
  AIAgent.slackThread (fst (AIAgent.toSMS cfg d a)) = AIAgent.slackThread a.
Proof.
  unfold AIAgent.toSMS.
  destruct (AIAgent.smsManager a) as [g|]; [|done].
  destruct (includes "SMS" _); [|done].
  by destruct (SMSManager.sendCoachingNudge cfg d g).
Qed.

Lemma toSMS_no_slack cfg d a ch msg :
  ~ In (slack_postMessage ch msg) (calls (outs (snd (AIAgent.toSMS cfg d a)))).
Proof.
  unfold AIAgent.toSMS.
  destruct (AIAgent.smsManager a) as [s|]; [|simpl; tauto].
  destruct (includes "SMS" _); [|simpl; tauto].
  pose proof (sendCoachingNudge_calls cfg d s) as Hc.
  destruct (SMSManager.sendCoachingNudge cfg d s) as [s' o].
  unfold outs. cbn [snd default from_option id] in *.
  rewrite Hc. destruct (_ || _ || _); simpl; [tauto|].
  rewrite in_map_iff. intros (p & Hp & _). discriminate.
Qed.

(** A decision dispatched while the Slack manager has no thread posts
    nothing to Slack and leaves the manager without a thread. *)
Lemma dispatch_no_thread cfg now r a ch msg :
  no_thread a ->
  ~ In (slack_postMessage ch msg)
      (calls (snd (fst (AIAgent.analyzeBatch_settled cfg now r a))))
  /\ no_thread (fst (fst (AIAgent.analyzeBatch_settled cfg now r a))).
Proof.
  intros Hno. unfold AIAgent.analyzeBatch_settled.
  destruct r as [|name args|t]; cbn [fst snd]; [by split; [simpl; tauto|]| |
    by split; [simpl; tauto|]].
  destruct (String.eqb name "send_message"); [|by split; [simpl; tauto|]].
  destruct (truthy (AIAgent.interviewerId a)); [|by split; [simpl; tauto|]].
  unfold AIAgent.sendToAll, AIAgent.sent_outputs.
  cbn [fst snd AIAgent.slack AIAgent.zoom AIAgent.sms].
  set (a0 := AIAgent.with_lastCoachingTime (Some now) a).
  set (d := AIAgent.coachingData now _ _ a0).
  assert (Hno0 : no_thread a0) by exact Hno.
  destruct (toSlack_no_thread cfg d a0 Hno0) as [Hc Hs].
  split.
  - rewrite calls_cons_print, !calls_app, !in_app_iff.
    fold (outs (snd (AIAgent.toSlack cfg d a0))). rewrite Hc.
    intros [[]|[H|H]].
    + unfold AIAgent.toZoom in H. destruct (includes "ZOOM_DM" _); simpl in H;
        intuition discriminate.
    + by apply toSMS_no_slack in H.
  - destruct Hno as (s & Hs0 & Ht). exists s. split; [|done].
    by rewrite toSMS_slackThread, Hs.
Qed.

Lemma calls_of_concat k (o : list output) (os : list (list output)) :
  calls_of k (concat (o :: os)) = calls_of k o ++ calls_of k (concat os).
Proof. simpl. apply calls_of_app. Qed.

Lemma run_thread_starts cfg es m0 m os n0 :
  run cfg es m0 = Some (m, os) ->
  host_ids_truthy es ->
  n0 = 0 \/ (n0 <= 1 /\ truthy (AIAgent.interviewerId (agent m0)) = true) ->
  n0 + length (calls_of k_slack_start (concat os)) <= 1.
Proof.
  revert m0 os n0.
  induction es as [|[now e] es IH]; intros m0 os n0 H Hids Hinv; simpl in H.
  - injection H as <- <-. simpl. lia.
  - destruct (step cfg now e m0) as [[m1 o]|] eqn:Hstep; [|done]. simpl in H.
    destruct (run cfg es m1) as [[m2 os2]|] eqn:Hrun; [|done].
    injection H as <- <-.
    apply Forall_cons in Hids as [Hid Hids]. cbn [snd] in Hid.
    destruct (step_thread_start _ _ _ _ _ _ Hstep) as (Hl & Hn & Hkeep).
    rewrite calls_of_concat, length_app, Nat.add_assoc.
    apply (IH _ _ _ Hrun Hids).
    destruct (calls_of k_slack_start o) as [|c l] eqn:Hc.
    + simpl. rewrite Nat.add_0_r. destruct Hinv as [->|[Hle Ht]]; [by left|].
      right. split; [done|]. by rewrite (Hkeep Ht).
    + destruct (Hn ltac:(done)) as (Hf & _ & id & Hr & Him).
      destruct Hinv as [->|[_ Ht]]; [|congruence].
      right. simpl in *. split; [lia|]. rewrite Him. by apply Hid.
Qed.

(** C8 (as amended).  A Slack thread is started only by the event that
    resolves the host, and only while the manager has no thread; the
    dispatch of a nudge never starts one: without a thread nothing is posted
    to Slack and the manager stays without one.  In a run whose
    host-attributed events carry truthy identifiers at most one thread is
    ever started, so an existing thread is never replaced. *)
Theorem thread_started_only_at_host_resolution cfg now0 botId url phones
    es m os :
  run cfg es (new_machine (AIAgent.constructor cfg now0 botId url phones))
  = Some (m, os) ->
  host_ids_truthy es ->
  length (calls_of k_slack_start (concat os)) <= 1
  /\ (forall now e m' o,
        step cfg now e m = Some (m', o) ->
        calls_of k_slack_start o <> [] ->
        truthy (AIAgent.interviewerId (agent m)) = false
        /\ no_thread (agent m)
        /\ exists id, resolves_host e = Some id)
  /\ (forall now r ch msg,
        no_thread (agent m) ->
        ~ In (slack_postMessage ch msg)
            (calls (snd (fst (AIAgent.analyzeBatch_settled cfg now r (agent m)))))
        /\ no_thread (fst (fst (AIAgent.analyzeBatch_settled cfg now r
                                  (agent m))))).
Proof.
  intros Hrun Hids. split; [|split].
  - apply (run_thread_starts _ _ _ _ _ 0 Hrun Hids). by left.
  - intros now e m' o Hstep Hne.
    destruct (step_thread_start _ _ _ _ _ _ Hstep) as (_ & Hn & _).
    destruct (Hn Hne) as (Hf & Hno & id & Hr & _). eauto.
  - intros now r ch msg. apply dispatch_no_thread.
Qed.

(** C8 (as stated) fails: the thread start has failed, a nudge is decided,
    and the dispatch posts nothing to Slack, neither a thread start nor the
    reply; it prints that there is no active thread and goes on with the
    other channels. *)
Lemma dispatch_without_thread_drops_reply :
  exists m os o,
    run cfg_all nudge_without_thread machine0 = Some (m, os)
    /\ last os = Some o
    /\ In (Log err_no_active_slack_thread) o
    /\ calls_of k_slack_start o = []
    /\ Forall (fun c => match c with
                        | slack_postMessage _ _ => False
                        | _ => True
                        end) (calls o)
    /\ length (calls o) = 3.
Proof.
  eexists _, _, _. split; [vm_compute; reflexivity|].
  split; [vm_compute; reflexivity|].
  split; [simpl; auto|]. split; [reflexivity|].
  split; [repeat constructor|reflexivity].
Qed.

Lemma thread_started_only_at_host_resolution_witness :
  length (calls_of k_slack_start
            (concat (outputs_after cfg_all nudge_without_thread machine0))) <= 1.
Proof.
  refine (proj1 (thread_started_only_at_host_resolution cfg_all 0 "bot-1"
                   "https://zoom.us/j/1" ["+15550001"; "+15550002"]
                   nudge_without_thread
                   (state_after cfg_all nudge_without_thread machine0)
                   (outputs_after cfg_all nudge_without_thread machine0) _ _)).
  - vm_compute; reflexivity.
  - repeat constructor; intros id H; vm_compute in H;
      try discriminate; injection H as <-; reflexivity.
Defined.

(** ** The SMS fan-out *)

Lemma join_printed cfg now b j m o0 l :
  In (Log l) (snd (join cfg now b j m o0)) ->
  In (Log l) o0
  \/ l = log_coaching_sent (Join.platforms j)
  \/ l = log_coaching_delivered
  \/ is_end_line l = true.
Proof.
  unfold join. destruct (Join.settled j); [|auto].
  pose proof (resume_prints cfg now (Join.caller_ j)
                (set_sends (delete b (sends m)) m)) as Hr.
  destruct (resume _ _ _ _) as [m2 o2]. cbn [snd] in *.
  rewrite !in_app_iff. intros [H|[H|H]]; [auto| |].
  - simpl in H. destruct H as [H|[H|[]]]; injection H as <-; auto.
  - apply prints_In, list_elem_of_In in H.
    rewrite Forall_forall in Hr. auto.
Qed.

Lemma PromiseAll_settle_result i ok p p' all :
  PromiseAll.settle i ok p = Some (p', all) ->
  match all with
  | Some false => PromiseAll.live p = true /\ ok = false
  | Some true =>
      PromiseAll.live p = true /\ ok = true
      /\ PromiseAll.remove i (PromiseAll.open p) = []
  | None => PromiseAll.live p = false
            \/ (ok = true /\ PromiseAll.remove i (PromiseAll.open p) <> [])
  end.
Proof.
  unfold PromiseAll.settle.
  destruct (existsb _ _); [|done].
  destruct (PromiseAll.live p); [|intros H; injection H as <- <-; auto].
  destruct ok; cbn [negb].
  - destruct (PromiseAll.remove i (PromiseAll.open p)) eqn:Hr; simpl;
      intros H; injection H as <- <-; auto.
  - intros H; injection H as <- <-; auto.
Qed.

(** C9 (as amended).  An active SMS manager sends the same text to every
    number of its list.  When the send to one number settles, that number's
    own outcome is printed and no send is repeated; the failure of a send
    never fails the analysis.  The report on the whole fan-out is all or
    nothing: the error line is printed with the first send that fails,
    whatever happens to the others, and the all-sent line only with the last
    send when every send has succeeded. *)
Theorem sms_fan_out_is_all_or_nothing cfg now d g b i ok p m m' o :
  smsNudges m !! b = Some p ->
  step cfg now (Settle (sms_nudge_settled b i ok)) m = Some (m', o) ->
  calls (snd (SMSManager.sendCoachingNudge cfg d g))
  = (if negb (twilioClient cfg)
        || Nat.eqb (length (SMSManager.phoneNumbers g)) 0
        || negb (SMSManager.sessionActive g)
     then []
     else map (twilio_create (SMSManager.messagingServiceSid g)
                 (SmsNudge (S (SMSManager.nudgeCount g)) d))
            (SMSManager.phoneNumbers g))
  /\ In (SMSManager.sendSMS_settled (phone (agent m) i) ok) o
  /\ calls_of k_nudge o = []
  /\ ~ In (Log err_batch_analysis) o
  /\ (In (Log err_sms_nudge) o -> PromiseAll.live p = true /\ ok = false)
  /\ (forall n, In (Log (log_sms_nudge_sent_all n)) o ->
                PromiseAll.live p = true /\ ok = true
                /\ PromiseAll.remove i (PromiseAll.open p) = [])
  /\ (PromiseAll.live p = true -> ok = false ->
      is_Some (sends m !! b) -> is_Some (AIAgent.smsManager (agent m)) ->
      In (Log err_sms_nudge) o).
Proof.
  intros Hp H. split; [apply sendCoachingNudge_calls|].
  pose proof (settle_kind _ _ _ _ _ _ H) as Hk.
  simpl in H. rewrite Hp in H. simpl in H.
  destruct (PromiseAll.settle i ok p) as [[p' all]|] eqn:Hset; [|done].
  simpl in H. pose proof (PromiseAll_settle_result _ _ _ _ _ Hset) as Hres.
  assert (Hline : forall l,
             Log l = SMSManager.sendSMS_settled (phone (agent m) i) ok ->
             is_fan_out_report l = false /\ l <> err_batch_analysis).
  { intros l. unfold SMSManager.sendSMS_settled.
    destruct ok; intros Hl; injection Hl as ->; done. }
  assert (Hcases :
    (o = [SMSManager.sendSMS_settled (phone (agent m) i) ok]
     /\ (all = None \/ sends m !! b = None
         \/ AIAgent.smsManager (agent m) = None))
    \/ exists ok_all j g' m1,
         all = Some ok_all /\ sends m !! b = Some j
         /\ AIAgent.smsManager (agent m) = Some g'
         /\ o = snd (join cfg now b (Join.sms_done j) m1
                       (SMSManager.sendSMS_settled (phone (agent m) i) ok
                          :: SMSManager.sendCoachingNudge_settled ok_all g'))).
  { destruct all as [ok_all|]; [|injection H as _ <-; left; auto].
    destruct (sends m !! b) as [j|] eqn:Hj; [|injection H as _ <-; left; auto].
    destruct (AIAgent.smsManager (agent m)) as [g'|] eqn:Hg;
      [|injection H as _ <-; left; auto].
    right. injection H as H. exists ok_all, j, g'. eexists.
    repeat split; try done. by rewrite H. }
  assert (Hrep : forall l,
             is_fan_out_report l = true -> In (Log l) o ->
             exists ok_all g',
               all = Some ok_all
               /\ In (Log l) (SMSManager.sendCoachingNudge_settled ok_all g')).
  { intros l Hl Hin.
    destruct Hcases as [[-> _]|(ok_all & j & g' & m1 & -> & _ & _ & ->)].
    - destruct Hin as [Hin|[]]. symmetry in Hin.
      destruct (Hline _ Hin). congruence.
    - apply join_printed in Hin as [Hin|[->|[->|He]]]; try done.
      + destruct Hin as [Hin|Hin]; [|by exists ok_all, g'].
        symmetry in Hin. destruct (Hline _ Hin). congruence.
      + by destruct l. }
  split; [|split; [|split; [|split; [|split]]]].
  - destruct Hcases as [[-> _]|(ok_all & j & g' & m1 & _ & _ & _ & ->)];
      [by left|].
    unfold join. destruct (Join.settled _); [|by left].
    destruct (resume _ _ _ _). cbn [snd]. apply in_or_app. left. by left.
  - destruct Hcases as [[-> _]|(ok_all & j & g' & m1 & _ & _ & _ & Ho)];
      [by destruct ok|].
    rewrite Ho. unfold join. destruct (Join.settled _).
    + pose proof (resume_kind cfg now (Join.caller_ (Join.sms_done j))
                    (set_sends (delete b (sends m1)) m1)) as Hr.
      destruct (resume _ _ _ _) as [m2 o2]. cbn [snd] in *.
      change (SMSManager.sendSMS_settled (phone (agent m) i) ok
                :: SMSManager.sendCoachingNudge_settled ok_all g')
        with ([SMSManager.sendSMS_settled (phone (agent m) i) ok]
                ++ SMSManager.sendCoachingNudge_settled ok_all g').
      rewrite !calls_of_app.
      rewrite (all_kind_no _ k_nudge _ Hr) by (simpl; intuition discriminate).
      by destruct ok, ok_all.
    + cbn [snd]. by destruct ok, ok_all.
  - intros Hin.
    destruct Hcases as [[-> _]|(ok_all & j & g' & m1 & _ & _ & _ & ->)].
    + destruct Hin as [Hin|[]]. symmetry in Hin.
      destruct (Hline _ Hin). congruence.
    + apply join_printed in Hin as [Hin|[?|[?|?]]]; try done.
      destruct Hin as [Hin|Hin].
      * symmetry in Hin. destruct (Hline _ Hin). congruence.
      * by destruct ok_all; destruct Hin as [|[]].
  - intros Hin.
    destruct (Hrep err_sms_nudge eq_refl Hin) as (ok_all & g' & -> & Hin').
    destruct ok_all; [|done].
    by destruct Hin' as [|[]].
  - intros n Hin.
    destruct (Hrep (log_sms_nudge_sent_all n) eq_refl Hin)
      as (ok_all & g' & -> & Hin').
    destruct ok_all; [done|].
    by destruct Hin' as [|[]].
  - intros Hl Hok [j Hj] [g' Hg].
    destruct Hcases as [[_ [->|[Hn|Hn]]]|(ok_all & j' & g'' & m1 & -> & _ & _ & ->)];
      try congruence.
    + destruct Hres as [?|[? _]]; congruence.
    + destruct ok_all; [destruct Hres as (_ & ? & _); congruence|].
      unfold join. destruct (Join.settled _).
      * destruct (resume _ _ _ _). cbn [snd]. apply in_or_app. left.
        right. by left.
      * cbn [snd]. right. by left.
Qed.

(** C9 (as stated) fails: one of two numbers is reached, and the fan-out is
    reported exactly as when none is: by the error line alone. *)
Lemma sms_partial_failure_reported_as_failure :
  exists m1 os1 m2 os2,
    run cfg_all sms_partial_failure machine0 = Some (m1, os1)
    /\ run cfg_all sms_total_failure machine0 = Some (m2, os2)
    /\ In (Log (log_sms_sent "+15550002")) (concat os1)
    /\ fan_out_report os1 = [err_sms_nudge]
    /\ fan_out_report os2 = [err_sms_nudge].
Proof.
  exists (state_after cfg_all sms_partial_failure machine0),
    (outputs_after cfg_all sms_partial_failure machine0),
    (state_after cfg_all sms_total_failure machine0),
    (outputs_after cfg_all sms_total_failure machine0).
  split; [vm_compute; reflexivity|].
  split; [vm_compute; reflexivity|].
  split; [vm_compute; tauto|].
  split; vm_compute; reflexivity.
Qed.

Lemma sms_fan_out_is_all_or_nothing_witness :
  In (Log err_sms_nudge)
    (step_outputs cfg_all 9 (Settle (sms_nudge_settled 1 0 false))
       (state_after cfg_all nudge_dispatched machine0)).
Proof.
  refine (proj2 (proj2 (proj2 (proj2 (proj2 (proj2
            (sms_fan_out_is_all_or_nothing cfg_all 9
               (AIAgent.coachingData 8 "Ask about budget"
                  "No BANT qualification yet" agent0)
               (SMSManager.constructor 0 ["+15550001"; "+15550002"] "MG1")
               1 0 false (PromiseAll.start 2)
               (state_after cfg_all nudge_dispatched machine0)
               (step_state cfg_all 9 (Settle (sms_nudge_settled 1 0 false))
                  (state_after cfg_all nudge_dispatched machine0))
               (step_outputs cfg_all 9 (Settle (sms_nudge_settled 1 0 false))
                  (state_after cfg_all nudge_dispatched machine0))
               _ _)))))) _ _ _ _).
  - vm_compute; reflexivity.
  - vm_compute; reflexivity.
  - reflexivity.
  - reflexivity.
  - vm_compute. eexists. reflexivity.
  - vm_compute. eexists. reflexivity.
Defined.

(** ** Nudge counters *)

Lemma sendToAll_session cfg now msg rsn a :
  same_session a (fst (AIAgent.sendToAll cfg now msg rsn a)).
Proof.
  apply sendToAll_frame; try (intros; unfold same_session; simpl; by auto 10).
  unfold same_session. intros x y z. intuition congruence.
Qed.

(** C10.  The agent counts no nudges: a dispatch changes nothing of it but
    its two managers and the time of the last nudge.  Each manager counts
    for itself, and only when it sends: Slack while it has a thread, SMS
    while it is configured and its session is active; and each summary
    reports the counter of the manager that issues it.  So the two
    summaries of one session can differ: with a thread created after the
    first nudge, Slack reports 0 nudges and SMS reports 1. *)
Theorem nudge_counters_are_per_channel :
  (forall cfg now msg rsn a,
     same_session a (fst (AIAgent.sendToAll cfg now msg rsn a)))
  /\ (forall d s,
        SlackThreadManager.nudgeCount
          (fst (SlackThreadManager.sendCoachingReply d s))
        = if truthy (SlackThreadManager.threadTs s)
          then S (SlackThreadManager.nudgeCount s)
          else SlackThreadManager.nudgeCount s)
  /\ (forall d s,
        has_call (snd (SlackThreadManager.sendCoachingReply d s))
        = truthy (SlackThreadManager.threadTs s))
  /\ (forall cfg d g,
        SMSManager.nudgeCount (fst (SMSManager.sendCoachingNudge cfg d g))
        = if twilioClient cfg
             && negb (Nat.eqb (length (SMSManager.phoneNumbers g)) 0)
             && SMSManager.sessionActive g
          then S (SMSManager.nudgeCount g)
          else SMSManager.nudgeCount g)
  /\ (forall cfg d g,
        has_call (snd (SMSManager.sendCoachingNudge cfg d g))
        = twilioClient cfg
          && negb (Nat.eqb (length (SMSManager.phoneNumbers g)) 0)
          && SMSManager.sessionActive g)
  /\ (forall now s,
        calls (snd (SlackThreadManager.endSessionThread now s))
        = if truthy (SlackThreadManager.threadTs s)
          then [slack_postMessage (SlackThreadManager.channelId s)
                  (SlackSessionEnded (SlackThreadManager.threadTs s)
                     (minutes (SlackThreadManager.elapsed now
                                 (SlackThreadManager.sessionStartTime s)))
                     now (SlackThreadManager.nudgeCount s))]
          else [])
  /\ (forall cfg now g,
        calls (snd (SMSManager.endSession cfg now g))
        = if negb (twilioClient cfg)
             || Nat.eqb (length (SMSManager.phoneNumbers g)) 0
             || negb (SMSManager.sessionActive g)
          then []
          else map (twilio_create (SMSManager.messagingServiceSid g)
                      (SmsSessionEnded
                         (minutes (now - SMSManager.sessionStartTime g))
                         (SMSManager.nudgeCount g) now))
                 (SMSManager.phoneNumbers g))
  /\ exists m os o ch ts d1 e1 sid d2 e2 to,
       run cfg_all late_thread_then_stop machine0 = Some (m, os)
       /\ last os = Some o
       /\ In (Call (slack_postMessage ch (SlackSessionEnded ts d1 e1 0))) o
       /\ In (Call (twilio_create sid (SmsSessionEnded d2 1 e2) to)) o.
Proof.
  split; [apply sendToAll_session|].
  split.
  { intros d s. unfold SlackThreadManager.sendCoachingReply.
    by destruct (truthy _). }
  split.
  { intros d s. unfold SlackThreadManager.sendCoachingReply.
    by destruct (truthy _). }
  split.
  { intros cfg d g. unfold SMSManager.sendCoachingNudge.
    destruct (twilioClient cfg); [|done].
    destruct (Nat.eqb _ _); [done|].
    by destruct (SMSManager.sessionActive g). }
  split.
  { intros cfg d g. unfold SMSManager.sendCoachingNudge.
    destruct (twilioClient cfg); [|done].
    destruct (Nat.eqb _ _) eqn:Hn; [done|].
    destruct (SMSManager.sessionActive g); [|done]. simpl.
    unfold SMSManager.sendAll.
    destruct (SMSManager.phoneNumbers g); [done|]. done. }
  split.
  { intros now s. unfold SlackThreadManager.endSessionThread.
    by destruct (truthy _). }
  split; [apply endSession_calls|].
  exists (state_after cfg_all late_thread_then_stop machine0),
    (outputs_after cfg_all late_thread_then_stop machine0).
  eexists _, _, _, _, _, _, _, _, _.
  split; [vm_compute; reflexivity|].
  split; [vm_compute; reflexivity|].
  split; [left; reflexivity|].
  right; left; reflexivity.
Qed.

(** ** The properties at concrete sessions *)

(** The reasoning engine names participant 8; the direct message goes to
    the host, participant 7. *)
Example directive_overridden :
  calls_of k_nudge
    (snd (fst (AIAgent.analyzeBatch_settled cfg_all 9
                 (directive (JNum 8) "Bob") agent_with_host)))
  = [recall_send_chat_message "bot-1" (Some "7") "Ask about budget"].
Proof. reflexivity. Qed.



Lemma ingest_after_stop_is_dropped_witness :
  sessions (server_deleted 0 (server_after cfg_all created_then_stopped))
    !! "bot-1" = None.
Proof.
  refine (proj1 (ingest_after_stop_is_dropped cfg_all 3
                   (transcript_request "bot-1" "Ann" (JNum 7) true ["Hello"])
                   {| Webhook.bot_id := Some "bot-1";
                      Webhook.data_ :=
                        Some {| Webhook.participant_ :=
                                  Some {| Webhook.name := Some "Ann";
                                          Webhook.id := JNum 7;
                                          Webhook.is_host := true |};
                                Webhook.words_ :=
                                  Webhook.words_array ["Hello"] |} |}
                   "bot-1" 0
                   (server_after cfg_all created_then_stopped)
                   (server_deleted 0 (server_after cfg_all created_then_stopped))
                   [Log (log_bot_stopped "bot-1"); Respond res_success]
                   _ _ _ _ _ _)).
  - vm_compute; reflexivity.
  - vm_compute; reflexivity.
  - reflexivity.
  - reflexivity.
  - reflexivity.
  - discriminate.
Defined.

(** ** The host, once resolved *)

Lemma same_host_trans a b c : same_host a b -> same_host b c -> same_host a c.
Proof. unfold same_host. intuition congruence. Qed.

Lemma processTranscript_host cfg now speaker pid isHost text a :
  truthy (AIAgent.interviewerId a) = true ->
  same_host a (fst (AIAgent.processTranscript cfg now speaker pid isHost text a)).
Proof.
  intros Hid. unfold AIAgent.processTranscript. rewrite Hid, andb_false_r.
  destruct (_ <=? _)%nat; [|done].
  unfold AIAgent.analyzeBatch. destruct (Nat.eqb _ _); done.
Qed.

Lemma step_host cfg now e m m' o :
  step cfg now e m = Some (m', o) ->
  truthy (AIAgent.interviewerId (agent m)) = true ->
  same_host (agent m) (agent m').
Proof.
  intros H Hid.
  destruct e as [[speaker pid isHost text|name id|]|s]; cbn [step] in H.
  - assert (Hi : invoke cfg now
                   (call_processTranscript speaker pid isHost text) m = (m', o))
      by congruence.
    simpl in Hi.
    pose proof (processTranscript_host cfg now speaker pid isHost text
                  (agent m) Hid) as Hh.
    destruct (AIAgent.processTranscript _ _ _ _ _ _ _) as [a1 o1].
    injection Hi as <- <-. by rewrite suspend_agent.
  - assert (Hi : invoke cfg now (call_setInterviewer name id) m = (m', o))
      by congruence.
    simpl in Hi.
    pose proof (setInterviewer_starts cfg now name id (agent m))
      as (_ & _ & _ & Hkeep). cbn zeta in Hkeep. rewrite (Hkeep Hid) in Hi.
    injection Hi as <- <-. done.
  - assert (Hi : invoke cfg now call_flushBuffer m = (m', o)) by congruence.
    destruct (AIAgent.transcriptBuffer (agent m)) as [|l ls] eqn:Hbuf.
    + rewrite invoke_flush_empty in Hi by done.
      pose proof (flushBuffer_rest_frame same_host
                    (fun a => conj eq_refl eq_refl) same_host_trans
                    (fun s a => conj eq_refl eq_refl)
                    (fun s a => conj eq_refl eq_refl)
                    cfg now (nextFlush m)
                    (set_nextFlush (S (nextFlush m)) m)) as Hf.
      rewrite Hi in Hf. exact Hf.
    + rewrite invoke_flush_nonempty in Hi by (rewrite Hbuf; done).
      injection Hi as <- <-. done.
  - exact (settle_frame same_host
             (fun a => conj eq_refl eq_refl) same_host_trans
             (fun s a => conj eq_refl eq_refl) (fun s a => conj eq_refl eq_refl)
             (fun x a => conj eq_refl eq_refl) (fun a => conj eq_refl eq_refl)
             _ _ _ _ _ _ H).
Qed.

(** X1. The first host wins.  Once the agent holds a truthy host id, no
    event of any run changes the id or the name: a later transcript or
    join of another participant flagged as host does not take over, and no
    settlement or flush touches the host. *)
Theorem host_identity_is_sticky cfg es m0 m os :
  run cfg es m0 = Some (m, os) ->
  truthy (AIAgent.interviewerId (agent m0)) = true ->
  AIAgent.interviewerId (agent m) = AIAgent.interviewerId (agent m0)
  /\ AIAgent.interviewerName (agent m) = AIAgent.interviewerName (agent m0).
Proof.
  revert m0 os. induction es as [|[now e] es IH]; intros m0 os H Hid; simpl in H.
  - by injection H as <- <-.
  - destruct (step cfg now e m0) as [[m1 o]|] eqn:Hstep; [|done]. simpl in H.
    destruct (run cfg es m1) as [[m2 os2]|] eqn:Hrun; [|done]. simpl in H.
    injection H as <- <-.
    destruct (step_host _ _ _ _ _ _ Hstep Hid) as [H1 H2].
    destruct (IH _ _ Hrun) as [H3 H4]; [by rewrite H1|].
    split; congruence.
Qed.

(** ** Batch numbers *)

Lemma batch_numbers_app o1 o2 :
  batch_numbers (o1 ++ o2) = batch_numbers o1 ++ batch_numbers o2.
Proof. unfold batch_numbers. by rewrite calls_app, omap_app. Qed.

Lemma batch_numbers_calls_of o :
  batch_numbers o = omap batch_number (calls_of k_chat o).
Proof.
  unfold batch_numbers, calls_of. induction (calls o) as [|c l IH]; [done|].
  rewrite filter_cons. destruct (decide (kind_of c = k_chat)) as [Hk|Hk].
  - cbn [omap list_omap]. fold (omap batch_number l).
    fold (omap batch_number (filter (fun c => kind_of c = k_chat) l)).
    by rewrite IH.
  - rewrite <- IH. by destruct c.
Qed.

(** The analyze call of a step, if any, carries the next batch number, and
    the counter moves on with it. *)
Lemma step_batch_number cfg now e m m' o :
  step cfg now e m = Some (m', o) ->
  (batch_numbers o = [] /\ AIAgent.batchCount (agent m') = AIAgent.batchCount (agent m))
  \/ (batch_numbers o = [S (AIAgent.batchCount (agent m))]
      /\ AIAgent.batchCount (agent m') = S (AIAgent.batchCount (agent m))).
Proof.
  intros H. rewrite batch_numbers_calls_of.
  destruct e as [[speaker pid isHost text|name id|]|s]; cbn [step] in H.
  - assert (Hi : invoke cfg now
                   (call_processTranscript speaker pid isHost text) m = (m', o))
      by congruence.
    simpl in Hi.
    pose proof (processTranscript_batch cfg now speaker pid isHost text
                  (agent m)) as Hp. cbn zeta in Hp.
    destruct (AIAgent.processTranscript _ _ _ _ _ _ _) as [a1 o1].
    injection Hi as <- <-. rewrite suspend_agent.
    cbn [fst snd agent set_agent] in *. destruct Hp as [_ Hp].
    destruct (_ <=? _)%nat; destruct Hp as (_ & -> & ->); [right|left]; done.
  - assert (Hi : invoke cfg now (call_setInterviewer name id) m = (m', o))
      by congruence.
    simpl in Hi.
    pose proof (setInterviewer_batcher cfg now name id (agent m)) as (_ & _ & Hc).
    pose proof (setInterviewer_kind cfg now name id (agent m)) as Hk.
    destruct (AIAgent.setInterviewer _ _ _ _ _) as [a1 o1].
    injection Hi as <- <-. rewrite suspend_agent. cbn [fst snd agent set_agent] in *.
    left. split; [|done].
    rewrite (all_kind_no _ k_chat _ Hk); [done|]. simpl. intuition discriminate.
  - assert (Hi : invoke cfg now call_flushBuffer m = (m', o)) by congruence.
    destruct (AIAgent.transcriptBuffer (agent m)) as [|l ls] eqn:Hbuf.
    + rewrite invoke_flush_empty in Hi by done.
      pose proof (flushBuffer_rest_batcher cfg now (nextFlush m)
                    (set_nextFlush (S (nextFlush m)) m)) as (_ & _ & Hc).
      pose proof (flushBuffer_rest_kind cfg now (nextFlush m)
                    (set_nextFlush (S (nextFlush m)) m)) as Hk.
      rewrite Hi in Hc, Hk. cbn [fst snd agent set_nextFlush] in *.
      left. split; [|done].
      rewrite (all_kind_no _ k_chat _ Hk); [done|]. simpl. intuition discriminate.
    + rewrite invoke_flush_nonempty in Hi by (rewrite Hbuf; done).
      injection Hi as <- <-. right. done.
  - pose proof (settle_buffer _ _ _ _ _ _ H) as (_ & Hc & _).
    pose proof (settle_kind _ _ _ _ _ _ H) as Hk.
    left. split; [|done].
    rewrite (all_kind_no _ k_chat _ Hk); [done|]. simpl. intuition discriminate.
Qed.

(** X2. Batches are numbered consecutively.  In every run, the analyze
    calls issued carry, in the order of issue, the numbers that follow the
    agent's batch counter one by one, and the counter ends at the last of
    them; on a new agent these are 1, 2, 3 and so on. *)
Theorem batch_numbers_are_consecutive cfg es m0 m os :
  run cfg es m0 = Some (m, os) ->
  batch_numbers (concat os)
  = seq (S (AIAgent.batchCount (agent m0)))
        (AIAgent.batchCount (agent m) - AIAgent.batchCount (agent m0))
  /\ AIAgent.batchCount (agent m0) <= AIAgent.batchCount (agent m).
Proof.
  revert m0 os. induction es as [|[now e] es IH]; intros m0 os H; simpl in H.
  - injection H as <- <-. rewrite Nat.sub_diag. split; [done|lia].
  - destruct (step cfg now e m0) as [[m1 o]|] eqn:Hstep; [|done]. simpl in H.
    destruct (run cfg es m1) as [[m2 os2]|] eqn:Hrun; [|done]. simpl in H.
    injection H as <- <-. destruct (IH _ _ Hrun) as [Hs Hle].
    cbn [concat]. rewrite batch_numbers_app, Hs.
    destruct (step_batch_number _ _ _ _ _ _ Hstep) as [[-> Hc]|[-> Hc]];
      rewrite Hc in *.
    + split; [done|lia].
    + split; [|lia].
      replace (AIAgent.batchCount (agent m2) - AIAgent.batchCount (agent m0))
        with (S (AIAgent.batchCount (agent m2) - S (AIAgent.batchCount (agent m0))))
        by lia.
      done.
Qed.

(** ** The conversation history *)

Lemma same_history_trans a b c :
  same_history a b -> same_history b c -> same_history a c.
Proof. unfold same_history. congruence. Qed.

Lemma processTranscript_history cfg now speaker pid isHost text a :
  AIAgent.conversationHistory
    (fst (AIAgent.processTranscript cfg now speaker pid isHost text a))
  = AIAgent.conversationHistory a
    ++ transcribed (now, Invoke (call_processTranscript speaker pid isHost text)).
Proof.
  unfold AIAgent.processTranscript.
  assert (H1 : same_history a
                 (fst (if isHost && negb (truthy (AIAgent.interviewerId a))
                       then AIAgent.setInterviewer cfg now (Some speaker) pid a
                       else (a, [])))).
  { destruct (_ && _); [|done].
    apply setInterviewer_frame; try done. apply same_history_trans. }
  destruct (if _ && _ then _ else _) as [a1 o1]. cbn [fst] in H1.
  unfold same_history in H1.
  destruct (_ <=? _)%nat.
  - unfold AIAgent.analyzeBatch. destruct (Nat.eqb _ _); simpl; by rewrite H1.
  - simpl. by rewrite H1.
Qed.

Lemma step_history cfg now e m m' o :
  step cfg now e m = Some (m', o) ->
  AIAgent.conversationHistory (agent m')
  = AIAgent.conversationHistory (agent m) ++ transcribed (now, e).
Proof.
  intros H.
  destruct e as [[speaker pid isHost text|name id|]|s]; cbn [step] in H.
  - assert (Hi : invoke cfg now
                   (call_processTranscript speaker pid isHost text) m = (m', o))
      by congruence.
    simpl in Hi.
    pose proof (processTranscript_history cfg now speaker pid isHost text
                  (agent m)) as Hh.
    destruct (AIAgent.processTranscript _ _ _ _ _ _ _) as [a1 o1].
    injection Hi as <- <-. by rewrite suspend_agent.
  - assert (Hi : invoke cfg now (call_setInterviewer name id) m = (m', o))
      by congruence.
    simpl in Hi.
    pose proof (setInterviewer_frame same_history (fun a => eq_refl)
                  same_history_trans (fun s a => eq_refl) (fun s a => eq_refl)
                  (fun i n a => eq_refl) cfg now name id (agent m)) as Hh.
    destruct (AIAgent.setInterviewer _ _ _ _ _) as [a1 o1].
    injection Hi as <- <-. rewrite suspend_agent.
    cbn [transcribed snd]. rewrite app_nil_r. exact Hh.
  - assert (Hi : invoke cfg now call_flushBuffer m = (m', o)) by congruence.
    cbn [transcribed snd]. rewrite app_nil_r.
    destruct (AIAgent.transcriptBuffer (agent m)) as [|l ls] eqn:Hbuf.
    + rewrite invoke_flush_empty in Hi by done.
      pose proof (flushBuffer_rest_frame same_history (fun a => eq_refl)
                    same_history_trans (fun s a => eq_refl) (fun s a => eq_refl)
                    cfg now (nextFlush m)
                    (set_nextFlush (S (nextFlush m)) m)) as Hf.
      rewrite Hi in Hf. exact Hf.
    + rewrite invoke_flush_nonempty in Hi by (rewrite Hbuf; done).
      by injection Hi as <- <-.
  - cbn [transcribed snd]. rewrite app_nil_r.
    exact (settle_frame same_history (fun a => eq_refl) same_history_trans
             (fun s a => eq_refl) (fun s a => eq_refl)
             (fun x a => eq_refl) (fun a => eq_refl) _ _ _ _ _ _ H).
Qed.

(** X3. The history is complete.  In every run, the conversation history
    grows by exactly one entry per transcript handed to the agent, in the
    order of arrival and stamped with the time of arrival; no settlement,
    flush or failed analysis removes or adds an entry.  The summary is the
    last ten of these entries, or all of them when there are fewer. *)
Theorem history_records_every_transcript cfg es m0 m os :
  run cfg es m0 = Some (m, os) ->
  let h := AIAgent.conversationHistory (agent m0) ++ flat_map transcribed es in
  AIAgent.conversationHistory (agent m) = h
  /\ AIAgent.getConversationSummary (agent m) = drop (length h - 10) h
  /\ length (AIAgent.getConversationSummary (agent m)) = Nat.min 10 (length h).
Proof.
  intros H. cbn zeta.
  assert (Hh : AIAgent.conversationHistory (agent m)
               = AIAgent.conversationHistory (agent m0) ++ flat_map transcribed es).
  { revert m0 os H.
    induction es as [|[now e] es IH]; intros m0 os H; simpl in H.
    - injection H as <- <-. simpl. by rewrite app_nil_r.
    - destruct (step cfg now e m0) as [[m1 o]|] eqn:Hstep; [|done]. simpl in H.
      destruct (run cfg es m1) as [[m2 os2]|] eqn:Hrun; [|done]. simpl in H.
      injection H as <- <-.
      rewrite (IH _ _ Hrun), (step_history _ _ _ _ _ _ Hstep).
      cbn [flat_map]. by rewrite app_assoc. }
  unfold AIAgent.getConversationSummary. rewrite Hh.
  split; [done|]. split; [done|]. rewrite length_drop. lia.
Qed.

Lemma host_identity_is_sticky_witness :
  AIAgent.interviewerId
    (agent (state_after cfg_all twelve_lines (new_machine agent_with_host)))
  = JNum 7.
Proof.
  refine (proj1 (host_identity_is_sticky cfg_all twelve_lines
                   (new_machine agent_with_host)
                   (state_after cfg_all twelve_lines (new_machine agent_with_host))
                   (outputs_after cfg_all twelve_lines
                      (new_machine agent_with_host)) _ _));
    vm_compute; reflexivity.
Defined.

Lemma batch_numbers_are_consecutive_witness :
  batch_numbers (concat (outputs_after cfg_all twelve_lines_first_fails machine0))
  = [1; 2].
Proof.
  refine (proj1 (batch_numbers_are_consecutive cfg_all twelve_lines_first_fails
                   machine0
                   (state_after cfg_all twelve_lines_first_fails machine0)
                   (outputs_after cfg_all twelve_lines_first_fails machine0) _)).
  vm_compute; reflexivity.
Defined.

Lemma history_records_every_transcript_witness :
  length (AIAgent.getConversationSummary
            (agent (state_after cfg_all twelve_lines_first_fails machine0)))
  = 10.
Proof.
  refine (proj2 (proj2 (history_records_every_transcript cfg_all
                          twelve_lines_first_fails machine0
                          (state_after cfg_all twelve_lines_first_fails machine0)
                          (outputs_after cfg_all twelve_lines_first_fails machine0)
                          _))).
  vm_compute; reflexivity.
Defined.

(** ** What the agent's own code puts out *)

Lemma plain_nil : plain [].
Proof. constructor. Qed.

Lemma plain_app o1 o2 : plain o1 -> plain o2 -> plain (o1 ++ o2).
Proof. apply Forall_app_2. Qed.

Lemma plain_sendAll m body : plain (SMSManager.sendAll m body).
Proof.
  unfold SMSManager.sendAll, plain. apply Forall_map, Forall_forall. done.
Qed.

Lemma plain_answers o : plain o -> answers o = [] /\ resolved o = [].
Proof.
  induction 1 as [|x o Hx _ [IH1 IH2]]; [done|].
  destruct x; try done.
Qed.

Lemma setInterviewer_plain cfg now name id a :
  plain (snd (AIAgent.setInterviewer cfg now name id a)).
Proof.
  unfold AIAgent.setInterviewer.
  destruct (negb _); [|apply plain_nil].
  set (a1 := AIAgent.with_interviewer id name a).
  assert (Hs : plain (snd (if includes "SLACK" (INTEGRATION_MODES cfg)
                              && bool_decide (is_Some (AIAgent.slackThread a1))
                           then AIAgent.initializeSlackThread now name a1
                           else (a1, [])))).
  { destruct (_ && _); [|apply plain_nil].
    unfold AIAgent.initializeSlackThread.
    destruct (AIAgent.slackThread a1); [|apply plain_nil].
    destruct (negb _); [|apply plain_nil]. repeat constructor. }
  destruct (if _ && _ then _ else _) as [a2 o1]. cbn [snd] in Hs.
  destruct (AIAgent.smsManager a2) as [g|]; cbn [snd];
    [|apply plain_app; [done|apply plain_nil]].
  destruct (includes "SMS" _); cbn [snd];
    [|apply plain_app; [done|apply plain_nil]].
  assert (Hg : plain (snd (SMSManager.startSession cfg
                             (AIAgent.sessionInfo now name a2) g))).
  { unfold SMSManager.startSession. destruct (_ || _); cbn [snd].
    - repeat constructor.
    - apply plain_sendAll. }
  destruct (SMSManager.startSession _ _ _) as [g' o2]. cbn [snd] in *.
  by apply plain_app.
Qed.

Lemma processTranscript_plain cfg now speaker pid isHost text a :
  plain (snd (AIAgent.processTranscript cfg now speaker pid isHost text a)).
Proof.
  unfold AIAgent.processTranscript.
  assert (H1 : plain (snd (if isHost && negb (truthy (AIAgent.interviewerId a))
                           then AIAgent.setInterviewer cfg now (Some speaker) pid a
                           else (a, [])))).
  { destruct (_ && _); [apply setInterviewer_plain|apply plain_nil]. }
  destruct (if _ && _ then _ else _) as [a1 o1]. cbn [snd] in H1.
  destruct (_ <=? _)%nat.
  - unfold AIAgent.analyzeBatch. destruct (Nat.eqb _ _); cbn [snd];
      (apply plain_app; [done|repeat constructor]).
  - cbn [snd]. apply plain_app; [done|repeat constructor].
Qed.

(** ** The webhook route *)

Lemma webhook_transcript_effect cfg now key session transcript srv :
  sessions srv !! key = Some session ->
  let r := webhook_transcript cfg now key session transcript srv in
  plain (snd r)
  /\ nextAgent (fst r) = nextAgent srv /\ stopping (fst r) = stopping srv
  /\ deleting (fst r) = deleting srv /\ nextStop (fst r) = nextStop srv
  /\ (sessions (fst r) = sessions srv
      \/ exists msg, sessions (fst r)
                     = <[key := Session.push msg session]> (sessions srv))
  /\ (agents (fst r) = agents srv
      \/ exists m m', agents srv !! Session.aiAgent session = Some m
                      /\ agents (fst r)
                         = <[Session.aiAgent session := m']> (agents srv))
  /\ (webhook_text transcript = "" -> r = (srv, [])).
Proof.
  intros Hk. cbn zeta. unfold webhook_transcript. fold (webhook_text transcript).
  destruct (String.eqb_spec (webhook_text transcript) "") as [He|He]; cbn [negb].
  { rewrite ?He. cbn [fst snd]. repeat split; auto using plain_nil. }
  cbn [agents set_sessions].
  destruct (agents srv !! Session.aiAgent session) as [m|] eqn:Hm.
  2:{ cbn [fst snd sessions set_sessions agents nextAgent stopping deleting nextStop].
      repeat split; eauto using plain_nil. done. }
  destruct (truthy _).
  2:{ cbn [fst snd sessions set_sessions agents nextAgent stopping deleting nextStop].
      repeat split; eauto using plain_nil. done. }
  cbn [invoke].
  pose proof (processTranscript_plain cfg now
                (or_default (Webhook.participant_ transcript ≫= Webhook.name)
                   "Unknown")
                (default JUndefined (Webhook.id <$> Webhook.participant_ transcript))
                (default false (Webhook.is_host <$> Webhook.participant_ transcript))
                (webhook_text transcript) (agent m)) as Hp.
  destruct (AIAgent.processTranscript _ _ _ _ _ _ _) as [a1 o1].
  cbn [fst snd sessions set_sessions set_agents agents nextAgent stopping
         deleting nextStop] in *.
  repeat split; eauto. done.
Qed.

Lemma webhook_join_effect cfg now session payload srv :
  let r := webhook_join cfg now session payload srv in
  plain (snd r)
  /\ nextAgent (fst r) = nextAgent srv /\ stopping (fst r) = stopping srv
  /\ deleting (fst r) = deleting srv /\ nextStop (fst r) = nextStop srv
  /\ sessions (fst r) = sessions srv
  /\ (agents (fst r) = agents srv
      \/ exists m m', agents srv !! Session.aiAgent session = Some m
                      /\ agents (fst r)
                         = <[Session.aiAgent session := m']> (agents srv))
  /\ ((forall p, payload ≫= Webhook.participant_ = Some p ->
                 Webhook.is_host p = false) -> r = (srv, [])).
Proof.
  cbn zeta. unfold webhook_join.
  destruct (payload ≫= Webhook.participant_) as [p|];
    [|cbn [fst snd]; repeat split; auto using plain_nil].
  destruct (agents srv !! Session.aiAgent session) as [m|] eqn:Hm;
    [|cbn [fst snd]; repeat split; auto using plain_nil].
  destruct (Webhook.is_host p) eqn:Hh;
    [|cbn [fst snd]; repeat split; auto using plain_nil].
  cbn [invoke].
  pose proof (setInterviewer_plain cfg now (Webhook.name p) (Webhook.id p)
                (agent m)) as Hp.
  destruct (AIAgent.setInterviewer _ _ _ _ _) as [a1 o1].
  cbn [fst snd sessions set_agents agents nextAgent stopping deleting nextStop]
    in *.
  repeat split; eauto.
  intros Hno. specialize (Hno p eq_refl). congruence.
Qed.

Ltac quiet o0 :=
  cbn [fst snd];
  split;
  [exists o0; split; [done|]; split; [repeat constructor|]; intros _; done|];
  repeat split; auto.

(** What the webhook route does to the tables, whatever the request. *)
Lemma webhook_effect cfg now req srv :
  let r := webhook cfg now req srv in
  (exists o, snd r = Respond (if String.eqb (Webhook.secret req)
                                   (WEBHOOK_SECRET cfg)
                              then res_200_OK else res_401_Unauthorized) :: o
             /\ plain o
             /\ (~ acted_on cfg req srv -> fst r = srv /\ calls o = []))
  /\ nextAgent (fst r) = nextAgent srv /\ stopping (fst r) = stopping srv
  /\ deleting (fst r) = deleting srv /\ nextStop (fst r) = nextStop srv
  /\ (sessions (fst r) = sessions srv
      \/ exists key session msg,
           webhook_bot req = Some key /\ sessions srv !! key = Some session
           /\ sessions (fst r)
              = <[key := Session.push msg session]> (sessions srv))
  /\ (agents (fst r) = agents srv
      \/ exists key session m m',
           webhook_bot req = Some key /\ sessions srv !! key = Some session
           /\ agents srv !! Session.aiAgent session = Some m
           /\ agents (fst r) = <[Session.aiAgent session := m']> (agents srv)).
Proof.
  cbn zeta. unfold webhook, webhook_bot, acted_on.
  destruct (String.eqb_spec (Webhook.secret req) (WEBHOOK_SECRET cfg)) as [Hs|Hs];
    cbn [negb]; [|quiet (@nil output)].
  destruct (Webhook.body_data req) as [data|] eqn:Hd; [|quiet (@nil output)].
  cbn [mbind option_bind].
  destruct (String.eqb_spec (Webhook.event req) "") as [He|He];
    [quiet (@nil output)|].
  destruct (Webhook.bot_id data) as [key|] eqn:Hb; cbn [mbind option_bind];
    [|quiet [Log (log_no_session None)]].
  destruct (sessions srv !! key) as [session|] eqn:Hk;
    cbn [fmap option_fmap option_map];
    [|quiet [Log (log_no_session (Some key))]].
  destruct (String.eqb_spec (Webhook.event req) "transcript.data") as [Ht|Ht];
    cbn [orb].
  - destruct (Webhook.data_ data) as [transcript|] eqn:Hp; [|quiet (@nil output)].
    rewrite Ht. cbn [String.eqb Ascii.eqb Bool.eqb].
    pose proof (webhook_transcript_effect cfg now key session transcript srv Hk)
      as (Hpl & H1 & H2 & H3 & H4 & H5 & H6 & H7). cbn zeta in *.
    destruct (webhook_transcript _ _ _ _ _ _) as [srv' o]. cbn [fst snd] in *.
    split; [|repeat split; auto].
    + exists o. split; [done|]. split; [done|]. intros Hn.
      destruct (String.eqb_spec (webhook_text transcript) "") as [Hx|Hx].
      * specialize (H7 Hx). by injection H7 as -> ->.
      * exfalso. apply Hn. split; [done|].
        exists data, key, session. repeat split; auto. left. split; [done|].
        by exists transcript.
    + destruct H5 as [H5|[msg H5]]; [by left|right]. by exists key, session, msg.
    + destruct H6 as [H6|(m & m' & H6 & H6')]; [by left|right].
      by exists key, session, m, m'.
  - destruct (String.eqb_spec (Webhook.event req) "transcript.partial_data")
      as [Hpd|Hpd].
    { destruct (Webhook.data_ data); quiet (@nil output). }
    destruct (String.eqb_spec (Webhook.event req) "participant_events.join")
      as [Hj|Hj]; [|quiet (@nil output)].
    pose proof (webhook_join_effect cfg now session (Webhook.data_ data) srv)
      as (Hpl & H1 & H2 & H3 & H4 & H5 & H6 & H7). cbn zeta in *.
    destruct (webhook_join _ _ _ _ _) as [srv' o]. cbn [fst snd] in *.
    split; [|repeat split; auto].
    + exists o. split; [done|]. split; [done|]. intros Hn.
      assert (Hx : (srv', o) = (srv, [])); [|by injection Hx as -> ->].
      apply H7. intros p Hp.
      destruct (Webhook.is_host p) eqn:Hh; [|done]. exfalso. apply Hn.
      split; [done|]. exists data, key, session. repeat split; auto. right.
      split; [done|].
      destruct (Webhook.data_ data) as [payload|]; [|done]. simpl in Hp.
      by exists payload, p.
    + destruct H6 as [H6|(m & m' & H6 & H6')]; [by left|right].
      by exists key, session, m, m'.
Qed.

(** X4. The webhook route answers every request exactly once and first:
    [401] for a wrong secret, [200 OK] otherwise, before the event is looked
    at; what follows the answer are only calls and console lines of the
    agent.  No request adds or removes a session or an agent, and a request
    with a wrong secret changes nothing at all. *)
Theorem webhook_answers_once_and_first cfg now req srv :
  let r := webhook cfg now req srv in
  (exists o,
     snd r = Respond (if String.eqb (Webhook.secret req) (WEBHOOK_SECRET cfg)
                      then res_200_OK else res_401_Unauthorized) :: o
     /\ answers o = [] /\ plain o)
  /\ dom (sessions (fst r)) = dom (sessions srv)
  /\ dom (agents (fst r)) = dom (agents srv)
  /\ (Webhook.secret req <> WEBHOOK_SECRET cfg ->
      r = (srv, [Respond res_401_Unauthorized])).
Proof.
  cbn zeta.
  pose proof (webhook_effect cfg now req srv)
    as ((o & Ho & Hpl & _) & _ & _ & _ & _ & Hs & Ha). cbn zeta in *.
  split; [|split; [|split]].
  - exists o. split; [done|]. split; [|done]. by apply plain_answers.
  - destruct Hs as [->|(key & session & msg & _ & Hk & ->)]; [done|].
    by apply dom_insert_lookup_L.
  - destruct Ha as [->|(key & session & m & m' & _ & _ & Hm & ->)]; [done|].
    by apply dom_insert_lookup_L.
  - intros Hne. unfold webhook.
    destruct (String.eqb_spec (Webhook.secret req) (WEBHOOK_SECRET cfg)); done.
Qed.

(** X5. Events the webhook route does not act on.  Unless the request
    carries the right secret, names a bot of the table and is either a final
    transcript with some text or the join of a participant flagged as host,
    the route changes nothing and issues no call: partial transcripts,
    transcripts without text, joins of other participants, other events and
    events for unknown bots are dropped after the answer. *)
Theorem webhook_drops_other_events cfg now req srv :
  ~ acted_on cfg req srv ->
  fst (webhook cfg now req srv) = srv
  /\ calls (snd (webhook cfg now req srv)) = [].
Proof.
  intros Hn.
  pose proof (webhook_effect cfg now req srv) as ((o & Ho & _ & H) & _).
  cbn zeta in *. destruct (H Hn) as [H1 H2]. split; [done|].
  rewrite Ho. done.
Qed.

(** ** Sessions do not share anything *)

Lemma resume_stops_fold ref o srv :
  resume_stops ref o srv = foldl (resume_stop ref) (srv, o) o.
Proof.
  unfold resume_stops. generalize (srv, o) as st.
  induction o as [|x l IH]; intros st; [done|].
  cbn [foldl]. rewrite <- IH. f_equal.
  destruct st as [srv0 acc]. by destruct x.
Qed.

Lemma resume_stops_tables ref o srv :
  sessions (fst (resume_stops ref o srv)) = sessions srv
  /\ agents (fst (resume_stops ref o srv)) = agents srv
  /\ nextAgent (fst (resume_stops ref o srv)) = nextAgent srv.
Proof.
  rewrite resume_stops_fold.
  assert (H : forall l st,
            sessions (fst (foldl (resume_stop ref) st l)) = sessions (fst st)
            /\ agents (fst (foldl (resume_stop ref) st l)) = agents (fst st)
            /\ nextAgent (fst (foldl (resume_stop ref) st l))
               = nextAgent (fst st)).
  { induction l as [|x l IH]; intros st; [done|].
    cbn [foldl]. destruct (IH (resume_stop ref st x)) as (-> & -> & ->).
    destruct x as [c|ln|r|f]; try done.
    cbn [resume_stop]. by destruct (stopping (fst st) !! (ref, f)). }
  apply (H o (srv, o)).
Qed.

Lemma serve_tables cfg now r srv srv' o k s :
  serve cfg now r srv = Some (srv', o) ->
  agents_unshared srv ->
  sessions srv !! k = Some s ->
  ~ concerns r srv k s ->
  sessions srv' !! k = Some s
  /\ agents srv' !! Session.aiAgent s = agents srv !! Session.aiAgent s.
Proof.
  intros H [Hlt Hinj] Hk Hn.
  destruct r as [id url phones|req|botId|ref st|stop ok]; cbn [serve concerns] in *.
  - injection H as <- <-. cbn [sessions agents].
    rewrite lookup_insert_ne by done.
    rewrite lookup_insert_ne; [done|]. specialize (Hlt _ _ Hk). lia.
  - assert (Hw : webhook cfg now req srv = (srv', o)) by congruence.
    pose proof (webhook_effect cfg now req srv) as (_ & _ & _ & _ & _ & Hs & Ha).
    cbn zeta in *. rewrite Hw in Hs, Ha. cbn [fst] in *. split.
    + destruct Hs as [->|(key & session & msg & Hb & _ & ->)]; [done|].
      rewrite lookup_insert_ne; [done|]. congruence.
    + destruct Ha as [->|(key & session & m & m' & Hb & Hs' & _ & ->)]; [done|].
      rewrite lookup_insert_ne; [done|].
      intros Heq. apply Hn. rewrite Hb. f_equal. by eapply Hinj.
  - assert (Hw : stop_bot cfg now botId srv = (srv', o)) by congruence.
    unfold stop_bot in Hw.
    assert (Hd : forall srv0, sessions (fst (stop_bot_delete botId srv0))
                              = sessions srv0
                              /\ agents (fst (stop_bot_delete botId srv0))
                                 = agents srv0) by done.
    destruct (sessions srv !! botId) as [session|] eqn:Hb.
    2:{ destruct (Hd srv) as [H1 H2]. rewrite Hw in H1, H2. cbn [fst] in *.
        by rewrite H1, H2. }
    destruct (agents srv !! Session.aiAgent session) as [m|] eqn:Hm.
    2:{ destruct (Hd srv) as [H1 H2]. rewrite Hw in H1, H2. cbn [fst] in *.
        by rewrite H1, H2. }
    destruct (invoke cfg now call_flushBuffer m) as [m' o0].
    match type of Hw with
    | resume_stops ?r ?o1 ?s1 = _ =>
        destruct (resume_stops_tables r o1 s1) as (H1 & H2 & _)
    end.
    rewrite Hw in H1, H2. cbn [fst sessions agents set_stopping set_agents] in *.
    rewrite H1, H2. split; [done|].
    rewrite lookup_insert_ne; [done|].
    intros Heq. apply Hn. by eapply Hinj.
  - destruct (agents srv !! ref) as [m|] eqn:Hm; [|done]. cbn in H.
    destruct (settle cfg now st m) as [[m' o0]|]; [|done]. cbn in H.
    match type of H with
    | Some (resume_stops ?r ?o1 ?s1) = _ =>
        destruct (resume_stops_tables r o1 s1) as (H1 & H2 & _)
    end.
    injection H as H. rewrite H in H1, H2.
    cbn [fst sessions agents set_agents] in *.
    rewrite H1, H2. split; [done|]. by rewrite lookup_insert_ne.
  - unfold stop_bot_deleted in H.
    destruct (deleting srv !! stop) as [botId|]; [|done]. cbn in H.
    destruct ok; injection H as <- <-; cbn [sessions agents set_sessions];
      [|done].
    split; [|done]. rewrite lookup_delete_ne; [done|]. congruence.
Qed.

Lemma serve_agents_unshared cfg now r srv srv' o :
  serve cfg now r srv = Some (srv', o) ->
  agents_unshared srv -> agents_unshared srv'.
Proof.
  intros H [Hlt Hinj].
  assert (Hsame : sessions srv' = sessions srv -> nextAgent srv' = nextAgent srv ->
                  agents_unshared srv').
  { intros Hs Hn. split; rewrite Hs, ?Hn; done. }
  destruct r as [id url phones|req|botId|ref st|stop ok]; cbn [serve] in *.
  - injection H as <- <-. split; cbn [sessions nextAgent].
    + intros k s Hk. destruct (decide (id = k)) as [->|Hne].
      * rewrite lookup_insert_eq in Hk. injection Hk as <-. simpl. lia.
      * rewrite lookup_insert_ne in Hk by done. specialize (Hlt _ _ Hk). lia.
    + intros k1 k2 s1 s2 H1 H2 He.
      destruct (decide (id = k1)) as [E1|Hn1];
        destruct (decide (id = k2)) as [E2|Hn2].
      * congruence.
      * subst k1. rewrite lookup_insert_eq in H1. injection H1 as <-.
        rewrite lookup_insert_ne in H2 by done. specialize (Hlt _ _ H2).
        simpl in He. lia.
      * subst k2. rewrite lookup_insert_eq in H2. injection H2 as <-.
        rewrite lookup_insert_ne in H1 by done. specialize (Hlt _ _ H1).
        simpl in He. lia.
      * rewrite lookup_insert_ne in H1, H2 by done. by eapply Hinj.
  - assert (Hw : webhook cfg now req srv = (srv', o)) by congruence.
    pose proof (webhook_effect cfg now req srv) as (_ & Hn & _ & _ & _ & Hs & _).
    cbn zeta in *. rewrite Hw in Hs, Hn. cbn [fst] in *.
    destruct Hs as [Hs|(key & session & msg & _ & Hk & Hs)]; [by apply Hsame|].
    assert (Hl : forall k s, sessions srv' !! k = Some s ->
                   exists s0, sessions srv !! k = Some s0
                              /\ Session.aiAgent s0 = Session.aiAgent s).
    { intros k s. rewrite Hs. destruct (decide (key = k)) as [->|Hne].
      - rewrite lookup_insert_eq. intros [= <-]. by exists session.
      - rewrite lookup_insert_ne by done. intros Hx. by exists s. }
    split.
    + intros k s Hx. destruct (Hl _ _ Hx) as (s0 & H0 & <-). rewrite Hn. eauto.
    + intros k1 k2 s1 s2 H1 H2 He.
      destruct (Hl _ _ H1) as (t1 & Ht1 & E1).
      destruct (Hl _ _ H2) as (t2 & Ht2 & E2).
      eapply Hinj; [exact Ht1|exact Ht2|congruence].
  - assert (Hw : stop_bot cfg now botId srv = (srv', o)) by congruence.
    unfold stop_bot in Hw.
    destruct (sessions srv !! botId) as [session|];
      [|injection Hw as <- <-; by apply Hsame].
    destruct (agents srv !! Session.aiAgent session) as [m|];
      [|injection Hw as <- <-; by apply Hsame].
    destruct (invoke cfg now call_flushBuffer m) as [m' o0].
    match type of Hw with
    | resume_stops ?r ?o1 ?s1 = _ =>
        destruct (resume_stops_tables r o1 s1) as (H1 & _ & H3)
    end.
    rewrite Hw in H1, H3. by apply Hsame.
  - destruct (agents srv !! ref) as [m|] eqn:Hm; [|done]. cbn in H.
    destruct (settle cfg now st m) as [[m' o0]|]; [|done]. cbn in H.
    match type of H with
    | Some (resume_stops ?r ?o1 ?s1) = _ =>
        destruct (resume_stops_tables r o1 s1) as (H1 & _ & H3)
    end.
    injection H as H. rewrite H in H1, H3. by apply Hsame.
  - unfold stop_bot_deleted in H.
    destruct (deleting srv !! stop) as [botId|]; [|done]. cbn in H.
    destruct ok; injection H as <- <-; [|by apply Hsame].
    split; cbn [sessions nextAgent set_sessions].
    + intros k s Hk. apply lookup_delete_Some in Hk as [_ Hk]. eauto.
    + intros k1 k2 s1 s2 H1 H2.
      apply lookup_delete_Some in H1 as [_ H1].
      apply lookup_delete_Some in H2 as [_ H2]. eauto.
Qed.

Lemma serve_all_agents_unshared cfg rs srv0 srv os :
  serve_all cfg rs srv0 = Some (srv, os) ->
  agents_unshared srv0 -> agents_unshared srv.
Proof.
  revert srv0 os. induction rs as [|[now r] rs IH]; intros srv0 os H Hw;
    simpl in H.
  - by injection H as <- <-.
  - destruct (serve cfg now r srv0) as [[srv1 o]|] eqn:Hs; [|done]. simpl in H.
    destruct (serve_all cfg rs srv1) as [[srv2 os2]|] eqn:Hr; [|done].
    simpl in H. injection H as <- <-.
    eapply IH; [exact Hr|]. by eapply serve_agents_unshared.
Qed.

(** X6. Sessions are independent.  In every state the server reaches, a
    request that does not concern a given session (it is for another bot, or
    it settles a call of another session's agent) leaves that session and
    its agent, with everything suspended on it, exactly as they were. *)
Theorem sessions_are_independent cfg rs srv os now r srv' o k s :
  serve_all cfg rs empty_server = Some (srv, os) ->
  serve cfg now r srv = Some (srv', o) ->
  sessions srv !! k = Some s ->
  ~ concerns r srv k s ->
  sessions srv' !! k = Some s
  /\ agents srv' !! Session.aiAgent s = agents srv !! Session.aiAgent s.
Proof.
  intros Hrs Hr Hk Hn.
  eapply serve_tables; [exact Hr| |exact Hk|exact Hn].
  eapply serve_all_agents_unshared; [exact Hrs|].
  split; [intros k0 s0|intros k1 k2 s1 s2]; cbn; by rewrite lookup_empty.
Qed.

(** ** Stopping a bot *)

Lemma resume_stops_deletes ref o srv b :
  (forall c, In (Call c) o -> kind_of c <> k_delete) ->
  In (Call (recall_delete_bot b)) (snd (resume_stops ref o srv))
  <-> exists f, In (Resolved_flushBuffer f) o
                /\ stopping srv !! (ref, f) = Some b.
Proof.
  intros Hno. rewrite resume_stops_fold.
  assert (Hgen : forall l st,
            In (Call (recall_delete_bot b)) (snd (foldl (resume_stop ref) st l))
            <-> In (Call (recall_delete_bot b)) (snd st)
                \/ exists f, In (Resolved_flushBuffer f) l
                             /\ stopping (fst st) !! (ref, f) = Some b).
  { induction l as [|x l IH]; intros st.
    - simpl. split; [auto|]. intros [H|(f & [] & _)]. done.
    - cbn [foldl]. rewrite IH. destruct x as [c|ln|r|f]; cbn [resume_stop].
      + simpl. split; (intros [H|(f & H1 & H2)]; [by left|right]).
        * exists f. auto.
        * destruct H1 as [H1|H1]; [done|]. by exists f.
      + simpl. split; (intros [H|(f & H1 & H2)]; [by left|right]).
        * exists f. auto.
        * destruct H1 as [H1|H1]; [done|]. by exists f.
      + simpl. split; (intros [H|(f & H1 & H2)]; [by left|right]).
        * exists f. auto.
        * destruct H1 as [H1|H1]; [done|]. by exists f.
      + destruct (stopping (fst st) !! (ref, f)) as [botId|] eqn:Hf.
        * cbn [stop_bot_delete fst snd stopping set_stopping].
          rewrite in_app_iff. simpl. split.
          -- intros [[H|[H|[]]]|(f' & H1 & H2)].
             ++ by left.
             ++ injection H as ->. right. exists f. auto.
             ++ right. exists f'. split; [auto|].
                apply lookup_delete_Some in H2 as [_ H2]. done.
          -- intros [H|(f' & [H1|H1] & H2)].
             ++ left. by left.
             ++ injection H1 as ->. left. right. left.
                rewrite Hf in H2. by injection H2 as ->.
             ++ destruct (decide (f' = f)) as [->|Hne].
                ** left. right. left. rewrite Hf in H2. by injection H2 as ->.
                ** right. exists f'. split; [done|].
                   rewrite lookup_delete_ne; [done|]. congruence.
        * simpl. split; (intros [H|(f' & H1 & H2)]; [by left|right]).
          -- exists f'. auto.
          -- destruct H1 as [H1|H1]; [|by exists f'].
             injection H1 as ->. congruence. }
  rewrite Hgen. cbn [fst snd]. split; [|auto].
  intros [H|H]; [|done]. by apply Hno in H.
Qed.

Lemma resume_stops_resolved ref o srv f :
  In (Resolved_flushBuffer f) (snd (resume_stops ref o srv))
  <-> In (Resolved_flushBuffer f) o.
Proof.
  rewrite resume_stops_fold.
  assert (Hg : forall l st,
            In (Resolved_flushBuffer f) (snd (foldl (resume_stop ref) st l))
            <-> In (Resolved_flushBuffer f) (snd st)).
  { induction l as [|x l IH]; intros st; [done|].
    cbn [foldl]. rewrite IH. destruct x as [c|ln|r|f0]; try done.
    cbn [resume_stop]. destruct (stopping (fst st) !! (ref, f0)); [|done].
    cbn [snd]. rewrite in_app_iff. simpl. intuition discriminate. }
  apply (Hg o (srv, o)).
Qed.

Lemma all_kind_not_delete ks o :
  all_kind ks o -> ~ In k_delete ks ->
  forall c, In (Call c) o -> kind_of c <> k_delete.
Proof.
  unfold all_kind. intros Hk Hn c Hc He. apply Hn. rewrite <- He.
  rewrite Forall_forall in Hk. apply Hk. unfold calls.
  apply list_elem_of_omap. exists (Call c). split; [|done].
  by apply list_elem_of_In.
Qed.

(** X7. The bot is deleted only after the final flush.  A stop request for
    a session with buffered lines starts the final analysis and does not yet
    ask for the bot to be deleted: the handler waits for the flush.  And
    whenever a call of an agent settles, the DELETE of a bot is issued in
    that step exactly when a flush that a stop handler of this bot is
    waiting for is reported resolved in it. *)
Theorem bot_deleted_only_after_flush cfg now srv :
  (forall botId session m,
     sessions srv !! botId = Some session ->
     agents srv !! Session.aiAgent session = Some m ->
     AIAgent.transcriptBuffer (agent m) <> [] ->
     calls (snd (stop_bot cfg now botId srv))
     = [chat_sendMessage (S (AIAgent.batchCount (agent m)))
          (String.concat newline (AIAgent.transcriptBuffer (agent m)))]
     /\ stopping (fst (stop_bot cfg now botId srv))
          !! (Session.aiAgent session, nextFlush m) = Some botId
     /\ deleting (fst (stop_bot cfg now botId srv)) = deleting srv)
  /\ (forall ref s srv' o b,
        serve cfg now (agent_settles ref s) srv = Some (srv', o) ->
        In (Call (recall_delete_bot b)) o
        <-> exists f, In (Resolved_flushBuffer f) o
                      /\ stopping srv !! (ref, f) = Some b).
Proof.
  split.
  - intros botId session m Hs Hm Hbuf. unfold stop_bot. rewrite Hs, Hm.
    rewrite invoke_flush_nonempty by done.
    cbn [resume_stops foldl fst snd stopping set_stopping deleting set_agents].
    rewrite lookup_insert_eq. done.
  - intros ref s srv' o b H. cbn [serve] in H.
    destruct (agents srv !! ref) as [m|] eqn:Hm; [|done]. cbn in H.
    destruct (settle cfg now s m) as [[m' o0]|] eqn:Hst; [|done]. cbn in H.
    injection H as H.
    assert (Hres : forall f, In (Resolved_flushBuffer f) o
                             <-> In (Resolved_flushBuffer f) o0).
    { intros f.
      match type of H with
      | resume_stops ?r ?o1 ?s1 = _ =>
          pose proof (resume_stops_resolved r o1 s1 f) as Hr
      end.
      by rewrite H in Hr. }
    match type of H with
    | resume_stops ?r ?o1 ?s1 = _ =>
        pose proof (resume_stops_deletes r o1 s1 b
                      (all_kind_not_delete _ _ (settle_kind _ _ _ _ _ _ Hst)
                         ltac:(simpl; intuition discriminate))) as Hd
    end.
    rewrite H in Hd. cbn [snd stopping set_agents] in Hd. rewrite Hd.
    split; intros (f & Hf & Hx); exists f; (split; [by apply Hres|done]).
Qed.

(** X8. Stopping a bot the server does not know.  The route asks the
    service to delete the bot all the same; when that succeeds it reports
    success, and the tables are as they were before the request. *)
Theorem stop_of_unknown_bot cfg now botId srv :
  sessions srv !! botId = None ->
  exists srv1,
    stop_bot cfg now botId srv = (srv1, [Call (recall_delete_bot botId)])
    /\ exists srv2,
         stop_bot_deleted (nextStop srv) true srv1
         = Some (srv2, [Log (log_bot_stopped botId); Respond res_success])
         /\ sessions srv2 = sessions srv /\ agents srv2 = agents srv
         /\ stopping srv2 = stopping srv
         /\ deleting srv2 = delete (nextStop srv) (deleting srv).
Proof.
  intros Hn. unfold stop_bot. rewrite Hn. eexists. split; [reflexivity|].
  unfold stop_bot_deleted, stop_bot_delete. cbn [deleting].
  rewrite lookup_insert_eq. cbn. eexists. split; [reflexivity|].
  cbn [sessions agents stopping deleting set_sessions].
  rewrite delete_insert_eq. repeat split; try done.
  by apply delete_id.
Qed.

Lemma webhook_answers_once_and_first_witness :
  webhook cfg_all 5
    {| Webhook.secret := "guess"; Webhook.event := "transcript.data";
       Webhook.body_data := None |} (server_after cfg_all two_bots)
  = (server_after cfg_all two_bots, [Respond res_401_Unauthorized]).
Proof.
  refine (proj2 (proj2 (proj2 (webhook_answers_once_and_first cfg_all 5
                                 {| Webhook.secret := "guess";
                                    Webhook.event := "transcript.data";
                                    Webhook.body_data := None |}
                                 (server_after cfg_all two_bots)))) _).
  discriminate.
Defined.

Lemma webhook_drops_other_events_witness :
  fst (webhook cfg_all 5
         (transcript_request "bot-9" "Ann" (JNum 7) true ["Hello"])
         (server_after cfg_all two_bots))
  = server_after cfg_all two_bots.
Proof.
  refine (proj1 (webhook_drops_other_events cfg_all 5
                   (transcript_request "bot-9" "Ann" (JNum 7) true ["Hello"])
                   (server_after cfg_all two_bots) _)).
  intros (_ & data & key & session & Hd & Hb & Hk & _).
  injection Hd as <-. injection Hb as <-. vm_compute in Hk. discriminate.
Defined.

Lemma sessions_are_independent_witness :
  agents (serve_state cfg_all 3
            (post_webhook
               (transcript_request "bot-1" "Bob" (JNum 8) false ["Hi"]))
            (server_after cfg_all two_bots)) !! 1
  = agents (server_after cfg_all two_bots) !! 1.
Proof.
  refine (proj2 (sessions_are_independent cfg_all two_bots
                   (server_after cfg_all two_bots)
                   (from_option snd [] (serve_all cfg_all two_bots empty_server))
                   3
                   (post_webhook
                      (transcript_request "bot-1" "Bob" (JNum 8) false ["Hi"]))
                   (serve_state cfg_all 3
                      (post_webhook
                         (transcript_request "bot-1" "Bob" (JNum 8) false ["Hi"]))
                      (server_after cfg_all two_bots))
                   (serve_outputs cfg_all 3
                      (post_webhook
                         (transcript_request "bot-1" "Bob" (JNum 8) false ["Hi"]))
                      (server_after cfg_all two_bots))
                   "bot-2"
                   {| Session.botId := "bot-2";
                      Session.meetingUrl := "https://meet.google.com/abc";
                      Session.phoneNumbers := []; Session.transcripts := [];
                      Session.aiAgent := 1 |} _ _ _ _)).
  - vm_compute; reflexivity.
  - vm_compute; reflexivity.
  - vm_compute; reflexivity.
  - vm_compute. discriminate.
Defined.

Lemma stop_of_unknown_bot_witness :
  exists srv1,
    stop_bot cfg_all 5 "bot-9" (server_after cfg_all two_bots)
    = (srv1, [Call (recall_delete_bot "bot-9")])
    /\ exists srv2,
         stop_bot_deleted (nextStop (server_after cfg_all two_bots)) true srv1
         = Some (srv2, [Log (log_bot_stopped "bot-9"); Respond res_success])
         /\ sessions srv2 = sessions (server_after cfg_all two_bots)
         /\ agents srv2 = agents (server_after cfg_all two_bots)
         /\ stopping srv2 = stopping (server_after cfg_all two_bots)
         /\ deleting srv2
            = delete (nextStop (server_after cfg_all two_bots))
                (deleting (server_after cfg_all two_bots)).
Proof.
  refine (stop_of_unknown_bot cfg_all 5 "bot-9" (server_after cfg_all two_bots) _).
  vm_compute; reflexivity.
Defined.

Lemma bot_deleted_only_after_flush_witness :
  calls (snd (stop_bot cfg_all 2 "bot-1" (server_after cfg_all one_line_heard)))
  = [chat_sendMessage
       (S (AIAgent.batchCount
             (agent (agent_at 0 (server_after cfg_all one_line_heard)))))
       (String.concat newline
          (AIAgent.transcriptBuffer
             (agent (agent_at 0 (server_after cfg_all one_line_heard)))))].
Proof.
  refine (proj1 (proj1 (bot_deleted_only_after_flush cfg_all 2
                          (server_after cfg_all one_line_heard))
                   "bot-1"
                   {| Session.botId := "bot-1";
                      Session.meetingUrl := "https://zoom.us/j/1";
                      Session.phoneNumbers := ["+15550001"];
                      Session.transcripts :=
                        [{| Session.speaker := "Bob";
                            Session.words := "Hello there";
                            Session.timestamp := 1;
                            Session.isHost := false |}];
                      Session.aiAgent := 0 |}
                   (agent_at 0 (server_after cfg_all one_line_heard)) _ _ _)).
  - vm_compute; reflexivity.
  - vm_compute; reflexivity.
  - vm_compute; discriminate.
Defined.

(** ** Splitting and trimming *)

Lemma str_split_nonempty sep s : str_split sep s <> [].
Proof.
  destruct s as [|c s]; [done|]. simpl.
  destruct (Ascii.eqb c sep); [done|]. by destruct (str_split sep s).
Qed.

Lemma str_includes_char c s :
  str_includes (String c "") s = false <->
  Forall (fun d => d <> c) (list_ascii_of_string s).
Proof.
  induction s as [|d s IH]; simpl.
  - split; [constructor|done].
  - rewrite orb_false_iff, IH.
    assert (Hp : String.prefix "" s = true) by (by destruct s).
    rewrite Hp.
    destruct (Ascii.ascii_dec c d) as [->|Hne].
    + split; [intros [? _]; done|]. intros H. inversion H; subst. done.
    + split.
      * intros [_ H]. constructor; [congruence|done].
      * intros H. inversion H; subst. done.
Qed.

Lemma str_split_concat sep s :
  String.concat (String sep "") (str_split sep s) = s.
Proof.
  induction s as [|c s IH]; [done|]. cbn [str_split].
  destruct (Ascii.eqb_spec c sep) as [->|Hne].
  - pose proof (str_split_nonempty sep s) as Hn.
    destruct (str_split sep s) as [|p ps] eqn:Hs; [done|].
    cbn [String.concat] in *. simpl. by rewrite IH.
  - destruct (str_split sep s) as [|p ps] eqn:Hs.
    + by destruct (str_split_nonempty sep s).
    + destruct ps as [|q qs]; simpl in *; by rewrite <- IH.
Qed.

Lemma str_split_pieces sep s piece :
  In piece (str_split sep s) -> str_includes (String sep "") piece = false.
Proof.
  revert piece. induction s as [|c s IH]; intros piece; cbn [str_split].
  - intros [<-|[]]. done.
  - destruct (Ascii.eqb_spec c sep) as [->|Hne].
    + intros [<-|H]; [done|]. by apply IH.
    + destruct (str_split sep s) as [|p ps] eqn:Hs.
      * by destruct (str_split_nonempty sep s).
      * intros [<-|H]; [|apply IH; by right].
        apply str_includes_char. simpl. constructor; [done|].
        apply str_includes_char, IH. by left.
Qed.

Lemma str_split_cons sep c s :
  c <> sep ->
  str_split sep (String c s)
  = match str_split sep s with
    | piece :: pieces => String c piece :: pieces
    | [] => []
    end.
Proof.
  intros Hne. cbn [str_split].
  destruct (Ascii.eqb_spec c sep); [done|].
  destruct (str_split sep s) eqn:Hs; [|done].
  by destruct (str_split_nonempty sep s).
Qed.

Lemma str_split_app sep a rest :
  str_includes (String sep "") a = false ->
  str_split sep (a +:+ String sep rest) = a :: str_split sep rest.
Proof.
  rewrite str_includes_char. induction a as [|c a IH]; intros H.
  - simpl. by rewrite Ascii.eqb_refl.
  - simpl in H. inversion H as [|? ? Hc Ha]; subst.
    change (String c a +:+ String sep rest) with (String c (a +:+ String sep rest)).
    rewrite str_split_cons by done. by rewrite IH.
Qed.

Lemma str_split_single sep a :
  str_includes (String sep "") a = false -> str_split sep a = [a].
Proof.
  rewrite str_includes_char. induction a as [|c a IH]; intros H; [done|].
  simpl in H. inversion H as [|? ? Hc Ha]; subst.
  rewrite str_split_cons by done. by rewrite IH.
Qed.

Lemma str_trimEnd_empty s : str_trimEnd s = "" \/ ends_with_space (str_trimEnd s) = false.
Proof.
  induction s as [|c s IH]; [by left|]. cbn [str_trimEnd].
  destruct (str_trimEnd s) as [|d t] eqn:Ht.
  - destruct (is_space c) eqn:Hc; [by left|right].
    unfold ends_with_space. simpl. by rewrite Hc.
  - right. destruct IH as [?|IH]; [done|].
    unfold ends_with_space in *. cbn [String.length] in *.
    replace (S (S (String.length t)) - 1) with (S (String.length t)) by lia.
    replace (S (String.length t) - 1) with (String.length t) in IH by lia.
    done.
Qed.

Lemma str_trimEnd_length s : String.length (str_trimEnd s) <= String.length s.
Proof.
  induction s as [|c s IH]; [done|]. cbn [str_trimEnd].
  destruct (str_trimEnd s) as [|d t].
  - destruct (is_space c); simpl; lia.
  - simpl in *. lia.
Qed.

Lemma str_trimStart_length s :
  String.length (str_trimStart s) <= String.length s.
Proof.
  induction s as [|c s IH]; [done|]. cbn [str_trimStart].
  destruct (is_space c); simpl in *; lia.
Qed.

Lemma str_trimStart_id s :
  starts_with_space s = false -> str_trimStart s = s.
Proof. destruct s as [|c s]; [done|]. simpl. by intros ->. Qed.

Lemma str_trimStart_starts s : starts_with_space (str_trimStart s) = false.
Proof.
  induction s as [|c s IH]; [done|]. cbn [str_trimStart].
  destruct (is_space c) eqn:Hc; [done|]. simpl. done.
Qed.

Lemma str_trimEnd_starts s :
  starts_with_space s = false -> starts_with_space (str_trimEnd s) = false.
Proof.
  destruct s as [|c s]; [done|]. cbn [str_trimEnd starts_with_space].
  intros Hc. destruct (str_trimEnd s); [by rewrite Hc|done].
Qed.

Lemma str_trimEnd_id s :
  String.length (str_trimEnd s) = String.length s -> str_trimEnd s = s.
Proof.
  induction s as [|c s IH]; [done|]. cbn [str_trimEnd].
  pose proof (str_trimEnd_length s) as Hl.
  destruct (str_trimEnd s) as [|d t] eqn:Ht.
  - destruct (is_space c); simpl; intros H; [done|].
    destruct s; [done|]. simpl in H. done.
  - simpl. intros H. rewrite IH; [done|]. simpl in *. lia.
Qed.

Lemma str_trimEnd_cons c s :
  str_trimEnd s <> "" -> str_trimEnd (String c s) = String c (str_trimEnd s).
Proof. cbn [str_trimEnd]. by destruct (str_trimEnd s). Qed.

Lemma str_trimEnd_idem s : str_trimEnd (str_trimEnd s) = str_trimEnd s.
Proof.
  induction s as [|c s IH]; [done|]. cbn [str_trimEnd].
  destruct (str_trimEnd s) as [|d t] eqn:Ht.
  - destruct (is_space c) eqn:Hc; [done|]. simpl. by rewrite Hc.
  - rewrite str_trimEnd_cons; rewrite IH; done.
Qed.

(** A trimmed string has no white space at either end, and trimming it
    again changes nothing. *)
Lemma str_trim_spec s :
  starts_with_space (str_trim s) = false
  /\ ends_with_space (str_trim s) = false
  /\ str_trim (str_trim s) = str_trim s.
Proof.
  unfold str_trim.
  assert (H1 : starts_with_space (str_trimEnd (str_trimStart s)) = false)
    by apply str_trimEnd_starts, str_trimStart_starts.
  split; [done|]. split.
  - destruct (str_trimEnd_empty (str_trimStart s)) as [->|H]; done.
  - rewrite (str_trimStart_id _ H1). apply str_trimEnd_idem.
Qed.

Lemma str_trim_id s :
  str_trim s = s <-> starts_with_space s = false /\ ends_with_space s = false.
Proof.
  split.
  - intros <-. pose proof (str_trim_spec s). tauto.
  - intros [H1 H2]. unfold str_trim. rewrite (str_trimStart_id _ H1).
    clear H1. unfold ends_with_space in H2.
    induction s as [|c s IH]; [done|]. cbn [str_trimEnd].
    destruct s as [|d s].
    + simpl in *. by rewrite H2.
    + rewrite IH.
      * done.
      * cbn [String.length] in *.
        replace (S (S (String.length s)) - 1) with (S (String.length s))
          in H2 by lia.
        replace (S (String.length s) - 1) with (String.length s) by lia.
        done.
Qed.

Lemma str_trim_space c s : is_space c = true -> str_trim (String c s) = str_trim s.
Proof. intros Hc. unfold str_trim. simpl. by rewrite Hc. Qed.

(** ** Phone numbers *)

Lemma phoneNumbersArray_string s :
  phoneNumbersArray (phones_string s)
  = List.filter (fun num => negb (String.eqb num ""))
      (map str_trim (str_split comma s)).
Proof.
  unfold phoneNumbersArray. destruct (String.eqb_spec s "") as [->|]; done.
Qed.

(** X9. Phone numbers given as one string.  The numbers the route keeps
    are exactly the pieces between the commas, trimmed, that are not empty;
    so each of them is non-empty, contains no comma and has no white space
    at either end, and joining the pieces with commas gives the string
    back. *)
Theorem parsed_phone_numbers_are_clean s :
  (forall num,
     In num (phoneNumbersArray (phones_string s))
     <-> num <> "" /\ exists piece, In piece (str_split comma s)
                                    /\ num = str_trim piece)
  /\ (forall num, In num (phoneNumbersArray (phones_string s)) -> clean num)
  /\ String.concat "," (str_split comma s) = s.
Proof.
  assert (H : forall num,
            In num (phoneNumbersArray (phones_string s))
            <-> num <> "" /\ exists piece, In piece (str_split comma s)
                                           /\ num = str_trim piece).
  { intros num. rewrite phoneNumbersArray_string, filter_In, in_map_iff.
    rewrite negb_true_iff, String.eqb_neq. split.
    - intros [(piece & <- & Hp) Hne]. split; [done|]. by exists piece.
    - intros [Hne (piece & Hp & ->)]. split; [|done]. by exists piece. }
  split; [exact H|]. split; [|apply str_split_concat].
  intros num Hn. apply H in Hn as [Hne (piece & Hp & ->)].
  split; [done|]. split; [|apply str_trim_spec].
  apply str_includes_char. apply str_split_pieces in Hp.
  apply str_includes_char in Hp. revert Hp. unfold str_trim.
  generalize piece. clear. intros s Hs.
  assert (H1 : Forall (fun d => d <> comma)
                 (list_ascii_of_string (str_trimStart s))).
  { induction s as [|c s IH]; [done|]. simpl in *.
    inversion Hs; subst. destruct (is_space c); [by apply IH|].
    simpl. by constructor. }
  revert H1. generalize (str_trimStart s). clear. intros s Hs.
  induction s as [|c s IH]; [done|]. simpl in *. inversion Hs; subst.
  destruct (str_trimEnd s) as [|d t].
  - destruct (is_space c); [done|]. simpl. by constructor.
  - simpl. constructor; [done|]. by apply IH.
Qed.

Lemma concat_comma_space x y l :
  String.concat ", " (x :: y :: l)
  = x +:+ String comma (String space (String.concat ", " (y :: l))).
Proof. done. Qed.

(** X10. The numbers survive the round trip through the log line.  The
    route prints the numbers it kept joined by a comma and a space; parsing
    that line as a [phone_numbers] string gives the same numbers again,
    for every list of numbers that are clean. *)
Theorem phone_numbers_round_trip l :
  Forall clean l ->
  phoneNumbersArray (phones_string (String.concat ", " l)) = l.
Proof.
  intros Hl. rewrite phoneNumbersArray_string.
  induction Hl as [|x l (Hne & Hc & Ht) Hl IH]; [done|].
  destruct l as [|y l].
  - cbn [String.concat]. rewrite str_split_single by done.
    cbn [map List.filter]. rewrite Ht.
    destruct (String.eqb_spec x ""); done.
  - rewrite concat_comma_space, str_split_app by done.
    rewrite str_split_cons by done.
    pose proof (str_split_nonempty comma (String.concat ", " (y :: l))) as Hn.
    destruct (str_split comma (String.concat ", " (y :: l))) as [|p ps]; [done|].
    cbn [map List.filter] in *. rewrite Ht, str_trim_space by done.
    destruct (String.eqb_spec x ""); [done|]. cbn [negb]. by rewrite IH.
Qed.

(** ** Starting a bot *)

(** X11. A started session is fresh and its own.  When the bot service
    has created the bot, the session is stored under the bot's id with the
    URL and the numbers of the request and no transcripts, together with a
    newly constructed agent: empty buffer, no batch analysed, no host.  In
    every state the server reaches, the sessions of the other bots and
    their agents are left as they were.  A refusal or a failure of the bot
    service stores nothing. *)
Theorem started_session_is_fresh cfg rs srv os now url phones r :
  serve_all cfg rs empty_server = Some (srv, os) ->
  let srv' := fst (start_bot_settled cfg now url phones r srv) in
  match r with
  | created id =>
      snd (start_bot_settled cfg now url phones r srv)
      = res_bot_started id phones
      /\ sessions srv' !! id
         = Some {| Session.botId := id; Session.meetingUrl := url;
                   Session.phoneNumbers := phones; Session.transcripts := [];
                   Session.aiAgent := nextAgent srv |}
      /\ agents srv' !! nextAgent srv
         = Some (new_machine (AIAgent.constructor cfg now id url phones))
      /\ (forall k s, sessions srv !! k = Some s ->
                      Session.aiAgent s <> nextAgent srv)
      /\ (forall k s, sessions srv !! k = Some s -> k <> id ->
                      sessions srv' !! k = Some s
                      /\ agents srv' !! Session.aiAgent s
                         = agents srv !! Session.aiAgent s)
  | _ => start_bot_settled cfg now url phones r srv = (srv, res_500_error)
  end.
Proof.
  intros Hrs. cbn zeta. destruct r as [id| |]; [|done..].
  assert (Hw : agents_unshared srv).
  { eapply serve_all_agents_unshared; [exact Hrs|].
    split; [intros k0 s0|intros k1 k2 s1 s2]; cbn; by rewrite lookup_empty. }
  cbn [start_bot_settled start_bot_created fst snd sessions agents].
  rewrite !lookup_insert_eq. repeat split; try reflexivity.
  - intros k s Hk. destruct Hw as [Hlt _]. specialize (Hlt _ _ Hk). lia.
  - by rewrite lookup_insert_ne.
  - rewrite lookup_insert_ne; [done|].
    destruct Hw as [Hlt _]. specialize (Hlt _ _ H). lia.
Qed.

(** ** The history route *)

(** X12. The history route answers with the last ten entries of the
    agent's history, oldest first, or with all of them when there are
    fewer; for a bot that is not in the table it answers 404, and so it
    does once the stop of the bot has completed. *)
Theorem ai_history_last_ten botId srv :
  (forall session m,
     sessions srv !! botId = Some session ->
     agents srv !! Session.aiAgent session = Some m ->
     exists h older,
       ai_history botId srv = res_history botId h
       /\ AIAgent.conversationHistory (agent m) = older ++ h
       /\ length h = Nat.min 10 (length (AIAgent.conversationHistory (agent m))))
  /\ (sessions srv !! botId = None ->
      ai_history botId srv = res_404_session_not_found)
  /\ (forall stop srv1 o,
        deleting srv !! stop = Some botId ->
        stop_bot_deleted stop true srv = Some (srv1, o) ->
        ai_history botId srv1 = res_404_session_not_found).
Proof.
  split; [|split].
  - intros session m Hs Hm. unfold ai_history. rewrite Hs, Hm.
    unfold AIAgent.getConversationSummary.
    set (h := AIAgent.conversationHistory (agent m)).
    exists (drop (length h - 10) h), (take (length h - 10) h).
    split; [done|]. split; [by rewrite take_drop|].
    rewrite length_drop. lia.
  - intros Hn. unfold ai_history. by rewrite Hn.
  - intros stop srv1 o Hd Hstop.
    destruct (stop_bot_deleted_sessions _ _ _ _ _ Hd Hstop) as (Hsess & _ & _).
    unfold ai_history. rewrite Hsess, lookup_delete_eq. done.
Qed.

Lemma parsed_phone_numbers_are_clean_witness :
  clean "+15550001".
Proof.
  refine (proj1 (proj2 (parsed_phone_numbers_are_clean
                          " +15550001 ,, +15550002,")) "+15550001" _).
  vm_compute. auto.
Defined.

Lemma phone_numbers_round_trip_witness :
  phoneNumbersArray (phones_string "+15550001, +15550002")
  = ["+15550001"; "+15550002"].
Proof.
  refine (phone_numbers_round_trip ["+15550001"; "+15550002"] _).
  repeat constructor; vm_compute; congruence.
Defined.

Lemma started_session_is_fresh_witness :
  snd (start_bot_settled cfg_all 3 "https://zoom.us/j/2" ["+15550003"]
         (created "bot-3") (server_after cfg_all two_bots))
  = res_bot_started "bot-3" ["+15550003"].
Proof.
  refine (proj1 (started_session_is_fresh cfg_all two_bots
                   (server_after cfg_all two_bots)
                   (from_option snd [] (serve_all cfg_all two_bots empty_server))
                   3 "https://zoom.us/j/2" ["+15550003"] (created "bot-3") _)).
  vm_compute; reflexivity.
Defined.

Lemma ai_history_last_ten_witness :
  ai_history "bot-9" (server_after cfg_all two_bots) = res_404_session_not_found.
Proof.
  refine (proj1 (proj2 (ai_history_last_ten "bot-9"
                          (server_after cfg_all two_bots))) _).
  vm_compute; reflexivity.
Defined.

(** ** The event stream *)

Lemma written_app res o1 o2 :
  written res (o1 ++ o2) = written res o1 ++ written res o2.
Proof. unfold written. apply omap_app. Qed.

Lemma written_outs res (o : list output) : written res (map Out o) = [].
Proof. induction o as [|x o IH]; [done|]. exact IH. Qed.

Lemma existsb_In res l : existsb (Nat.eqb res) l = true <-> In res l.
Proof.
  rewrite existsb_exists. split.
  - intros (x & Hx & He). apply Nat.eqb_eq in He. by subst.
  - intros H. exists res. by rewrite Nat.eqb_refl.
Qed.

Lemma existsb_not_In res l : existsb (Nat.eqb res) l = false <-> ~ In res l.
Proof. rewrite <- existsb_In. by destruct (existsb _ _). Qed.

Lemma written_broadcast res message st :
  NoDup (Stream.sseClients st) ->
  written res (writes (broadcast message st))
  = if existsb (Nat.eqb res) (Stream.sseClients st)
    then [chunk_data message] else [].
Proof.
  unfold broadcast, writes. rewrite map_map. cbn [fst snd].
  induction 1 as [|c l Hc Hl IH]; [done|].
  cbn [map written omap list_omap existsb]. fold (written res).
  fold (written res (map (fun x => Write x (chunk_data message)) l)).
  rewrite IH. rewrite (Nat.eqb_sym res c).
  destruct (Nat.eqb_spec c res) as [->|Hne]; [|done].
  cbn [orb]. rewrite (proj2 (existsb_not_In res l)); [done|].
  by rewrite <- list_elem_of_In.
Qed.

Lemma webhook_broadcast_length cfg now req srv :
  length (webhook_broadcast cfg now req srv) <= 1.
Proof.
  unfold webhook_broadcast.
  repeat match goal with
         | |- context [if ?x then _ else _] => destruct x
         | |- context [match ?x with _ => _ end] => destruct x
         end; simpl; lia.
Qed.

Lemma without_In res c l : In c (without res l) <-> In c l /\ c <> res.
Proof.
  unfold without. rewrite filter_In, negb_true_iff, Nat.eqb_neq. done.
Qed.

Lemma without_NoDup res l : NoDup l -> NoDup (without res l).
Proof.
  intros H. unfold without. induction H as [|c l Hc Hl IH]; [constructor|].
  simpl. destruct (negb _); [|done]. constructor; [|done].
  rewrite list_elem_of_In, filter_In. rewrite list_elem_of_In in Hc. tauto.
Qed.

Lemma stream_ok_empty : stream_ok Stream.empty.
Proof. split; [constructor|]. split; intros res []. Qed.

Lemma get_stream_ok st : stream_ok st -> stream_ok (fst (get_stream st)).
Proof.
  intros (Hn & Hs & Ho). unfold get_stream. cbn [fst]. split; [|split].
  - cbn. apply NoDup_app. split; [done|]. split; [|apply NoDup_singleton].
    intros res Hin Hx. apply list_elem_of_In in Hin.
    apply list_elem_of_In in Hx as [<-|[]].
    specialize (Ho _ (Hs _ Hin)). lia.
  - cbn. intros res. rewrite !in_app_iff. intros [H|H]; [left; auto|by right].
  - cbn. intros res. rewrite in_app_iff. intros [H|[<-|[]]]; [|lia].
    specialize (Ho _ H). lia.
Qed.

Lemma stream_close_ok res st st' :
  stream_close res st = Some st' -> stream_ok st -> stream_ok st'.
Proof.
  unfold stream_close. destruct (existsb _ _); [|done]. intros [= <-].
  intros (Hn & Hs & Ho). split; [|split]; cbn.
  - by apply without_NoDup.
  - intros c. rewrite !without_In. intros [H1 H2]. auto.
  - intros c. rewrite without_In. intros [H1 H2]. auto.
Qed.

Lemma clear_clients_ok st : stream_ok st -> stream_ok (clear_clients st).
Proof.
  intros (Hn & Hs & Ho). split; [constructor|]. split; [intros res []|done].
Qed.

Lemma clear_finish_finished h :
  finished h (fst (clear_finish h)) (snd (clear_finish h)).
Proof.
  unfold finished, clear_finish. cbn. repeat split; try done.
  - repeat constructor. by eexists.
  - right. repeat split; try done. by eexists.
Qed.

Lemma finished_set_clearing c h h' o :
  finished (set_clearing c h) h' o -> finished h h' o.
Proof. done. Qed.

Lemma finish_settled_finished h :
  finished h (fst (finish_settled h)) (snd (finish_settled h)).
Proof.
  unfold finish_settled.
  assert (Hg : forall l h1 o1,
            finished h h1 o1 ->
            finished h
              (fst (foldl (fun '(h, o) '(i, c) =>
                             if Clear.settled c then
                               let '(h', o') :=
                                 clear_finish
                                   (set_clearing (delete i (clearing h)) h) in
                               (h', o ++ o')
                             else (h, o)) (h1, o1) l))
              (snd (foldl (fun '(h, o) '(i, c) =>
                             if Clear.settled c then
                               let '(h', o') :=
                                 clear_finish
                                   (set_clearing (delete i (clearing h)) h) in
                               (h', o ++ o')
                             else (h, o)) (h1, o1) l))).
  { induction l as [|[i c] l IH]; intros h1 o1 H1; [done|].
    cbn [foldl]. destruct (Clear.settled c); [|by apply IH].
    apply IH. cbn [clear_finish].
    destruct H1 as (E1 & E2 & E3 & E4 & E5 & E6).
    unfold finished. cbn. repeat split; try done.
    - apply Forall_app. split; [done|]. repeat constructor. by eexists.
    - right. repeat split; try done.
      destruct E6 as [(-> & Es & Et)|(Es & Et & o' & ->)].
      + rewrite Es. by eexists.
      + by eexists. }
  apply Hg. unfold finished. repeat split; try done. by left.
Qed.

Lemma finished_stream_ok h h' o :
  finished h h' o -> stream_ok (stream h) -> stream_ok (stream h').
Proof.
  intros (E1 & E2 & _ & _ & _ & [(_ & _ & ->)|(_ & Es & _)]); [done|].
  intros (Hn & Hs & Ho). split; [|split].
  - rewrite Es. constructor.
  - rewrite Es. intros res [].
  - rewrite E1, E2. done.
Qed.

Lemma finished_written res h h' o : finished h h' o -> written res o = [].
Proof.
  intros (_ & _ & _ & _ & Hf & _). induction Hf as [|x o [n ->] _ IH]; done.
Qed.

Lemma clear_one_server cfg now st botId :
  sessions (fst (fst (clear_one cfg now st botId))) = sessions (fst (fst st)).
Proof.
  destruct st as [[srv c] o]. cbn [clear_one fst].
  destruct (sessions srv !! botId) as [session|]; [|done].
  destruct (agents srv !! Session.aiAgent session) as [m|]; [|done].
  by destruct (invoke cfg now call_flushBuffer m).
Qed.

Lemma clear_sessions_stream cfg now order h :
  let r := clear_sessions cfg now order h in
  stream (fst r) = stream h
  \/ (Stream.sseClients (stream (fst r)) = []
      /\ Stream.open (stream (fst r)) = Stream.open (stream h)
      /\ Stream.nextClient (stream (fst r)) = Stream.nextClient (stream h)).
Proof.
  cbn zeta. unfold clear_sessions.
  destruct (foldl _ _ _) as [[srv1 c] o].
  destruct (Clear.settled c); cbn; [by right|by left].
Qed.

Lemma written_writes_other res ws :
  Forall (fun w => fst w <> res) ws -> written res (writes ws) = [].
Proof.
  induction 1 as [|[r c] ws Hw _ IH]; [done|].
  cbn in *. destruct (Nat.eqb_spec r res); [done|]. exact IH.
Qed.

(** The stream of the hub after a step. *)
Lemma hub_step_stream cfg now e h h' o :
  hub_step cfg now e h = Some (h', o) ->
  stream_ok (stream h) ->
  stream_ok (stream h')
  /\ (forall res, In res (Stream.open (stream h')) ->
                  In res (Stream.open (stream h))
                  \/ (e = get_api_stream /\ res = Stream.nextClient (stream h)))
  /\ Stream.nextClient (stream h) <= Stream.nextClient (stream h').
Proof.
  intros H Hok. destruct e as [r| |res|res|order|clear botId ok]; cbn [hub_step] in H.
  - destruct (serve cfg now r (server_ h)) as [[srv' o0]|]; [|done]. cbn in H.
    destruct r; try (injection H as <- <-; cbn; auto).
    pose proof (finish_settled_finished
                  (set_clearing
                     (resolve_flushes ref o0
                        <$> clearing (set_server srv' h)) (set_server srv' h)))
      as Hf.
    destruct (finish_settled _) as [h2 o2]. injection H as <- <-.
    cbn [fst snd] in Hf.
    split; [by eapply finished_stream_ok; [exact Hf|]|].
    destruct Hf as (E1 & E2 & _). cbn in E1, E2. rewrite E1, E2. auto.
  - pose proof (get_stream_ok _ Hok) as Hg. unfold get_stream in *.
    injection H as <- <-. cbn in *. split; [done|]. split; [|lia].
    intros res. rewrite in_app_iff. intros [?|[<-|[]]]; auto.
  - destruct (stream_close res (stream h)) as [st|] eqn:Hc; [|done].
    injection H as <- <-. cbn. split; [by eapply stream_close_ok|].
    unfold stream_close in Hc. destruct (existsb _ _); [|done].
    injection Hc as <-. cbn. split; [|lia].
    intros c. rewrite without_In. tauto.
  - destruct (keepalive res (stream h)); [|done]. injection H as <- <-. auto.
  - injection H as H.
    pose proof (clear_sessions_stream cfg now order h) as Hs. cbn zeta in Hs.
    rewrite H in Hs. cbn [fst] in Hs.
    destruct Hs as [->|(E1 & E2 & E3)]; [auto|].
    destruct Hok as (Hn & Hs & Ho). split; [|rewrite E2, E3; auto].
    split; [rewrite E1; constructor|]. split; [rewrite E1; intros ? []|].
    by rewrite E2, E3.
  - destruct (clearing h !! clear) as [c|]; [|done]. cbn in H.
    destruct (existsb _ _); [|done].
    match type of H with
    | Some (finish_settled ?h0) = _ =>
        pose proof (finish_settled_finished h0) as Hf
    end.
    injection H as H. rewrite H in Hf. cbn [fst snd] in Hf.
    split; [by eapply finished_stream_ok; [exact Hf|]|].
    destruct Hf as (E1 & E2 & _). cbn in E1, E2. rewrite E1, E2. auto.
Qed.

Lemma hub_run_stream_ok cfg es h0 h os :
  hub_run cfg es h0 = Some (h, os) ->
  stream_ok (stream h0) -> stream_ok (stream h).
Proof.
  revert h0 os. induction es as [|[now e] es IH]; intros h0 os H Hok;
    simpl in H.
  - by injection H as <- <-.
  - destruct (hub_step cfg now e h0) as [[h1 o]|] eqn:Hs; [|done]. simpl in H.
    destruct (hub_run cfg es h1) as [[h2 os2]|] eqn:Hr; [|done].
    simpl in H. injection H as <- <-.
    eapply IH; [exact Hr|]. by eapply hub_step_stream.
Qed.

(** X13. Delivery on the event stream.  In every state the hub reaches:
    a webhook request writes each message it broadcasts exactly once on
    each response of the set and on no other; whatever the step, nothing is
    written on a response that is not open, but the greeting on the one a
    new connection creates; and a response that is closed is never opened
    again, so nothing is written on it any more. *)
Theorem stream_delivers_to_connected_clients cfg es h os now e h' o :
  hub_run cfg es empty_hub = Some (h, os) ->
  hub_step cfg now e h = Some (h', o) ->
  (forall req res,
     e = to_server (post_webhook req) ->
     written res o
     = if existsb (Nat.eqb res) (Stream.sseClients (stream h))
       then map chunk_data (webhook_broadcast cfg now req (server_ h))
       else [])
  /\ (forall res c,
        In c (written res o) ->
        In res (Stream.open (stream h))
        \/ (e = get_api_stream /\ res = Stream.nextClient (stream h)
            /\ c = chunk_data sse_connected))
  /\ (forall res,
        res < Stream.nextClient (stream h) ->
        ~ In res (Stream.open (stream h)) ->
        res < Stream.nextClient (stream h')
        /\ ~ In res (Stream.open (stream h'))).
Proof.
  intros Hrun Hstep.
  pose proof (hub_run_stream_ok _ _ _ _ _ Hrun stream_ok_empty) as Hok.
  pose proof (hub_step_stream _ _ _ _ _ _ Hstep Hok) as (Hok' & Hopen & Hnext).
  split; [|split].
  - intros req res ->. cbn [hub_step] in Hstep.
    destruct (serve cfg now _ (server_ h)) as [[srv' o0]|]; [|done].
    cbn in Hstep. injection Hstep as <- <-.
    assert (Hw : written res (webhook_outputs req o0
                   (flat_map (fun message => broadcast message (stream h))
                      (webhook_broadcast cfg now req (server_ h))))
                 = written res
                     (writes (flat_map (fun message => broadcast message (stream h))
                                (webhook_broadcast cfg now req (server_ h))))).
    { unfold webhook_outputs. destruct o0 as [|x rest]; [done|].
      destruct (String.eqb _ _).
      - change (Out x :: map Out rest ++ ?w) with (map Out (x :: rest) ++ w).
        by rewrite written_app, written_outs.
      - change (Out x :: ?w ++ map Out rest) with ([Out x] ++ w ++ map Out rest).
        rewrite !written_app, written_outs, app_nil_r. done. }
    rewrite Hw.
    pose proof (webhook_broadcast_length cfg now req (server_ h)) as Hl.
    destruct (webhook_broadcast cfg now req (server_ h)) as [|msg [|? ?]];
      [by destruct (existsb _ _)| |simpl in Hl; lia].
    cbn [flat_map]. rewrite app_nil_r. apply written_broadcast. apply Hok.
  - intros res c Hc.
    destruct e as [r| |res0|res0|order|clear botId ok]; cbn [hub_step] in Hstep.
    + destruct (serve cfg now r (server_ h)) as [[srv' o0]|]; [|done].
      cbn in Hstep. left.
      assert (Hplain : forall oo : list output, written res (map Out oo) = [])
        by apply written_outs.
      destruct r as [id url phones|req|botId|ref st|stop ok];
        try (injection Hstep as <- <-; by rewrite Hplain in Hc).
      * injection Hstep as <- <-.
        destruct (existsb (Nat.eqb res) (Stream.sseClients (stream h))) eqn:Hin;
          [apply existsb_In in Hin; by apply Hok|].
        apply existsb_not_In in Hin.
        exfalso. revert Hc. unfold webhook_outputs.
        assert (Hw : written res
                       (writes (flat_map
                                  (fun message => broadcast message (stream h))
                                  (webhook_broadcast cfg now req (server_ h))))
                     = []).
        { apply written_writes_other. apply Forall_forall. intros [r c0] Hx.
          apply list_elem_of_In, in_flat_map in Hx as (msg & _ & Hx).
          unfold broadcast in Hx. apply in_map_iff in Hx as (cl & [= <- <-] & Hcl).
          cbn. congruence. }
        destruct o0 as [|x rest]; [by rewrite Hw|].
        destruct (String.eqb _ _).
        -- change (Out x :: map Out rest ++ ?w) with (map Out (x :: rest) ++ w).
           by rewrite written_app, written_outs, Hw.
        -- change (Out x :: ?w ++ map Out rest)
             with ([Out x] ++ w ++ map Out rest).
           by rewrite !written_app, written_outs, Hw.
      * pose proof (finish_settled_finished
                      (set_clearing
                         (resolve_flushes ref o0
                            <$> clearing (set_server srv' h))
                         (set_server srv' h))) as Hf.
        destruct (finish_settled _) as [h2 o2]. injection Hstep as <- <-.
        rewrite written_app, Hplain, (finished_written _ _ _ _ Hf) in Hc. done.
    + unfold get_stream in Hstep. injection Hstep as <- <-. cbn in Hc.
      destruct (Nat.eqb_spec (Stream.nextClient (stream h)) res) as [<-|];
        [|done].
      destruct Hc as [<-|[]]. by right.
    + destruct (stream_close res0 (stream h)); [|done].
      by injection Hstep as <- <-.
    + unfold keepalive in Hstep.
      destruct (existsb _ _) eqn:Hex; [|done]. injection Hstep as <- <-.
      cbn in Hc. destruct (Nat.eqb_spec res0 res) as [<-|]; [|done].
      left. by apply existsb_In.
    + injection Hstep as Hstep. exfalso. revert Hc.
      unfold clear_sessions in Hstep.
      destruct (foldl _ _ _) as [[srv1 c0] o0].
      destruct (Clear.settled c0); cbn in Hstep; injection Hstep as <- <-.
      * by rewrite written_app, written_outs.
      * by rewrite written_outs.
    + destruct (clearing h !! clear) as [c0|]; [|done]. cbn in Hstep.
      destruct (existsb _ _); [|done].
      match type of Hstep with
      | Some (finish_settled ?h0) = _ =>
          pose proof (finish_settled_finished h0) as Hf
      end.
      injection Hstep as Hstep. rewrite Hstep in Hf. cbn [fst snd] in Hf.
      by rewrite (finished_written _ _ _ _ Hf) in Hc.
  - intros res Hlt Hno. split; [lia|]. intros Hin.
    destruct (Hopen _ Hin) as [?|[_ ->]]; [done|lia].
Qed.

(** ** Transcripts on the event stream *)

Lemma webhook_transcript_sessions cfg now key session transcript srv :
  sessions (fst (webhook_transcript cfg now key session transcript srv))
  = if negb (String.eqb (webhook_text transcript) "")
    then <[key := Session.push (webhook_message now transcript) session]>
           (sessions srv)
    else sessions srv.
Proof.
  unfold webhook_transcript. fold (webhook_text transcript).
  destruct (negb _); [|done]. cbn [agents set_sessions].
  destruct (agents srv !! Session.aiAgent session) as [m|]; [|done].
  destruct (truthy _); [|done].
  by destruct (invoke _ _ _ _).
Qed.

Lemma webhook_sessions cfg now req srv :
  sessions (fst (webhook cfg now req srv))
  = match webhook_bot req ≫= (fun k => (k,.) <$> sessions srv !! k),
          webhook_broadcast cfg now req srv with
    | Some (key, session), [sse_transcript msg] =>
        <[key := Session.push msg session]> (sessions srv)
    | _, _ => sessions srv
    end.
Proof.
  unfold webhook, webhook_broadcast, webhook_bot.
  destruct (negb (String.eqb _ _)); [by destruct (_ ≫= _) as [[]|]|].
  destruct (Webhook.body_data req) as [data|]; [|done].
  cbn [mbind option_bind].
  destruct (String.eqb (Webhook.event req) "");
    [by destruct (_ ≫= _) as [[]|]|].
  destruct (Webhook.bot_id data) as [key|]; [|done]. cbn [mbind option_bind].
  destruct (sessions srv !! key) as [session|] eqn:Hk; [|done].
  cbn [fmap option_fmap option_map].
  destruct (String.eqb (Webhook.event req) "transcript.data"
            || String.eqb (Webhook.event req) "transcript.partial_data").
  - destruct (Webhook.data_ data) as [transcript|]; [|done].
    destruct (String.eqb (Webhook.event req) "transcript.partial_data"); [done|].
    pose proof (webhook_transcript_sessions cfg now key session transcript srv)
      as Hs.
    destruct (webhook_transcript _ _ _ _ _ _) as [srv' o]. cbn [fst] in *.
    rewrite Hs. by destruct (negb _).
  - destruct (String.eqb (Webhook.event req) "participant_events.join");
      [|done].
    pose proof (webhook_join_effect cfg now session (Webhook.data_ data) srv)
      as (_ & _ & _ & _ & _ & Hs & _). cbn zeta in Hs.
    destruct (webhook_join _ _ _ _ _) as [srv' o]. cbn [fst] in *.
    rewrite Hs. by destruct (_ ≫= _).
Qed.

Lemma push_neq msg session : Session.push msg session <> session.
Proof.
  intros H. apply (f_equal Session.transcripts) in H. cbn in H.
  apply (f_equal length) in H. rewrite length_app in H. simpl in H. lia.
Qed.

Lemma push_inj msg msg' session :
  Session.push msg session = Session.push msg' session -> msg = msg'.
Proof.
  intros H. apply (f_equal Session.transcripts) in H. cbn in H.
  apply app_inv_head in H. by injection H.
Qed.

(** X14. What is stored is what is shown.  A webhook request broadcasts a
    transcript message on the event stream exactly when it appends that
    message to the transcripts of the session of its bot; and it broadcasts
    at most one message. *)
Theorem stored_transcripts_are_broadcast cfg now req srv :
  (forall msg,
     In (sse_transcript msg) (webhook_broadcast cfg now req srv)
     <-> exists key session,
           webhook_bot req = Some key /\ sessions srv !! key = Some session
           /\ sessions (fst (webhook cfg now req srv)) !! key
              = Some (Session.push msg session))
  /\ length (webhook_broadcast cfg now req srv) <= 1.
Proof.
  split; [|apply webhook_broadcast_length].
  intros msg. rewrite webhook_sessions.
  assert (Hb : forall m, In m (webhook_broadcast cfg now req srv) ->
                 exists key session,
                   webhook_bot req = Some key
                   /\ sessions srv !! key = Some session).
  { intros m. unfold webhook_broadcast, webhook_bot.
    destruct (negb _); [done|].
    destruct (Webhook.body_data req) as [data|]; [|done].
    destruct (String.eqb _ _); [done|]. cbn [mbind option_bind].
    destruct (Webhook.bot_id data) as [key|]; [|done]. cbn [mbind option_bind].
    destruct (sessions srv !! key) as [session|] eqn:Hk; [|done].
    intros _. by exists key, session. }
  pose proof (webhook_broadcast_length cfg now req srv) as Hl.
  split.
  - intros Hin. destruct (Hb _ Hin) as (key & session & Hk & Hs).
    exists key, session. split; [done|]. split; [done|].
    rewrite Hk. cbn [mbind option_bind]. rewrite Hs.
    cbn [fmap option_fmap option_map].
    destruct (webhook_broadcast cfg now req srv) as [|m [|? ?]];
      [done| |simpl in Hl; lia].
    destruct Hin as [->|[]]. by rewrite lookup_insert_eq.
  - intros (key & session & Hk & Hs & Hx). rewrite Hk in Hx.
    cbn [mbind option_bind] in Hx. rewrite Hs in Hx.
    cbn [fmap option_fmap option_map] in Hx.
    destruct (webhook_broadcast cfg now req srv) as [|m [|? ?]];
      [| |simpl in Hl; lia].
    + rewrite Hs in Hx. injection Hx as Hx. symmetry in Hx.
      by apply push_neq in Hx.
    + destruct m as [|m|? ? ?].
      * rewrite Hs in Hx. injection Hx as Hx. symmetry in Hx.
        by apply push_neq in Hx.
      * rewrite lookup_insert_eq in Hx.
        assert (Hp : Session.push m session = Session.push msg session)
          by congruence.
        apply push_inj in Hp. subst. by left.
      * rewrite Hs in Hx. injection Hx as Hx. symmetry in Hx.
        by apply push_neq in Hx.
Qed.

(** ** Clearing all sessions *)

Lemma invoke_flush_kind cfg now m :
  all_kind [k_chat; k_summary] (snd (invoke cfg now call_flushBuffer m)).
Proof.
  destruct (AIAgent.transcriptBuffer (agent m)) as [|l ls] eqn:Hbuf.
  - rewrite invoke_flush_empty by done.
    eapply all_kind_mono; [|apply flushBuffer_rest_kind]. simpl. intuition.
  - rewrite invoke_flush_nonempty by (rewrite Hbuf; done).
    repeat constructor; simpl; auto.
Qed.

Lemma hub_calls_outs (o : list output) : hub_calls (map Out o) = calls o.
Proof.
  induction o as [|x o IH]; [done|].
  destruct x as [c|l|r|f]; unfold hub_calls, calls in *;
    cbn [map omap list_omap]; [f_equal|..]; exact IH.
Qed.

Lemma clear_loop cfg now order srv c o :
  let r := foldl (clear_one cfg now) (srv, c, o) order in
  sessions (fst (fst r)) = sessions srv
  /\ Clear.deletes (snd (fst r)) = Clear.deletes c ++ known srv order
  /\ calls_of k_delete (snd r)
     = calls_of k_delete o ++ map recall_delete_bot (known srv order)
  /\ (known srv order = [] -> r = (srv, c, o)).
Proof.
  cbn zeta. revert srv c o.
  induction order as [|botId order IH]; intros srv c o.
  - cbn. by rewrite !app_nil_r.
  - cbn [foldl].
    pose proof (clear_one_server cfg now (srv, c, o) botId) as Hs.
    cbn [fst] in Hs.
    assert (Hk : forall srv', sessions srv' = sessions srv ->
                   known srv' order = known srv order).
    { intros srv' E. unfold known. by rewrite E. }
    unfold known at 1 2 3. cbn [List.filter]. fold (known srv order).
    cbn [clear_one] in *.
    destruct (sessions srv !! botId) as [session|] eqn:Hb.
    + rewrite bool_decide_eq_true_2 by eauto.
      destruct (agents srv !! Session.aiAgent session) as [m|].
      * pose proof (invoke_flush_kind cfg now m) as Hkind.
        destruct (invoke cfg now call_flushBuffer m) as [m' om].
        cbn [snd] in Hkind.
        match goal with
        | |- context [foldl _ (?s, ?c1, ?o1) order] =>
            destruct (IH s c1 o1) as (E1 & E2 & E3 & _)
        end.
        rewrite E1, E2, E3. cbn [fst Clear.deletes].
        rewrite !(Hk (set_agents _ srv) eq_refl).
        rewrite !calls_of_app, (all_kind_no _ k_delete _ Hkind)
          by (simpl; intuition discriminate).
        cbn. rewrite <- !app_assoc. done.
      * match goal with
        | |- context [foldl _ (?s, ?c1, ?o1) order] =>
            destruct (IH s c1 o1) as (E1 & E2 & E3 & _)
        end.
        rewrite E1, E2, E3. cbn [Clear.deletes].
        rewrite !calls_of_app. cbn. rewrite <- !app_assoc. done.
    + rewrite bool_decide_eq_false_2 by (intros [? ?]; congruence).
      apply IH.
Qed.

Lemma clear_sessions_answer cfg now order h :
  let r := clear_sessions cfg now order h in
  match known (server_ h) order with
  | [] => hub_replies (snd r)
          = [res_cleared (size (sessions (server_ h)))]
          /\ sessions (server_ (fst r)) = ∅
  | _ => hub_replies (snd r) = []
         /\ sessions (server_ (fst r)) = sessions (server_ h)
         /\ exists c, clearing (fst r) !! nextClear h = Some c
                      /\ Clear.deletes c = known (server_ h) order
  end.
Proof.
  cbn zeta. unfold clear_sessions.
  pose proof (clear_loop cfg now order (server_ h) Clear.empty [])
    as (E1 & E2 & _ & E4). cbn zeta in *.
  destruct (foldl _ _ _) as [[srv1 c] o]. cbn [fst snd] in *.
  cbn in E2.
  assert (Hr : forall oo : list output, hub_replies (map Out oo) = []).
  { induction oo as [|x oo IH]; [done|]. exact IH. }
  destruct (known (server_ h) order) as [|b bs] eqn:Hk.
  - injection (E4 eq_refl) as -> -> ->. cbn. done.
  - unfold Clear.settled. rewrite E2. cbn [length Nat.eqb andb].
    rewrite andb_false_r. cbn.
    rewrite Hr, lookup_insert_eq.
    split; [done|]. split; [done|]. by exists c.
Qed.

(** X15. Clearing deletes at once.  The clear-sessions route sends, in
    its own step and in the order of the table, one DELETE for the bot of
    every session, without waiting for the flush it has just started on the
    session's agent.  If the table has a session the route then waits for
    all of these to settle, with the table as it was; if it has none the
    route answers at once. *)
Theorem clear_sessions_deletes_at_once cfg now order h :
  let r := clear_sessions cfg now order h in
  filter (fun c => kind_of c = k_delete) (hub_calls (snd r))
  = map recall_delete_bot (known (server_ h) order)
  /\ match known (server_ h) order with
     | [] => hub_replies (snd r)
             = [res_cleared (size (sessions (server_ h)))]
             /\ sessions (server_ (fst r)) = ∅
     | _ => hub_replies (snd r) = []
            /\ sessions (server_ (fst r)) = sessions (server_ h)
            /\ exists c, clearing (fst r) !! nextClear h = Some c
                         /\ Clear.deletes c = known (server_ h) order
     end.
Proof.
  cbn zeta. split; [|apply clear_sessions_answer].
  unfold clear_sessions.
  pose proof (clear_loop cfg now order (server_ h) Clear.empty [])
    as (_ & E2 & E3 & E4). cbn zeta in *.
  destruct (foldl _ _ _) as [[srv1 c] o]. cbn [fst snd] in *.
  cbn in E2, E3.
  destruct (known (server_ h) order) as [|b bs] eqn:Hk.
  - injection (E4 eq_refl) as -> -> ->. cbn. done.
  - unfold Clear.settled. rewrite E2. cbn [length Nat.eqb andb].
    rewrite andb_false_r. cbn. by rewrite hub_calls_outs.
Qed.

Lemma hub_replies_app o1 o2 :
  hub_replies (o1 ++ o2) = hub_replies o1 ++ hub_replies o2.
Proof. unfold hub_replies. apply omap_app. Qed.

Lemma hub_calls_app o1 o2 : hub_calls (o1 ++ o2) = hub_calls o1 ++ hub_calls o2.
Proof. unfold hub_calls. apply omap_app. Qed.

Lemma hub_replies_outs (o : list output) : hub_replies (map Out o) = [].
Proof. induction o as [|x o IH]; [done|]. exact IH. Qed.

Lemma hub_replies_writes ws : hub_replies (writes ws) = [].
Proof. induction ws as [|x o IH]; [done|]. exact IH. Qed.

Lemma hub_calls_writes ws : hub_calls (writes ws) = [].
Proof. induction ws as [|x o IH]; [done|]. exact IH. Qed.

Lemma finished_answered h h' o :
  finished h h' o ->
  hub_calls o = []
  /\ (hub_replies o <> [] ->
      sessions (server_ h') = ∅
      /\ Stream.sseClients (stream h') = []
      /\ Stream.open (stream h') = Stream.open (stream h)
      /\ head (hub_replies o)
         = Some (res_cleared (size (sessions (server_ h))))).
Proof.
  intros (E1 & _ & _ & _ & Hf & E6). split.
  - clear E6. induction Hf as [|x o [n ->] _ IH]; done.
  - intros Hne. destruct E6 as [(-> & _)|(Es & Ec & o' & ->)]; done.
Qed.

Lemma webhook_outputs_calls req o ws :
  hub_calls (webhook_outputs req o ws) = calls o
  /\ hub_replies (webhook_outputs req o ws) = [].
Proof.
  unfold webhook_outputs. destruct o as [|x rest].
  - by rewrite hub_calls_writes, hub_replies_writes.
  - destruct (String.eqb _ _).
    + change (Out x :: map Out rest ++ ?w) with (map Out (x :: rest) ++ w).
      rewrite hub_calls_app, hub_replies_app, hub_calls_outs, hub_replies_outs,
        hub_calls_writes, hub_replies_writes, app_nil_r. done.
    + change (Out x :: ?w ++ map Out rest) with (map Out [x] ++ w ++ map Out rest).
      rewrite !hub_calls_app, !hub_replies_app, !hub_calls_outs,
        !hub_replies_outs, hub_calls_writes, hub_replies_writes.
      cbn [app]. by rewrite <- calls_app.
Qed.

(** X16. When clearing completes.  Whenever a step answers a
    clear-sessions request, the table of sessions is empty after it,
    whatever it held, sessions stored since the request included; the count
    in the answer is the size of the table at that moment; the set of
    stream clients is empty although their connections stay open; and the
    completion itself issues no call: the calls of the step are those of the
    request it serves, and none when it is the settlement of a DELETE. *)
Theorem clear_sessions_completion cfg now e h h' o :
  hub_step cfg now e h = Some (h', o) ->
  (hub_replies o <> [] ->
   sessions (server_ h') = ∅
   /\ Stream.sseClients (stream h') = []
   /\ Stream.open (stream h') = Stream.open (stream h)
   /\ head (hub_replies o) = Some (res_cleared (size (sessions (server_ h)))))
  /\ (forall r, e = to_server r ->
                hub_calls o = calls (serve_outputs cfg now r (server_ h)))
  /\ (forall clear botId ok, e = clear_delete_settles clear botId ok ->
                             hub_calls o = []).
Proof.
  intros H.
  destruct e as [r| |res|res|order|clear botId ok]; cbn [hub_step] in H.
  - unfold serve_outputs.
    destruct (serve cfg now r (server_ h)) as [[srv' o0]|] eqn:Hs; [|done].
    cbn in H.
    assert (Hplain : forall h1, Some (h1, map Out o0) = Some (h', o) ->
              (hub_replies o <> [] ->
               sessions (server_ h') = ∅
               /\ Stream.sseClients (stream h') = []
               /\ Stream.open (stream h') = Stream.open (stream h)
               /\ head (hub_replies o)
                  = Some (res_cleared (size (sessions (server_ h)))))
              /\ (forall r0, to_server r = to_server r0 ->
                             hub_calls o = calls (from_option snd []
                                                    (serve cfg now r0 (server_ h))))
              /\ (forall clear botId ok,
                    to_server r = clear_delete_settles clear botId ok ->
                    hub_calls o = [])).
    { intros h1 [= <- <-]. rewrite hub_replies_outs, hub_calls_outs.
      split; [done|]. split; [|done]. intros r0 [= <-]. by rewrite Hs. }
    destruct r as [id url phones|req|botId|ref st|stop ok];
      try (by eapply Hplain).
    + injection H as <- <-.
      destruct (webhook_outputs_calls req o0
                  (flat_map (fun message => broadcast message (stream h))
                     (webhook_broadcast cfg now req (server_ h)))) as [-> ->].
      split; [done|]. split; [|done]. intros r0 [= <-]. by rewrite Hs.
    + pose proof (finish_settled_finished
                    (set_clearing
                       (resolve_flushes ref o0
                          <$> clearing (set_server srv' h))
                       (set_server srv' h))) as Hf.
      destruct (finish_settled _) as [h2 o2]. injection H as <- <-.
      cbn [fst snd] in Hf.
      destruct (finished_answered _ _ _ Hf) as [Hc Ha].
      rewrite hub_replies_app, hub_replies_outs, hub_calls_app, hub_calls_outs,
        Hc, app_nil_r. cbn [app].
      split; [|split; [|done]].
      * intros Hne. destruct (Ha Hne) as (E1 & E2 & E3 & E4).
        cbn in E3, E4. repeat split; try done. rewrite E4.
        do 3 f_equal. cbn [serve] in Hs.
        destruct (agents (server_ h) !! ref) as [m|]; [|done]. cbn in Hs.
        destruct (settle cfg now st m) as [[m' o1]|]; [|done]. cbn in Hs.
        match type of Hs with
        | Some (resume_stops ?r ?oo ?s1) = _ =>
            destruct (resume_stops_tables r oo s1) as (H1 & _)
        end.
        injection Hs as Hs. rewrite Hs in H1. cbn in H1. by rewrite H1.
      * intros r0 [= <-]. by rewrite Hs.
  - unfold get_stream in H. injection H as <- <-. cbn. done.
  - destruct (stream_close res (stream h)); [|done]. injection H as <- <-. done.
  - unfold keepalive in H. destruct (existsb _ _); [|done].
    injection H as <- <-. done.
  - injection H as H. split; [|done].
    pose proof (clear_sessions_answer cfg now order h) as Hc.
    cbn zeta in Hc. rewrite H in Hc. cbn [fst snd] in Hc.
    intros Hne. destruct (known (server_ h) order) as [|b bs].
    + destruct Hc as [Hr Hs]. rewrite Hr. split; [done|].
      pose proof (clear_sessions_stream cfg now order h) as Hst.
      cbn zeta in Hst. rewrite H in Hst. cbn [fst] in Hst.
      unfold clear_sessions in H.
      destruct (foldl _ _ _) as [[srv1 c] o0].
      destruct (Clear.settled c); cbn in H; injection H as <- <-.
      * done.
      * by rewrite hub_replies_outs in Hne.
    + destruct Hc as [Hr _]. by rewrite Hr in Hne.
  - destruct (clearing h !! clear) as [c|]; [|done]. cbn in H.
    destruct (existsb _ _); [|done].
    match type of H with
    | Some (finish_settled ?h0) = _ =>
        pose proof (finish_settled_finished h0) as Hf
    end.
    injection H as H. rewrite H in Hf. cbn [fst snd] in Hf.
    destruct (finished_answered _ _ _ Hf) as [Hc Ha].
    split; [|done]. intros Hne. destruct (Ha Hne) as (E1 & E2 & E3 & E4).
    done.
Qed.

Lemma stream_delivers_to_connected_clients_witness :
  written 1
    (hub_step_outputs cfg_all 5
       (to_server
          (post_webhook
             (transcript_request "bot-1" "Bob" (JNum 8) false ["Hi"])))
       (hub_state cfg_all (firstn 4 dashboards)))
  = [chunk_data
       (sse_transcript
          {| Session.speaker := "Bob"; Session.words := "Hi";
             Session.timestamp := 5; Session.isHost := false |})].
Proof.
  refine (proj1 (stream_delivers_to_connected_clients cfg_all
                   (firstn 4 dashboards)
                   (hub_state cfg_all (firstn 4 dashboards))
                   (hub_outputs cfg_all (firstn 4 dashboards)) 5
                   (to_server
                      (post_webhook
                         (transcript_request "bot-1" "Bob" (JNum 8) false ["Hi"])))
                   (hub_step_state cfg_all 5
                      (to_server
                         (post_webhook
                            (transcript_request "bot-1" "Bob" (JNum 8) false
                               ["Hi"])))
                      (hub_state cfg_all (firstn 4 dashboards)))
                   (hub_step_outputs cfg_all 5
                      (to_server
                         (post_webhook
                            (transcript_request "bot-1" "Bob" (JNum 8) false
                               ["Hi"])))
                      (hub_state cfg_all (firstn 4 dashboards)))
                   _ _) _ 1 eq_refl);
    vm_compute; reflexivity.
Defined.

Lemma clear_sessions_completion_witness :
  sessions
    (server_
       (hub_step_state cfg_all 8
          (to_server (agent_settles 0 (sms_end_settled 0 0 true)))
          (hub_state cfg_all clearing_run))) = ∅.
Proof.
  refine (proj1 (proj1 (clear_sessions_completion cfg_all 8
                          (to_server (agent_settles 0 (sms_end_settled 0 0 true)))
                          (hub_state cfg_all clearing_run)
                          (hub_step_state cfg_all 8
                             (to_server
                                (agent_settles 0 (sms_end_settled 0 0 true)))
                             (hub_state cfg_all clearing_run))
                          (hub_step_outputs cfg_all 8
                             (to_server
                                (agent_settles 0 (sms_end_settled 0 0 true)))
                             (hub_state cfg_all clearing_run)) _) _)).
  - vm_compute; reflexivity.
  - vm_compute; discriminate.
Defined.

(** ** Settlements that are not a failed analysis *)

Section Kept.

Variable R : AIAgent.t -> AIAgent.t -> Prop.
Hypothesis R_refl : forall a, R a a.
Hypothesis R_trans : forall a b c, R a b -> R b c -> R a c.
Hypothesis R_slackThread : forall s a, R a (AIAgent.with_slackThread s a).
Hypothesis R_smsManager : forall s a, R a (AIAgent.with_smsManager s a).
Hypothesis R_lastCoachingTime :
  forall x a, R a (AIAgent.with_lastCoachingTime x a).

Lemma analyzeBatch_settled_kept cfg now r a :
  r <> chat_throws ->
  R a (fst (fst (AIAgent.analyzeBatch_settled cfg now r a))).
Proof.
  intros Hr. unfold AIAgent.analyzeBatch_settled.
  destruct r as [|name args|t]; cbn [fst]; [done| |done].
  destruct (String.eqb name "send_message"); [|done].
  destruct (truthy _); [|done].
  pose proof (sendToAll_frame R R_refl R_trans R_slackThread R_smsManager
                R_lastCoachingTime cfg now (FunctionCall.message args)
                (FunctionCall.reason args) a) as H.
  destruct (AIAgent.sendToAll _ _ _ _ _). done.
Qed.

Lemma settle_kept cfg now s m m' o :
  settle cfg now s m = Some (m', o) ->
  is_failed_analysis s = false ->
  R (agent m) (agent m').
Proof.
  pose proof (join_frame R R_refl R_trans R_slackThread R_smsManager) as Hjoin.
  pose proof (end_join_frame R R_refl) as Hend.
  destruct s; simpl; intros H Hs.
  - destruct (chats m !! batch) as [k|]; [|done]. simpl in H.
    assert (Hr : r <> chat_throws) by (by destruct r).
    pose proof (analyzeBatch_settled_kept cfg now r (agent m) Hr) as Hd.
    destruct (AIAgent.analyzeBatch_settled _ _ _ _) as [[a o0] d].
    cbn [fst] in Hd. destruct d as [d|].
    + match type of H with
      | Some (join ?c ?n ?b ?j ?m1 ?o1) = _ =>
          pose proof (Hjoin c n b j m1 o1) as Hj
      end.
      inversion H as [He]. rewrite He in Hj. cbn [fst] in Hj.
      eapply R_trans; [exact Hd|].
      destruct (has_call (outs (AIAgent.sms d))); exact Hj.
    + pose proof (resume_frame R R_refl R_trans R_slackThread R_smsManager
                    cfg now k
                    (set_agent a (set_chats (delete batch (chats m)) m))) as Hr'.
      destruct (resume _ _ _ _) as [m2 o2]. inversion H; subst.
      eapply R_trans; [exact Hd|exact Hr'].
  - destruct (slackStarts m); [done|].
    pose proof (initializeSlackThread_settled_frame R R_refl R_slackThread
                  r (agent m)) as Hi.
    destruct (AIAgent.initializeSlackThread_settled r (agent m)).
    inversion H; subst. exact Hi.
  - destruct (sends m !! batch) as [j|]; [|done]. simpl in H.
    destruct (Join.slack j); [|done].
    match type of H with
    | Some (join ?c ?n ?b ?j ?m1 ?o1) = _ =>
        pose proof (Hjoin c n b j m1 o1) as Hj
    end.
    inversion H as [He]. rewrite He in Hj. exact Hj.
  - destruct (sends m !! batch) as [j|]; [|done]. simpl in H.
    destruct (Join.zoom j); [|done].
    match type of H with
    | Some (join ?c ?n ?b ?j ?m1 ?o1) = _ =>
        pose proof (Hjoin c n b j m1 o1) as Hj
    end.
    inversion H as [He]. rewrite He in Hj. exact Hj.
  - destruct (smsNudges m !! batch) as [p|]; [|done]. simpl in H.
    destruct (PromiseAll.settle i ok p) as [[p' all]|]; [|done]. simpl in H.
    destruct all as [ok_all|]; [|inversion H; subst; apply R_refl].
    match type of H with
    | context [sends ?m1 !! batch] => destruct (sends m1 !! batch) as [j|]
    end; [|inversion H; subst; apply R_refl].
    match type of H with
    | context [AIAgent.smsManager ?a1] =>
        destruct (AIAgent.smsManager a1) as [mgr|]
    end; [|inversion H; subst; apply R_refl].
    match type of H with
    | Some (join ?c ?n ?b ?j ?m1 ?o1) = _ =>
        pose proof (Hjoin c n b j m1 o1) as Hj
    end.
    inversion H as [He]. rewrite He in Hj. exact Hj.
  - destruct (flushes m !! flush) as [j|]; [|done]. simpl in H.
    destruct (EndJoin.slack j); [|done].
    destruct (AIAgent.slackThread (agent m)) as [t|]; [|done].
    destruct (SlackThreadManager.endSessionThread_settled ok t) as [t' o0].
    match type of H with
    | Some (end_join ?f ?j ?m1 ?o1) = _ =>
        pose proof (Hend f j m1 o1) as Hj
    end.
    inversion H as [He]. rewrite He in Hj. cbn [fst agent set_agent] in Hj.
    eapply R_trans; [|exact Hj]. apply R_slackThread.
  - destruct (smsEnds m !! flush) as [p|]; [|done]. simpl in H.
    destruct (PromiseAll.settle i ok p) as [[p' all]|]; [|done]. simpl in H.
    destruct all as [ok_all|]; [|inversion H; subst; apply R_refl].
    match type of H with
    | context [flushes ?m1 !! flush] => destruct (flushes m1 !! flush) as [j|]
    end; [|inversion H; subst; apply R_refl].
    match type of H with
    | context [AIAgent.smsManager ?a1] =>
        destruct (AIAgent.smsManager a1) as [mgr|]
    end; [|inversion H; subst; apply R_refl].
    destruct (SMSManager.endSession_settled ok_all mgr) as [mgr' o1].
    match type of H with
    | Some (end_join ?f ?j ?m1 ?o1) = _ =>
        pose proof (Hend f j m1 o1) as Hj
    end.
    inversion H as [He]. rewrite He in Hj. cbn [fst agent set_agent] in Hj.
    eapply R_trans; [|exact Hj]. apply R_smsManager.
Qed.

End Kept.

(** ** Where buffered lines go *)

Lemma same_buffer_trans a b c :
  same_buffer a b -> same_buffer b c -> same_buffer a c.
Proof. unfold same_buffer. congruence. Qed.

(** X17. No line leaves the buffer unaccounted for.  Whatever the step,
    one of three things happens to the lines in the buffer and the line the
    step brings: they are all kept, in order, and no analyze call is issued;
    or they are all submitted, in order, in the one analyze call of the
    step, and the buffer is left empty; or the step is the settlement of a
    failed analysis, which empties the buffer and submits nothing. *)
Theorem buffered_lines_are_submitted_or_dropped cfg now e m m' o :
  step cfg now e m = Some (m', o) ->
  let lines := AIAgent.transcriptBuffer (agent m) ++ pushed e in
  (AIAgent.transcriptBuffer (agent m') = lines /\ calls_of k_chat o = [])
  \/ (AIAgent.transcriptBuffer (agent m') = []
      /\ calls_of k_chat o
         = [chat_sendMessage (S (AIAgent.batchCount (agent m)))
              (String.concat newline lines)])
  \/ (AIAgent.transcriptBuffer (agent m') = []
      /\ calls_of k_chat o = []
      /\ exists b, e = Settle (chat_settled b chat_throws)).
Proof.
  intros H. cbn zeta. pose proof (step_batch _ _ _ _ _ _ H) as Hb.
  cbn zeta in Hb. destruct Hb as [_ Hb].
  destruct e as [[speaker pid isHost text|name id|]|s]; cbn [pushed].
  - destruct (_ <=? _)%nat; destruct Hb as [-> ->]; [right; left|left]; done.
  - destruct Hb as [-> ->]. rewrite app_nil_r. by left.
  - destruct Hb as [-> ->]. rewrite app_nil_r.
    destruct (AIAgent.transcriptBuffer (agent m)); [left|right; left]; done.
  - destruct Hb as [_ Hc]. rewrite app_nil_r. cbn [step] in H.
    destruct (is_failed_analysis s) eqn:Hs.
    + right. right. destruct s as [b [| |]| | | | | |]; try done.
      simpl in H. destruct (chats m !! b) as [k|]; [|done]. simpl in H.
      set (m1 := set_agent _ _) in H.
      pose proof (resume_batcher cfg now k m1) as (Hbuf & _).
      destruct (resume cfg now k m1) as [m2 o2]. cbn [fst] in Hbuf.
      injection H as <- <-. rewrite Hbuf. split; [done|]. split; [done|].
      by exists b.
    + left. split; [|done].
      exact (settle_kept same_buffer (fun a => eq_refl) same_buffer_trans
               (fun s a => eq_refl) (fun s a => eq_refl) (fun x a => eq_refl)
               _ _ _ _ _ _ H Hs).
Qed.

(** ** When a nudge goes out *)

Lemma join_only_summary cfg now b j m o0 :
  all_kind [k_summary] o0 ->
  all_kind [k_summary] (snd (join cfg now b j m o0)).
Proof. intros H. apply join_kind; [done|]. by left. Qed.

Lemma settle_other_kind cfg now s m m' o :
  settle cfg now s m = Some (m', o) ->
  (forall b r, s = chat_settled b r -> is_send_message r = false
                                       \/ truthy (AIAgent.interviewerId (agent m))
                                          = false) ->
  all_kind [k_summary] o.
Proof.
  assert (Hsms : forall a i ok,
             all_kind [k_summary] [SMSManager.sendSMS_settled (phone a i) ok]).
  { intros a i ok. unfold SMSManager.sendSMS_settled.
    destruct ok; repeat constructor. }
  destruct s; simpl; intros H Hs.
  - destruct (chats m !! batch) as [k|]; [|done]. simpl in H.
    assert (Hd : exists a o0,
               AIAgent.analyzeBatch_settled cfg now r (agent m) = (a, o0, None)
               /\ all_kind [k_summary] o0).
    { unfold AIAgent.analyzeBatch_settled.
      specialize (Hs batch r eq_refl).
      destruct r as [|name args|t].
      - eexists _, _. split; [done|]. repeat constructor.
      - simpl in Hs. destruct (String.eqb name "send_message").
        + destruct Hs as [Hs|Hs]; [done|]. rewrite Hs. eexists _, _. split; [done|].
          repeat constructor.
        + eexists _, _. split; [done|]. constructor.
      - eexists _, _. split; [done|]. destruct (negb _); repeat constructor. }
    destruct Hd as (a & o0 & Heq & Hk). rewrite Heq in H.
    pose proof (resume_kind cfg now k
                  (set_agent a (set_chats (delete batch (chats m)) m))) as Hr.
    destruct (resume _ _ _ _) as [m2 o2]. inversion H; subst.
    by apply all_kind_app.
  - destruct (slackStarts m); [done|].
    unfold AIAgent.initializeSlackThread_settled in H.
    destruct (AIAgent.slackThread (agent m)) as [t|].
    + unfold SlackThreadManager.startSessionThread_settled in H.
      destruct r; inversion H; repeat constructor.
    + inversion H. apply all_kind_nil.
  - destruct (sends m !! batch) as [j|]; [|done]. simpl in H.
    destruct (Join.slack j); [|done].
    match type of H with
    | Some (join ?c ?n ?b ?j ?m1 ?o0) = _ =>
        assert (Ho : all_kind [k_summary] o0);
        [|pose proof (join_only_summary c n b j m1 o0 Ho) as Hj;
          inversion H as [He]; rewrite He in Hj; exact Hj]
    end.
    destruct (AIAgent.slackThread (agent m)); [|apply all_kind_nil].
    unfold SlackThreadManager.sendCoachingReply_settled.
    destruct ok; repeat constructor.
  - destruct (sends m !! batch) as [j|]; [|done]. simpl in H.
    destruct (Join.zoom j); [|done].
    match type of H with
    | Some (join ?c ?n ?b ?j ?m1 ?o0) = _ =>
        assert (Ho : all_kind [k_summary] o0);
        [|pose proof (join_only_summary c n b j m1 o0 Ho) as Hj;
          inversion H as [He]; rewrite He in Hj; exact Hj]
    end.
    destruct r; repeat constructor.
  - destruct (smsNudges m !! batch) as [p|]; [|done]. simpl in H.
    destruct (PromiseAll.settle i ok p) as [[p' all]|]; [|done]. simpl in H.
    specialize (Hsms (agent m) i ok).
    destruct all as [ok_all|]; [|by inversion H; subst].
    match type of H with
    | context [sends ?m1 !! batch] => destruct (sends m1 !! batch) as [j|]
    end; [|by inversion H; subst].
    match type of H with
    | context [AIAgent.smsManager ?a1] =>
        destruct (AIAgent.smsManager a1) as [mgr|]
    end; [|by inversion H; subst].
    match type of H with
    | Some (join ?c ?n ?b ?j ?m1 ?o0) = _ =>
        assert (Ho : all_kind [k_summary] o0);
        [|pose proof (join_only_summary c n b j m1 o0 Ho) as Hj;
          inversion H as [He]; rewrite He in Hj; exact Hj]
    end.
    apply (all_kind_app _ [_]); [done|].
    unfold SMSManager.sendCoachingNudge_settled.
    destruct ok_all; repeat constructor.
  - destruct (flushes m !! flush) as [j|]; [|done]. simpl in H.
    destruct (EndJoin.slack j); [|done].
    destruct (AIAgent.slackThread (agent m)) as [t|]; [|done].
    destruct (SlackThreadManager.endSessionThread_settled ok t) as [t' o0] eqn:Ht.
    assert (Ho : all_kind [k_summary] o0).
    { unfold SlackThreadManager.endSessionThread_settled in Ht.
      destruct ok; inversion Ht; repeat constructor. }
    match type of H with
    | Some (end_join ?f ?j ?m1 ?o1) = _ =>
        pose proof (end_join_kind f j m1 o1 _ Ho) as Hj
    end.
    inversion H as [He]. rewrite He in Hj. exact Hj.
  - destruct (smsEnds m !! flush) as [p|]; [|done]. simpl in H.
    destruct (PromiseAll.settle i ok p) as [[p' all]|]; [|done]. simpl in H.
    specialize (Hsms (agent m) i ok).
    destruct all as [ok_all|]; [|by inversion H; subst].
    match type of H with
    | context [flushes ?m1 !! flush] => destruct (flushes m1 !! flush) as [j|]
    end; [|by inversion H; subst].
    match type of H with
    | context [AIAgent.smsManager ?a1] =>
        destruct (AIAgent.smsManager a1) as [mgr|]
    end; [|by inversion H; subst].
    destruct (SMSManager.endSession_settled ok_all mgr) as [mgr' o1] eqn:Hm.
    match type of H with
    | Some (end_join ?f ?j ?m1 ?o0) = _ =>
        assert (Ho : all_kind [k_summary] o0);
        [|pose proof (end_join_kind f j m1 o0 _ Ho) as Hj;
          inversion H as [He]; rewrite He in Hj; exact Hj]
    end.
    apply (all_kind_app _ [_]); [done|].
    unfold SMSManager.endSession_settled in Hm.
    destruct ok_all; inversion Hm; repeat constructor.
Qed.

Lemma send_message_or_not s m :
  (forall b r, s = chat_settled b r ->
               is_send_message r = false
               \/ truthy (AIAgent.interviewerId (agent m)) = false)
  \/ (exists b args,
        s = chat_settled b (chat_functionCall "send_message" args)
        /\ truthy (AIAgent.interviewerId (agent m)) = true).
Proof.
  destruct s as [b r| | | | | |]; try (left; intros; discriminate).
  destruct (truthy (AIAgent.interviewerId (agent m))) eqn:Ht;
    [|left; intros; by right].
  destruct r as [|name args|t]; try (left; intros ? ? [= <- <-]; by left).
  destruct (String.eqb_spec name "send_message") as [->|Hn].
  - right. by exists b, args.
  - left. intros ? ? [= <- <-]. left. simpl. by apply String.eqb_neq.
Qed.

Lemma same_lastCoachingTime_trans a b c :
  same_lastCoachingTime a b -> same_lastCoachingTime b c ->
  same_lastCoachingTime a c.
Proof. unfold same_lastCoachingTime. congruence. Qed.

Lemma sendToAll_lastCoachingTime cfg now msg rsn a :
  AIAgent.lastCoachingTime (fst (AIAgent.sendToAll cfg now msg rsn a)) = Some now.
Proof.
  unfold AIAgent.sendToAll. cbn [fst].
  rewrite (toSMS_frame same_lastCoachingTime (fun a => eq_refl)
             (fun s a => eq_refl)).
  rewrite (toSlack_frame same_lastCoachingTime (fun a => eq_refl)
             (fun s a => eq_refl)).
  done.
Qed.

(** X18. A nudge goes out only on a [send_message] decision for a known
    host.  The only step that sends a coaching message on any channel is
    the one in which an analysis returns a [send_message] function call
    while the agent holds a truthy host id, and that step notes the time of
    the nudge; a text answer, another function, a failed analysis and every
    other event send none. *)
Theorem nudge_only_on_send_message cfg now e m m' o :
  step cfg now e m = Some (m', o) ->
  calls_of k_nudge o <> [] ->
  truthy (AIAgent.interviewerId (agent m)) = true
  /\ AIAgent.lastCoachingTime (agent m') = Some now
  /\ exists b args,
       e = Settle (chat_settled b (chat_functionCall "send_message" args)).
Proof.
  intros H Hne.
  assert (Hno : forall ks, all_kind ks o -> ~ In k_nudge ks -> False).
  { intros ks Hk Hn. by rewrite (all_kind_no _ _ _ Hk Hn) in Hne. }
  destruct e as [[speaker pid isHost text|name id|]|s]; cbn [step] in H.
  - exfalso. assert (Hi : invoke cfg now
                   (call_processTranscript speaker pid isHost text) m = (m', o))
      by congruence.
    simpl in Hi.
    pose proof (processTranscript_kind cfg now speaker pid isHost text (agent m))
      as Hk.
    destruct (AIAgent.processTranscript _ _ _ _ _ _ _) as [a1 o1].
    injection Hi as <- <-. eapply Hno; [exact Hk|]. simpl. intuition discriminate.
  - exfalso. assert (Hi : invoke cfg now (call_setInterviewer name id) m = (m', o))
      by congruence.
    simpl in Hi.
    pose proof (setInterviewer_kind cfg now name id (agent m)) as Hk.
    destruct (AIAgent.setInterviewer _ _ _ _ _) as [a1 o1].
    injection Hi as <- <-. eapply Hno; [exact Hk|]. simpl. intuition discriminate.
  - exfalso. assert (Hi : invoke cfg now call_flushBuffer m = (m', o))
      by congruence.
    pose proof (invoke_flush_kind cfg now m) as Hk. rewrite Hi in Hk.
    eapply Hno; [exact Hk|]. simpl. intuition discriminate.
  - destruct (send_message_or_not s m) as [Hs|(b & args & -> & Ht)].
    + exfalso. eapply Hno; [eapply settle_other_kind; [exact H|exact Hs]|].
      simpl. intuition discriminate.
    + split; [done|]. split; [|by exists b, args].
      simpl in H. destruct (chats m !! b) as [k|]; [|done]. simpl in H.
      unfold AIAgent.analyzeBatch_settled in H.
      rewrite String.eqb_refl, Ht in H.
      pose proof (sendToAll_lastCoachingTime cfg now (FunctionCall.message args)
                    (FunctionCall.reason args) (agent m)) as Hl.
      destruct (AIAgent.sendToAll _ _ _ _ _) as [a' d]. cbn [fst] in Hl.
      match type of H with
      | Some (join ?c ?n ?b0 ?j ?m1 ?o1) = _ =>
          pose proof (join_frame same_lastCoachingTime (fun a => eq_refl)
                        same_lastCoachingTime_trans (fun s a => eq_refl)
                        (fun s a => eq_refl) c n b0 j m1 o1) as Hj
      end.
      injection H as H. rewrite H in Hj. cbn [fst] in Hj.
      unfold same_lastCoachingTime in Hj. rewrite Hj.
      by destruct (has_call (outs (AIAgent.sms d))).
Qed.

(** ** Summaries after a stop *)

Lemma end_join_agent f j m o : agent (fst (end_join f j m o)) = agent m.
Proof. unfold end_join. by destruct (EndJoin.settled j). Qed.

(** X19. A summary that was delivered is not sent again.  When the Slack
    summary of a flush has been posted, the manager is left without a
    thread and with its counter at 0, and a flush of the agent in that state
    posts no Slack summary; when the post failed, the manager is as it was,
    thread and counter included.  The same holds for the SMS session: once
    the session-ended line is printed the session is inactive, the counter
    is 0 and a flush in that state sends no text; as long as it is not
    printed the manager is as it was. *)
Theorem delivered_summary_is_not_repeated cfg now m m' o :
  (forall f ok,
     step cfg now (Settle (slack_end_settled f ok)) m = Some (m', o) ->
     if ok then
       (forall now', snd (AIAgent.endSlack cfg now' (agent m')) = None)
       /\ (exists s, AIAgent.slackThread (agent m') = Some s
                     /\ SlackThreadManager.threadTs s = JNull
                     /\ SlackThreadManager.nudgeCount s = 0)
     else AIAgent.slackThread (agent m') = AIAgent.slackThread (agent m))
  /\ (forall f i ok,
        step cfg now (Settle (sms_end_settled f i ok)) m = Some (m', o) ->
        (In (Log log_sms_session_ended) o ->
         (forall now', snd (AIAgent.endSMS cfg now' (agent m')) = None)
         /\ exists g, AIAgent.smsManager (agent m') = Some g
                      /\ SMSManager.sessionActive g = false
                      /\ SMSManager.nudgeCount g = 0)
        /\ (~ In (Log log_sms_session_ended) o ->
            AIAgent.smsManager (agent m') = AIAgent.smsManager (agent m))).
Proof.
  split.
  - intros f ok H. simpl in H.
    destruct (flushes m !! f) as [j|]; [|done]. simpl in H.
    destruct (EndJoin.slack j); [|done].
    destruct (AIAgent.slackThread (agent m)) as [t|] eqn:Hs; [|done].
    unfold SlackThreadManager.endSessionThread_settled in H.
    destruct ok.
    + match type of H with
      | Some (end_join ?f0 ?j0 ?m1 ?o1) = _ =>
          pose proof (end_join_agent f0 j0 m1 o1) as Ha
      end.
      injection H as H. rewrite H in Ha. cbn [fst agent set_agent] in Ha.
      rewrite Ha. split.
      * intros now'. unfold AIAgent.endSlack. cbn. by rewrite andb_false_r.
      * eexists. split; [reflexivity|]. done.
    + match type of H with
      | Some (end_join ?f0 ?j0 ?m1 ?o1) = _ =>
          pose proof (end_join_agent f0 j0 m1 o1) as Ha
      end.
      injection H as H. rewrite H in Ha. cbn [fst agent set_agent] in Ha.
      rewrite Ha. cbn [AIAgent.slackThread AIAgent.with_slackThread]. done.
  - intros f i ok H. simpl in H.
    destruct (smsEnds m !! f) as [p|]; [|done]. simpl in H.
    destruct (PromiseAll.settle i ok p) as [[p' all]|]; [|done]. simpl in H.
    assert (Hown : ~ In (Log log_sms_session_ended)
                     [SMSManager.sendSMS_settled (phone (agent m) i) ok]).
    { unfold SMSManager.sendSMS_settled. destruct ok; simpl; intuition discriminate. }
    assert (Hquiet : Some (set_smsEnds
                             (if Nat.eqb (length (PromiseAll.open p')) 0
                              then delete f (smsEnds m)
                              else <[f := p']> (smsEnds m)) m,
                           [SMSManager.sendSMS_settled (phone (agent m) i) ok])
                     = Some (m', o) ->
                     (In (Log log_sms_session_ended) o ->
                      (forall now', snd (AIAgent.endSMS cfg now' (agent m')) = None)
                      /\ exists g, AIAgent.smsManager (agent m') = Some g
                                   /\ SMSManager.sessionActive g = false
                                   /\ SMSManager.nudgeCount g = 0)
                     /\ (~ In (Log log_sms_session_ended) o ->
                         AIAgent.smsManager (agent m')
                         = AIAgent.smsManager (agent m))).
    { intros [= <- <-]. split; [done|]. intros _. by destruct (Nat.eqb _ _). }
    destruct all as [ok_all|]; [|by apply Hquiet].
    match type of H with
    | context [flushes ?m1 !! f] => destruct (flushes m1 !! f) as [j|]
    end; [|by apply Hquiet].
    match type of H with
    | context [AIAgent.smsManager ?a1] =>
        destruct (AIAgent.smsManager a1) as [mgr|] eqn:Hm
    end; [|by apply Hquiet].
    clear Hquiet. unfold SMSManager.endSession_settled in H.
    assert (Hm' : AIAgent.smsManager (agent m) = Some mgr).
    { by destruct (Nat.eqb _ _). }
    destruct ok_all.
    + match type of H with
      | Some (end_join ?f0 ?j0 ?m1 ?o1) = _ =>
          pose proof (end_join_agent f0 j0 m1 o1) as Ha
      end.
      injection H as H. rewrite H in Ha. cbn [fst agent set_agent] in Ha.
      rewrite Ha. split.
      * intros _. split.
        -- intros now'. unfold AIAgent.endSMS. cbn. by rewrite andb_false_r.
        -- eexists. split; [reflexivity|]. done.
      * intros Hno. exfalso. apply Hno.
        match type of H with
        | end_join ?f0 ?j0 ?m1 ?o1 = _ =>
            assert (Ho : o = snd (end_join f0 j0 m1 o1)) by (by rewrite H)
        end.
        rewrite Ho. unfold end_join.
        destruct (EndJoin.settled _); cbn [snd];
          rewrite ?in_app_iff; simpl; auto 10.
    + match type of H with
      | Some (end_join ?f0 ?j0 ?m1 ?o1) = _ =>
          pose proof (end_join_agent f0 j0 m1 o1) as Ha
      end.
      injection H as H. rewrite H in Ha. cbn [fst agent set_agent] in Ha.
      rewrite Ha. split.
      * intros Hin. exfalso.
        match type of H with
        | end_join ?f0 ?j0 ?m1 ?o1 = _ =>
            assert (Ho : o = snd (end_join f0 j0 m1 o1)) by (by rewrite H)
        end.
        rewrite Ho in Hin. unfold end_join in Hin.
        unfold AIAgent.flushBuffer_ended in Hin.
        destruct (EndJoin.settled _); cbn [snd] in Hin;
          rewrite ?in_app_iff in Hin; simpl in Hin;
          [destruct (_ <? _)%nat; simpl in Hin|];
          unfold SMSManager.sendSMS_settled in Hin; destruct ok;
          intuition discriminate.
      * intros _. cbn. rewrite <- Hm'. by destruct (Nat.eqb _ _).
Qed.

(** ** The start of the SMS session *)

Lemma processTranscript_sms_start cfg now speaker pid isHost text a :
  let r := AIAgent.processTranscript cfg now speaker pid isHost text a in
  let r0 := if isHost && negb (truthy (AIAgent.interviewerId a))
            then AIAgent.setInterviewer cfg now (Some speaker) pid a
            else (a, []) in
  calls_of k_sms_start (snd r) = calls_of k_sms_start (snd r0).
Proof.
  cbn zeta. unfold AIAgent.processTranscript.
  destruct (if _ && _ then _ else _) as [a1 o1]. cbn [fst snd].
  destruct (_ <=? _)%nat.
  - unfold AIAgent.analyzeBatch. destruct (Nat.eqb _ _); cbn [fst snd];
      rewrite calls_of_app; simpl; by rewrite app_nil_r.
  - cbn [fst snd]. rewrite calls_of_app. simpl. by rewrite app_nil_r.
Qed.

Lemma step_sms_start cfg now e m m' o :
  step cfg now e m = Some (m', o) ->
  calls_of k_sms_start o <> [] ->
  truthy (AIAgent.interviewerId (agent m)) = false
  /\ exists id, resolves_host e = Some id
                /\ AIAgent.interviewerId (agent m') = id.
Proof.
  intros H Hne.
  assert (Hno : forall ks, all_kind ks o -> ~ In k_sms_start ks -> False).
  { intros ks Hk Hn. by rewrite (all_kind_no _ _ _ Hk Hn) in Hne. }
  destruct e as [[speaker pid isHost text|name id|]|s]; cbn [step] in H.
  - assert (Hi : invoke cfg now
                   (call_processTranscript speaker pid isHost text) m = (m', o))
      by congruence.
    simpl in Hi.
    pose proof (processTranscript_sms_start cfg now speaker pid isHost text
                  (agent m)) as Hs.
    pose proof (processTranscript_setInterviewer cfg now speaker pid isHost text
                  (agent m)) as [_ Hid].
    pose proof (setInterviewer_starts cfg now (Some speaker) pid (agent m))
      as (_ & _ & Hset & Hkeep). cbn zeta in *.
    destruct (AIAgent.processTranscript _ _ _ _ _ _ _) as [a1 o1].
    injection Hi as <- <-. rewrite suspend_agent.
    cbn [fst snd agent set_agent] in *. rewrite Hs in Hne. rewrite Hid.
    destruct isHost; cbn [andb] in *; [|done].
    destruct (truthy (AIAgent.interviewerId (agent m))) eqn:Ht;
      cbn [negb] in *; [done|].
    split; [done|]. exists pid. split; [done|]. by apply Hset.
  - assert (Hi : invoke cfg now (call_setInterviewer name id) m = (m', o))
      by congruence.
    simpl in Hi.
    pose proof (setInterviewer_starts cfg now name id (agent m))
      as (_ & _ & Hset & Hkeep). cbn zeta in *.
    destruct (AIAgent.setInterviewer _ _ _ _ _) as [a1 o1] eqn:Hr.
    injection Hi as <- <-. rewrite suspend_agent.
    cbn [fst snd agent set_agent] in *.
    destruct (truthy (AIAgent.interviewerId (agent m))) eqn:Ht.
    + specialize (Hkeep eq_refl). injection Hkeep as -> ->. done.
    + split; [done|]. exists id. split; [done|]. by apply Hset.
  - exfalso. assert (Hi : invoke cfg now call_flushBuffer m = (m', o))
      by congruence.
    pose proof (invoke_flush_kind cfg now m) as Hk. rewrite Hi in Hk.
    eapply Hno; [exact Hk|]. simpl. intuition discriminate.
  - exfalso. eapply Hno; [exact (settle_kind _ _ _ _ _ _ H)|].
    simpl. intuition discriminate.
Qed.

(** X20. The SMS session is started with the host, and once.  The text
    messages that announce a session are sent only in a step that resolves
    the host while the agent has none; in a run whose host-attributed
    events carry truthy identifiers, at most one step sends them. *)
Theorem sms_session_started_once cfg es m0 m os :
  run cfg es m0 = Some (m, os) ->
  host_ids_truthy es ->
  length (List.filter starts_sms_session os) <= 1
  /\ forall now e m' o,
       step cfg now e m = Some (m', o) ->
       starts_sms_session o = true ->
       truthy (AIAgent.interviewerId (agent m)) = false
       /\ exists id, resolves_host e = Some id.
Proof.
  intros Hrun Hids. split.
  - assert (Hg : forall n0,
              n0 = 0 \/ (n0 <= 1
                         /\ truthy (AIAgent.interviewerId (agent m0)) = true) ->
              n0 + length (List.filter starts_sms_session os) <= 1);
      [|apply (Hg 0); by left].
    revert m0 os Hrun Hids.
    induction es as [|[now e] es IH]; intros m0 os H Hids n0 Hinv; simpl in H.
    + injection H as <- <-. simpl. lia.
    + destruct (step cfg now e m0) as [[m1 o]|] eqn:Hstep; [|done]. simpl in H.
      destruct (run cfg es m1) as [[m2 os2]|] eqn:Hrun; [|done].
      injection H as <- <-.
      apply Forall_cons in Hids as [Hid Hids]. cbn [snd] in Hid.
      destruct (step_thread_start _ _ _ _ _ _ Hstep) as (_ & _ & Hkeep).
      cbn [List.filter]. unfold starts_sms_session at 1.
      destruct (calls_of k_sms_start o) as [|c l] eqn:Hc; cbn.
      * apply (IH _ _ Hrun Hids).
        destruct Hinv as [->|[Hle Ht]]; [by left|].
        right. split; [done|]. by rewrite (Hkeep Ht).
      * destruct (step_sms_start _ _ _ _ _ _ Hstep) as (Hf & id & Hr & Him);
          [by rewrite Hc|].
        destruct Hinv as [->|[_ Ht]]; [|congruence].
        replace (0 + S (length (List.filter starts_sms_session os2)))
          with (1 + length (List.filter starts_sms_session os2)) by lia.
        apply (IH _ _ Hrun Hids). right. split; [lia|].
        rewrite Him. by apply Hid.
  - intros now e m' o Hstep Hs.
    destruct (step_sms_start _ _ _ _ _ _ Hstep) as (Hf & id & Hr & _).
    + unfold starts_sms_session in Hs. by destruct (calls_of k_sms_start o).
    + split; [done|]. by exists id.
Qed.

(** ** Naming the platform *)

Lemma prefix_spec sub s :
  String.prefix sub s = true <-> exists post, s = sub +:+ post.
Proof.
  revert s. induction sub as [|c sub IH]; intros s.
  - simpl. split; [|by destruct s]. intros _. by exists s.
  - destruct s as [|d s]; simpl.
    + split; [done|]. by intros [post ?].
    + destruct (Ascii.ascii_dec c d) as [->|Hne].
      * rewrite IH. split; intros [post Hp]; exists post.
        -- by rewrite Hp.
        -- by injection Hp.
      * split; [done|]. intros [post Hp]. injection Hp as ??. done.
Qed.

(** [str_includes] is containment. *)
Lemma str_includes_spec sub s :
  str_includes sub s = true <-> exists pre post, s = pre +:+ sub +:+ post.
Proof.
  induction s as [|c s IH]; cbn [str_includes].
  - rewrite orb_false_r, prefix_spec. split.
    + intros [post Hp]. by exists "", post.
    + intros (pre & post & Hp). destruct pre; [by exists post|done].
  - rewrite orb_true_iff, prefix_spec, IH. split.
    + intros [[post Hp]|(pre & post & Hp)].
      * by exists "", post.
      * exists (String c pre), post. simpl. by rewrite Hp.
    + intros (pre & post & Hp). destruct pre as [|d pre].
      * left. by exists post.
      * right. simpl in Hp. injection Hp as -> Hp. by exists pre, post.
Qed.

(** X21. The platform and the title of a meeting.  The two labels always
    belong together; a URL that contains [zoom.us] anywhere is a Zoom
    call, whatever else it contains; one that contains [meet.google.com]
    and not [zoom.us] is a Google Meet call; one that contains none of the
    three names is an unknown platform. *)
Theorem platform_and_title_agree url :
  In (AIAgent.detectPlatform url, AIAgent.extractMeetingTitle url)
    [("Zoom", "Zoom Sales Call"); ("Google Meet", "Google Meet Sales Call");
     ("Microsoft Teams", "Teams Sales Call"); ("Unknown Platform", "Sales Call")]
  /\ ((exists pre post, url = pre +:+ "zoom.us" +:+ post) <->
      AIAgent.detectPlatform url = "Zoom")
  /\ ((exists pre post, url = pre +:+ "meet.google.com" +:+ post)
      /\ ~ (exists pre post, url = pre +:+ "zoom.us" +:+ post) <->
      AIAgent.detectPlatform url = "Google Meet")
  /\ (AIAgent.detectPlatform url = "Unknown Platform" <->
      ~ (exists pre post, url = pre +:+ "zoom.us" +:+ post)
      /\ ~ (exists pre post, url = pre +:+ "meet.google.com" +:+ post)
      /\ ~ (exists pre post, url = pre +:+ "teams.microsoft.com" +:+ post)).
Proof.
  rewrite <- !str_includes_spec.
  unfold AIAgent.detectPlatform, AIAgent.extractMeetingTitle.
  destruct (str_includes "zoom.us" url);
    destruct (str_includes "meet.google.com" url);
    destruct (str_includes "teams.microsoft.com" url);
    simpl; intuition (auto; discriminate).
Qed.

Lemma buffered_lines_are_submitted_or_dropped_witness :
  let m := state_after cfg_all five_lines machine0 in
  let e := snd (says 6 false "We have no budget this quarter") in
  let m' := step_state cfg_all 6 e m in
  let o := step_outputs cfg_all 6 e m in
  let lines := AIAgent.transcriptBuffer (agent m) ++ pushed e in
  (AIAgent.transcriptBuffer (agent m') = lines /\ calls_of k_chat o = [])
  \/ (AIAgent.transcriptBuffer (agent m') = []
      /\ calls_of k_chat o
         = [chat_sendMessage (S (AIAgent.batchCount (agent m)))
              (String.concat newline lines)])
  \/ (AIAgent.transcriptBuffer (agent m') = []
      /\ calls_of k_chat o = []
      /\ exists b, e = Settle (chat_settled b chat_throws)).
Proof.
  refine (buffered_lines_are_submitted_or_dropped cfg_all 6
            (snd (says 6 false "We have no budget this quarter"))
            (state_after cfg_all five_lines machine0)
            (step_state cfg_all 6
               (snd (says 6 false "We have no budget this quarter"))
               (state_after cfg_all five_lines machine0))
            (step_outputs cfg_all 6
               (snd (says 6 false "We have no budget this quarter"))
               (state_after cfg_all five_lines machine0)) _).
  vm_compute; reflexivity.
Defined.

Lemma nudge_only_on_send_message_witness :
  AIAgent.lastCoachingTime
    (agent (step_state cfg_all 8 (Settle (chat_settled 1 (directive (JNum 8) "Bob")))
              (state_after cfg_all analysis_in_flight machine0)))
  = Some 8%Z.
Proof.
  refine (proj1 (proj2 (nudge_only_on_send_message cfg_all 8
                          (Settle (chat_settled 1 (directive (JNum 8) "Bob")))
                          (state_after cfg_all analysis_in_flight machine0)
                          (step_state cfg_all 8
                             (Settle (chat_settled 1 (directive (JNum 8) "Bob")))
                             (state_after cfg_all analysis_in_flight machine0))
                          (step_outputs cfg_all 8
                             (Settle (chat_settled 1 (directive (JNum 8) "Bob")))
                             (state_after cfg_all analysis_in_flight machine0))
                          _ _))).
  - vm_compute; reflexivity.
  - vm_compute; discriminate.
Defined.

Lemma delivered_summary_is_not_repeated_witness :
  snd (AIAgent.endSlack cfg_all 130000
         (agent (step_state cfg_all 120001
                   (Settle (slack_end_settled 0 true))
                   (state_after cfg_all late_thread_then_stop machine0))))
  = None.
Proof.
  refine (proj1 (proj1 (delivered_summary_is_not_repeated cfg_all 120001
                          (state_after cfg_all late_thread_then_stop machine0)
                          (step_state cfg_all 120001
                             (Settle (slack_end_settled 0 true))
                             (state_after cfg_all late_thread_then_stop machine0))
                          (step_outputs cfg_all 120001
                             (Settle (slack_end_settled 0 true))
                             (state_after cfg_all late_thread_then_stop machine0)))
                   0 true _) 130000%Z).
  vm_compute; reflexivity.
Defined.

Lemma sms_session_started_once_witness :
  length (List.filter starts_sms_session
            (outputs_after cfg_all nudge_dispatched machine0)) <= 1.
Proof.
  refine (proj1 (sms_session_started_once cfg_all nudge_dispatched machine0
                   (state_after cfg_all nudge_dispatched machine0)
                   (outputs_after cfg_all nudge_dispatched machine0) _ _)).
  - vm_compute; reflexivity.
  - repeat constructor; intros id H; vm_compute in H;
      try discriminate; injection H as <-; reflexivity.
Defined.

(** ** Calls and configuration *)

Section Configured.

Variable cfg : Config.
Variable botId : string.
Variable phones : list string.

Local Notation permitted := (Forall (allowed cfg botId phones)).

Lemma permitted_app (l1 l2 : list call) :
  permitted l1 -> permitted l2 -> permitted (l1 ++ l2).
Proof. apply Forall_app_2. Qed.

Lemma configured_slack s a :
  configured cfg botId phones a ->
  SlackThreadManager.channelId s = SLACK_CHANNEL_ID cfg ->
  configured cfg botId phones (AIAgent.with_slackThread (Some s) a).
Proof.
  intros (Hb & Hs & Hg) Hc. split; [done|]. split; [|done].
  intros s' [= <-]. done.
Qed.

Lemma configured_sms g a :
  configured cfg botId phones a ->
  SMSManager.phoneNumbers g = phones ->
  SMSManager.messagingServiceSid g = TWILIO_MESSAGING_SERVICE_SID cfg ->
  configured cfg botId phones (AIAgent.with_smsManager (Some g) a).
Proof.
  intros (Hb & Hs & Hg) Hp Hsid. split; [done|]. split; [done|].
  intros g' [= <-]. done.
Qed.

Lemma sendAll_ok g body :
  includes "SMS" (INTEGRATION_MODES cfg) = true ->
  twilioClient cfg = true ->
  SMSManager.phoneNumbers g = phones ->
  SMSManager.messagingServiceSid g = TWILIO_MESSAGING_SERVICE_SID cfg ->
  permitted (calls (SMSManager.sendAll g body)).
Proof.
  intros Hm Ht Hp Hsid. rewrite calls_sendAll. apply Forall_forall.
  intros c Hc. apply list_elem_of_In, in_map_iff in Hc as (to & <- & Hto).
  unfold twilioClient in Ht. apply andb_true_iff in Ht as [_ Ht].
  cbn. rewrite <- Hp. done.
Qed.

Lemma initializeSlackThread_ok now name a :
  includes "SLACK" (INTEGRATION_MODES cfg) = true ->
  configured cfg botId phones a ->
  configured cfg botId phones (fst (AIAgent.initializeSlackThread now name a))
  /\ permitted (calls (snd (AIAgent.initializeSlackThread now name a))).
Proof.
  intros Hm Ha. unfold AIAgent.initializeSlackThread.
  destruct (AIAgent.slackThread a) as [s|] eqn:Hs; [|by split].
  destruct (negb _); [|by split]. cbn [fst snd]. split.
  - apply configured_slack; [done|]. cbn. by apply Ha.
  - repeat constructor; [done|]. by apply Ha.
Qed.

Lemma setInterviewer_ok now name id a :
  configured cfg botId phones a ->
  configured cfg botId phones (fst (AIAgent.setInterviewer cfg now name id a))
  /\ permitted (calls (snd (AIAgent.setInterviewer cfg now name id a))).
Proof.
  intros Ha. unfold AIAgent.setInterviewer.
  destruct (negb _); [|by split].
  set (a1 := AIAgent.with_interviewer id name a).
  assert (Ha1 : configured cfg botId phones a1) by done.
  assert (H1 : configured cfg botId phones
                 (fst (if includes "SLACK" (INTEGRATION_MODES cfg)
                          && bool_decide (is_Some (AIAgent.slackThread a1))
                       then AIAgent.initializeSlackThread now name a1
                       else (a1, [])))
               /\ permitted (calls (snd (if includes "SLACK" (INTEGRATION_MODES cfg)
                                     && bool_decide
                                          (is_Some (AIAgent.slackThread a1))
                                  then AIAgent.initializeSlackThread now name a1
                                  else (a1, []))))).
  { destruct (includes "SLACK" _) eqn:Hm; cbn [andb]; [|by split].
    destruct (bool_decide _); [|by split].
    by apply initializeSlackThread_ok. }
  destruct (if _ && _ then _ else _) as [a2 o1]. cbn [fst snd] in H1.
  destruct H1 as [Ha2 Ho1].
  destruct (AIAgent.smsManager a2) as [g|] eqn:Hg;
    [|cbn [fst snd]; rewrite app_nil_r; by split].
  destruct (includes "SMS" _) eqn:Hm;
    [|cbn [fst snd]; rewrite app_nil_r; by split].
  destruct (proj2 (proj2 Ha2) g Hg) as [Hp Hsid].
  unfold SMSManager.startSession.
  destruct (negb (twilioClient cfg)) eqn:Ht; cbn [orb].
  { cbn [fst snd]. split; [by apply configured_sms|].
    rewrite calls_app. by apply permitted_app. }
  destruct (Nat.eqb _ _); cbn [fst snd].
  { split; [by apply configured_sms|]. rewrite calls_app. by apply permitted_app. }
  split; [by apply configured_sms|].
  rewrite calls_app. apply permitted_app; [done|].
  apply sendAll_ok; try done. by apply negb_false_iff.
Qed.

Lemma processTranscript_ok now speaker pid isHost text a :
  configured cfg botId phones a ->
  configured cfg botId phones
    (fst (AIAgent.processTranscript cfg now speaker pid isHost text a))
  /\ permitted (calls (snd (AIAgent.processTranscript cfg now speaker pid isHost
                       text a))).
Proof.
  intros Ha. unfold AIAgent.processTranscript.
  assert (H1 : configured cfg botId phones
                 (fst (if isHost && negb (truthy (AIAgent.interviewerId a))
                       then AIAgent.setInterviewer cfg now (Some speaker) pid a
                       else (a, [])))
               /\ permitted (calls (snd (if isHost
                                     && negb (truthy (AIAgent.interviewerId a))
                                  then AIAgent.setInterviewer cfg now
                                         (Some speaker) pid a
                                  else (a, []))))).
  { destruct (_ && _); [by apply setInterviewer_ok|by split]. }
  destruct (if _ && _ then _ else _) as [a1 o1]. cbn [fst snd] in H1.
  destruct H1 as [Ha1 Ho1].
  destruct (_ <=? _)%nat.
  - unfold AIAgent.analyzeBatch. destruct (Nat.eqb _ _); cbn [fst snd];
      (split; [done|]); rewrite calls_app; (apply permitted_app; [done|]);
      repeat constructor.
  - cbn [fst snd]. split; [done|]. rewrite calls_app.
    apply permitted_app; [done|constructor].
Qed.

Lemma toSlack_ok d a :
  configured cfg botId phones a ->
  configured cfg botId phones (fst (AIAgent.toSlack cfg d a))
  /\ permitted (calls (outs (snd (AIAgent.toSlack cfg d a)))).
Proof.
  intros Ha. unfold AIAgent.toSlack.
  destruct (AIAgent.slackThread a) as [s|] eqn:Hs; [|by split].
  destruct (includes "SLACK" _) eqn:Hm; [|by split].
  unfold SlackThreadManager.sendCoachingReply.
  destruct (negb _); cbn [fst snd outs default].
  - split; [|done]. apply configured_slack; [done|]. by apply Ha.
  - split.
    + apply configured_slack; [done|]. cbn. by apply Ha.
    + repeat constructor; [done|]. by apply Ha.
Qed.

Lemma toSMS_ok d a :
  configured cfg botId phones a ->
  configured cfg botId phones (fst (AIAgent.toSMS cfg d a))
  /\ permitted (calls (outs (snd (AIAgent.toSMS cfg d a)))).
Proof.
  intros Ha. unfold AIAgent.toSMS.
  destruct (AIAgent.smsManager a) as [g|] eqn:Hg; [|by split].
  destruct (includes "SMS" _) eqn:Hm; [|by split].
  destruct (proj2 (proj2 Ha) g Hg) as [Hp Hsid].
  unfold SMSManager.sendCoachingNudge.
  destruct (negb (twilioClient cfg)) eqn:Ht; cbn [orb].
  { cbn [fst snd outs default]. split; [|done]. by apply configured_sms. }
  destruct (Nat.eqb _ _ || _); cbn [fst snd outs default].
  { split; [|done]. by apply configured_sms. }
  split; [by apply configured_sms|].
  apply sendAll_ok; try done. by apply negb_false_iff.
Qed.

Lemma toZoom_ok msg a :
  configured cfg botId phones a ->
  permitted (calls (outs (AIAgent.toZoom cfg msg a))).
Proof.
  intros Ha. unfold AIAgent.toZoom.
  destruct (includes "ZOOM_DM" _) eqn:Hm; [|done].
  repeat constructor; [done|]. apply Ha.
Qed.

Lemma sendToAll_ok now msg rsn a :
  configured cfg botId phones a ->
  configured cfg botId phones (fst (AIAgent.sendToAll cfg now msg rsn a))
  /\ permitted (calls (AIAgent.sent_outputs (snd (AIAgent.sendToAll cfg now msg rsn a)))).
Proof.
  intros Ha. unfold AIAgent.sendToAll, AIAgent.sent_outputs. cbn [fst snd].
  set (a0 := AIAgent.with_lastCoachingTime (Some now) a).
  assert (Ha0 : configured cfg botId phones a0) by done.
  set (d := AIAgent.coachingData now msg rsn a0).
  destruct (toSlack_ok d a0 Ha0) as [H1 O1].
  destruct (toSMS_ok d _ H1) as [H2 O2].
  split; [done|]. cbn.
  rewrite !calls_app. apply permitted_app; [done|]. apply permitted_app; [|done].
  by apply toZoom_ok.
Qed.

Lemma analyzeBatch_settled_ok now r a :
  configured cfg botId phones a ->
  configured cfg botId phones (fst (fst (AIAgent.analyzeBatch_settled cfg now r a)))
  /\ permitted (calls (snd (fst (AIAgent.analyzeBatch_settled cfg now r a)))).
Proof.
  intros Ha. unfold AIAgent.analyzeBatch_settled.
  destruct r as [|name args|t]; [by split| |by split].
  destruct (String.eqb _ _); [|by split].
  destruct (truthy _); [|by split].
  pose proof (sendToAll_ok now (FunctionCall.message args)
                (FunctionCall.reason args) a Ha) as [H1 H2].
  destruct (AIAgent.sendToAll _ _ _ _ _) as [a' d]. by split.
Qed.

Lemma endAll_ok now a :
  configured cfg botId phones a ->
  configured cfg botId phones (fst (AIAgent.endAll cfg now a))
  /\ permitted (calls (AIAgent.ended_outputs (snd (AIAgent.endAll cfg now a)))).
Proof.
  intros Ha. unfold AIAgent.endAll, AIAgent.ended_outputs. cbn [fst snd].
  assert (H1 : configured cfg botId phones (fst (AIAgent.endSlack cfg now a))
               /\ permitted (calls (outs (snd (AIAgent.endSlack cfg now a))))).
  { unfold AIAgent.endSlack.
    destruct (AIAgent.slackThread a) as [s|] eqn:Hs; [|by split].
    destruct (includes "SLACK" _) eqn:Hm; cbn [andb]; [|by split].
    destruct (truthy _) eqn:Ht; [|by split].
    unfold SlackThreadManager.endSessionThread. rewrite Ht.
    cbn [negb fst snd outs default]. split.
    - apply configured_slack; [done|]. by apply Ha.
    - repeat constructor; [done|]. by apply Ha. }
  destruct H1 as [H1 O1].
  assert (H2 : configured cfg botId phones
                 (fst (AIAgent.endSMS cfg now (fst (AIAgent.endSlack cfg now a))))
               /\ permitted (calls (outs (snd (AIAgent.endSMS cfg now
                                          (fst (AIAgent.endSlack cfg now a))))))).
  { revert H1. generalize (fst (AIAgent.endSlack cfg now a)). intros a1 Ha1.
    unfold AIAgent.endSMS.
    destruct (AIAgent.smsManager a1) as [g|] eqn:Hg; [|by split].
    destruct (includes "SMS" _) eqn:Hm; cbn [andb]; [|by split].
    destruct (SMSManager.sessionActive g) eqn:Hact; [|by split].
    destruct (proj2 (proj2 Ha1) g Hg) as [Hp Hsid].
    unfold SMSManager.endSession.
    destruct (negb (twilioClient cfg)) eqn:Ht; cbn [orb].
    { cbn [fst snd outs default]. split; [|done]. by apply configured_sms. }
    destruct (Nat.eqb _ _ || _); cbn [fst snd outs default].
    { split; [|done]. by apply configured_sms. }
    split; [by apply configured_sms|].
    apply sendAll_ok; try done. by apply negb_false_iff. }
  destruct H2 as [H2 O2]. split; [done|].
  rewrite calls_app. by apply permitted_app.
Qed.

Lemma flushBuffer_rest_ok now f m :
  configured cfg botId phones (agent m) ->
  configured cfg botId phones (agent (fst (flushBuffer_rest cfg now f m)))
  /\ permitted (calls (snd (flushBuffer_rest cfg now f m))).
Proof.
  intros Ha. unfold flushBuffer_rest.
  pose proof (endAll_ok now (agent m) Ha) as [H1 H2].
  destruct (AIAgent.endAll cfg now (agent m)) as [a e]. cbn [fst snd] in *.
  assert (Hf : calls (AIAgent.flushBuffer_ended
                        (AIAgent.ended_platforms e)) = [])
    by apply calls_flushBuffer_ended.
  destruct (has_call (outs (AIAgent.sms_end e)));
    destruct (EndJoin.settled _); cbn [fst snd agent set_agent set_smsEnds
                                        set_flushes EndJoin.platforms];
    (split; [done|]); rewrite ?calls_app, ?Hf, ?app_nil_r; try done;
    by rewrite app_nil_r.
Qed.

Lemma resume_ok now k m :
  configured cfg botId phones (agent m) ->
  configured cfg botId phones (agent (fst (resume cfg now k m)))
  /\ permitted (calls (snd (resume cfg now k m))).
Proof. destruct k; [by split|apply flushBuffer_rest_ok]. Qed.

Lemma join_ok now b j m o :
  configured cfg botId phones (agent m) -> permitted (calls o) ->
  configured cfg botId phones (agent (fst (join cfg now b j m o)))
  /\ permitted (calls (snd (join cfg now b j m o))).
Proof.
  intros Ha Ho. unfold join. destruct (Join.settled j); [|by split].
  pose proof (resume_ok now (Join.caller_ j) (set_sends (delete b (sends m)) m) Ha)
    as [H1 H2].
  destruct (resume _ _ _ _) as [m' o']. cbn [fst snd] in *.
  split; [done|]. rewrite !calls_app. apply permitted_app; [done|]. by apply permitted_app.
Qed.

Lemma end_join_ok f j m o :
  configured cfg botId phones (agent m) -> permitted (calls o) ->
  configured cfg botId phones (agent (fst (end_join f j m o)))
  /\ permitted (calls (snd (end_join f j m o))).
Proof.
  intros Ha Ho. unfold end_join. destruct (EndJoin.settled j); [|by split].
  cbn [fst snd agent set_flushes]. split; [done|].
  rewrite !calls_app, calls_flushBuffer_ended. cbn. by rewrite app_nil_r.
Qed.

Lemma invoke_ok now c m :
  configured cfg botId phones (agent m) ->
  configured cfg botId phones (agent (fst (invoke cfg now c m)))
  /\ permitted (calls (snd (invoke cfg now c m))).
Proof.
  intros Ha. destruct c as [speaker pid isHost text|name id|].
  - cbn [invoke].
    pose proof (processTranscript_ok now speaker pid isHost text (agent m) Ha)
      as [H1 H2].
    destruct (AIAgent.processTranscript _ _ _ _ _ _ _) as [a o].
    cbn [fst snd]. by rewrite suspend_agent.
  - cbn [invoke].
    pose proof (setInterviewer_ok now name id (agent m) Ha) as [H1 H2].
    destruct (AIAgent.setInterviewer _ _ _ _ _) as [a o].
    cbn [fst snd]. by rewrite suspend_agent.
  - destruct (AIAgent.transcriptBuffer (agent m)) as [|l ls] eqn:Hbuf.
    + rewrite invoke_flush_empty by done. by apply flushBuffer_rest_ok.
    + rewrite invoke_flush_nonempty by (rewrite Hbuf; done).
      cbn [fst snd agent set_chats set_agent]. split; [done|].
      repeat constructor.
Qed.

Lemma settle_ok now s m m' o :
  settle cfg now s m = Some (m', o) ->
  configured cfg botId phones (agent m) ->
  configured cfg botId phones (agent m') /\ permitted (calls o).
Proof.
  intros H Ha.
  assert (Hsms : forall a i b, permitted (calls [SMSManager.sendSMS_settled (phone a i) b])).
  { intros a i b. unfold SMSManager.sendSMS_settled. by destruct b. }
  destruct s as [batch r|r|batch b|batch r|batch i b|flush b|flush i b];
    simpl in H.
  - destruct (chats m !! batch) as [k|]; [|done]. simpl in H.
    pose proof (analyzeBatch_settled_ok now r (agent m) Ha) as [H1 H2].
    destruct (AIAgent.analyzeBatch_settled _ _ _ _) as [[a o0] d].
    cbn [fst snd] in *. destruct d as [d|].
    + match type of H with
      | Some (join ?c ?n ?b ?j ?m1 ?o1) = _ =>
          assert (Hm1 : configured cfg botId phones (agent m1))
            by (by destruct (has_call (outs (AIAgent.sms d))));
          pose proof (join_ok n b j m1 o1 Hm1 H2) as Hj
      end.
      injection H as H. by rewrite H in Hj.
    + pose proof (resume_ok now k
                    (set_agent a (set_chats (delete batch (chats m)) m)) H1)
        as [H3 H4].
      destruct (resume _ _ _ _) as [m2 o2]. injection H as <- <-.
      split; [done|]. rewrite calls_app. by apply permitted_app.
  - destruct (slackStarts m); [done|].
    unfold AIAgent.initializeSlackThread_settled in H.
    destruct (AIAgent.slackThread (agent m)) as [t|] eqn:Ht.
    + unfold SlackThreadManager.startSessionThread_settled in H.
      destruct r; injection H as <- <-; (split; [|done]);
        cbn [agent set_agent set_slackStarts];
        (apply configured_slack; [done|]);
        cbn [SlackThreadManager.channelId]; by apply Ha.
    + by injection H as <- <-.
  - destruct (sends m !! batch) as [j|]; [|done]. simpl in H.
    destruct (Join.slack j); [|done].
    match type of H with
    | Some (join ?c ?n ?b ?j ?m1 ?o1) = _ =>
        assert (Ho : permitted (calls o1));
        [|pose proof (join_ok n b j m1 o1 Ha Ho) as Hj;
          injection H as H; by rewrite H in Hj]
    end.
    destruct (AIAgent.slackThread (agent m)); [|done].
    unfold SlackThreadManager.sendCoachingReply_settled. by destruct b.
  - destruct (sends m !! batch) as [j|]; [|done]. simpl in H.
    destruct (Join.zoom j); [|done].
    match type of H with
    | Some (join ?c ?n ?b ?j ?m1 ?o1) = _ =>
        assert (Ho : permitted (calls o1));
        [|pose proof (join_ok n b j m1 o1 Ha Ho) as Hj;
          injection H as H; by rewrite H in Hj]
    end.
    by destruct r.
  - destruct (smsNudges m !! batch) as [p|]; [|done]. simpl in H.
    destruct (PromiseAll.settle i b p) as [[p' all]|]; [|done]. simpl in H.
    specialize (Hsms (agent m) i b).
    destruct all as [ok_all|]; [|by injection H as <- <-].
    match type of H with
    | context [sends ?m1 !! batch] => destruct (sends m1 !! batch) as [j|]
    end; [|by injection H as <- <-].
    match type of H with
    | context [AIAgent.smsManager ?a1] =>
        destruct (AIAgent.smsManager a1) as [mgr|]
    end; [|by injection H as <- <-].
    match type of H with
    | Some (join ?c ?n ?b ?j ?m1 ?o1) = _ =>
        assert (Ho : permitted (calls o1));
        [|pose proof (join_ok n b j m1 o1 Ha Ho) as Hj;
          injection H as H; by rewrite H in Hj]
    end.
    unfold SMSManager.sendSMS_settled, SMSManager.sendCoachingNudge_settled.
    by destruct b, ok_all.
  - destruct (flushes m !! flush) as [j|]; [|done]. simpl in H.
    destruct (EndJoin.slack j); [|done].
    destruct (AIAgent.slackThread (agent m)) as [t|] eqn:Ht; [|done].
    unfold SlackThreadManager.endSessionThread_settled in H.
    destruct b.
    + match type of H with
      | Some (end_join ?f ?j ?m1 ?o1) = _ =>
          assert (Hm1 : configured cfg botId phones (agent m1));
          [|pose proof (end_join_ok f j m1 o1 Hm1 ltac:(done)) as Hj;
            injection H as H; by rewrite H in Hj]
      end.
      cbn [agent set_agent]. apply configured_slack; [done|].
      cbn [SlackThreadManager.channelId]. by apply Ha.
    + match type of H with
      | Some (end_join ?f ?j ?m1 ?o1) = _ =>
          assert (Hm1 : configured cfg botId phones (agent m1));
          [|pose proof (end_join_ok f j m1 o1 Hm1 ltac:(done)) as Hj;
            injection H as H; by rewrite H in Hj]
      end.
      cbn [agent set_agent]. apply configured_slack; [done|].
      cbn [SlackThreadManager.channelId]. by apply Ha.
  - destruct (smsEnds m !! flush) as [p|]; [|done]. simpl in H.
    destruct (PromiseAll.settle i b p) as [[p' all]|]; [|done]. simpl in H.
    specialize (Hsms (agent m) i b).
    destruct all as [ok_all|]; [|by injection H as <- <-].
    match type of H with
    | context [flushes ?m1 !! flush] => destruct (flushes m1 !! flush) as [j|]
    end; [|by injection H as <- <-].
    match type of H with
    | context [AIAgent.smsManager ?a1] =>
        destruct (AIAgent.smsManager a1) as [mgr|] eqn:Hmgr
    end; [|by injection H as <- <-].
    assert (Hmgr' : AIAgent.smsManager (agent m) = Some mgr)
      by (by destruct (Nat.eqb _ _)).
    destruct (proj2 (proj2 Ha) mgr Hmgr') as [Hp Hsid].
    unfold SMSManager.endSession_settled in H.
    destruct ok_all.
    + match type of H with
      | Some (end_join ?f ?j ?m1 ?o1) = _ =>
          assert (Hm1 : configured cfg botId phones (agent m1));
          [|assert (Ho : permitted (calls o1));
            [|pose proof (end_join_ok f j m1 o1 Hm1 Ho) as Hj;
              injection H as H; by rewrite H in Hj]]
      end.
      * cbn [agent set_agent]. apply configured_sms; [|done..].
        by destruct (Nat.eqb _ _).
      * unfold SMSManager.sendSMS_settled. by destruct b.
    + match type of H with
      | Some (end_join ?f ?j ?m1 ?o1) = _ =>
          assert (Hm1 : configured cfg botId phones (agent m1));
          [|assert (Ho : permitted (calls o1));
            [|pose proof (end_join_ok f j m1 o1 Hm1 Ho) as Hj;
              injection H as H; by rewrite H in Hj]]
      end.
      * cbn [agent set_agent]. apply configured_sms; [|done..].
        by destruct (Nat.eqb _ _).
      * unfold SMSManager.sendSMS_settled. by destruct b.
Qed.

Lemma constructor_configured now url :
  configured cfg botId phones (AIAgent.constructor cfg now botId url phones).
Proof.
  split; [done|]. split; cbn.
  - intros s. destruct (_ && _); [|done]. by intros [= <-].
  - intros g. destruct (_ && _ && _); [|done]. by intros [= <-].
Qed.

Lemma run_ok es m0 m os :
  run cfg es m0 = Some (m, os) ->
  configured cfg botId phones (agent m0) ->
  configured cfg botId phones (agent m) /\ permitted (calls (concat os)).
Proof.
  revert m0 os. induction es as [|[now e] es IH]; intros m0 os H Ha; simpl in H.
  - injection H as <- <-. by split.
  - destruct (step cfg now e m0) as [[m1 o]|] eqn:Hstep; [|done]. simpl in H.
    destruct (run cfg es m1) as [[m2 os2]|] eqn:Hrun; [|done]. simpl in H.
    injection H as <- <-.
    assert (H1 : configured cfg botId phones (agent m1) /\ permitted (calls o)).
    { destruct e as [c|s]; cbn [step] in Hstep.
      - pose proof (invoke_ok now c m0 Ha) as Hi.
        injection Hstep as Hstep. by rewrite Hstep in Hi.
      - by eapply settle_ok. }
    destruct H1 as [H1 H2]. destruct (IH _ _ Hrun H1) as [H3 H4].
    split; [done|]. cbn [concat]. rewrite calls_app. by apply permitted_app.
Qed.

End Configured.

(** X22. Calls go where the configuration says, and nowhere else.  In
    every run of the agent constructed for a bot with a list of phone
    numbers, every call is one the configuration allows: a message is
    posted to Slack only in Slack mode and only on the configured channel;
    a text is sent only in SMS mode with credentials, from the configured
    messaging service, and only to a number of the list; a direct message
    is sent only in Zoom mode and through the agent's own bot; and the
    agent never asks for a bot to be deleted. *)
Theorem calls_respect_configuration cfg now0 botId url phones es m os :
  run cfg es (new_machine (AIAgent.constructor cfg now0 botId url phones))
  = Some (m, os) ->
  Forall (allowed cfg botId phones) (calls (concat os)).
Proof.
  intros H.
  apply (run_ok cfg botId phones _ _ _ _ H).
  apply constructor_configured.
Qed.

Lemma calls_respect_configuration_witness :
  Forall (allowed cfg_all "bot-1" ["+15550001"; "+15550002"])
    (calls (concat (outputs_after cfg_all nudge_dispatched machine0))).
Proof.
  refine (calls_respect_configuration cfg_all 0 "bot-1" "https://zoom.us/j/1"
            ["+15550001"; "+15550002"] nudge_dispatched
            (state_after cfg_all nudge_dispatched machine0)
            (outputs_after cfg_all nudge_dispatched machine0) _).
  vm_compute; reflexivity.
Defined.

(** ** The batcher over whole runs *)

Lemma step_held cfg now e m m' o :
  step cfg now e m = Some (m', o) ->
  batcher_ok (agent m) ->
  AIAgent.transcriptBuffer (agent m')
  = held_after (AIAgent.transcriptBuffer (agent m)) e.
Proof.
  intros H [Hs Hl]. pose proof (step_batch _ _ _ _ _ _ H) as Hb.
  cbn zeta in Hb. destruct Hb as [_ Hb].
  destruct e as [[speaker pid isHost text|name id|]|s]; cbn [held_after].
  - rewrite Hs in Hb. cbn zeta.
    destruct (6 <=? _)%nat eqn:Hle; destruct Hb as [-> _].
    + apply Nat.leb_le in Hle. rewrite length_app in *. simpl in *.
      replace (length (AIAgent.transcriptBuffer (agent m)) + 1 =? 6)%nat
        with true; [done|].
      symmetry. apply Nat.eqb_eq. lia.
    + apply Nat.leb_gt in Hle.
      replace (length (AIAgent.transcriptBuffer (agent m)
                       ++ [AIAgent.line isHost speaker text]) =? 6)%nat
        with false; [done|].
      symmetry. apply Nat.eqb_neq. lia.
  - by destruct Hb.
  - by destruct Hb.
  - cbn [step] in H. destruct (is_failed_analysis s) eqn:Hf.
    + destruct s as [b [| |]| | | | | |]; try done.
      simpl in H. destruct (chats m !! b) as [k|]; [|done]. simpl in H.
      set (m1 := set_agent _ _) in H.
      pose proof (resume_batcher cfg now k m1) as (Hbuf & _).
      destruct (resume cfg now k m1) as [m2 o2]. cbn [fst] in Hbuf.
      injection H as <- <-. by rewrite Hbuf.
    + rewrite (settle_kept same_buffer (fun a => eq_refl) same_buffer_trans
                 (fun s a => eq_refl) (fun s a => eq_refl) (fun x a => eq_refl)
                 _ _ _ _ _ _ H Hf).
      by destruct s as [b [| |]| | | | | |].
Qed.

Lemma run_held cfg es m0 m os :
  run cfg es m0 = Some (m, os) ->
  batcher_ok (agent m0) ->
  AIAgent.transcriptBuffer (agent m)
  = foldl (fun buf x => held_after buf (snd x))
      (AIAgent.transcriptBuffer (agent m0)) es.
Proof.
  revert m0 os. induction es as [|[now e] es IH]; intros m0 os H Hok;
    simpl in H.
  - by injection H as <- <-.
  - destruct (step cfg now e m0) as [[m1 o]|] eqn:Hstep; [|done]. simpl in H.
    destruct (run cfg es m1) as [[m2 os2]|] eqn:Hrun; [|done].
    injection H as <- <-. cbn [foldl snd].
    rewrite <- (step_held _ _ _ _ _ _ Hstep Hok).
    apply (IH _ _ Hrun). by eapply step_batcher_ok.
Qed.

(** C2 (as stated) fails: after the only batch, six more lines are
    ingested and no second batch is emitted, because the failure of the
    first analysis empties the buffer when it holds three of them; those
    three are never submitted. *)
Lemma six_events_without_emission :
  exists m os,
    run cfg_all failure_between_lines machine0 = Some (m, os)
    /\ length (calls_of k_chat (concat (take 6 os))) = 1
    /\ length (ingested (drop 6 failure_between_lines)) = 6
    /\ calls_of k_chat (concat (drop 6 os)) = []
    /\ AIAgent.transcriptBuffer (agent m)
       = ingested (drop 10 failure_between_lines).
Proof.
  exists (state_after cfg_all failure_between_lines machine0),
    (outputs_after cfg_all failure_between_lines machine0).
  vm_compute. auto.
Qed.

(** C2 (as amended).  In every run of an agent, whatever the interleaving
    of transcripts, settlements and flushes: the buffer is that of a batcher
    of window 6 which, besides emitting, is emptied by every flush and by
    every failed analysis, so it holds the lines ingested since the last of
    these, in ingestion order and fewer than 6 of them; a transcript event
    issues an analyze call if and only if its line brings the lines held to
    exactly 6, the batch being these lines in order and the buffer left
    empty; a flush submits whatever the buffer holds and leaves it empty; no
    other event issues an analyze call. *)
Theorem batch_emitted_iff_buffer_full cfg now0 botId url phones es m os
    now e m' o :
  run cfg es (new_machine (AIAgent.constructor cfg now0 botId url phones))
  = Some (m, os) ->
  step cfg now e m = Some (m', o) ->
  let buf := AIAgent.transcriptBuffer (agent m) in
  let n := S (AIAgent.batchCount (agent m)) in
  buf = held es
  /\ (exists older, ingested es = older ++ buf)
  /\ length buf < 6
  /\ match e with
     | Invoke (call_processTranscript speaker pid isHost text) =>
         let batch := buf ++ [AIAgent.line isHost speaker text] in
         if decide (length batch = 6) then
           calls_of k_chat o = [chat_sendMessage n (String.concat newline batch)]
           /\ AIAgent.transcriptBuffer (agent m') = []
         else
           calls_of k_chat o = []
           /\ AIAgent.transcriptBuffer (agent m') = batch
     | Invoke call_flushBuffer =>
         calls_of k_chat o
         = match buf with
           | [] => []
           | _ => [chat_sendMessage n (String.concat newline buf)]
           end
         /\ AIAgent.transcriptBuffer (agent m') = []
     | _ => calls_of k_chat o = []
     end.
Proof.
  intros Hrun Hstep buf n. split.
  - exact (run_held _ _ _ _ _ Hrun (constructor_batcher_ok _ _ _ _ _)).
  - exact (batcher_in_runs _ _ _ _ _ _ _ _ _ _ _ _ Hrun Hstep).
Qed.

Lemma batch_emitted_iff_buffer_full_witness :
  AIAgent.transcriptBuffer (agent (state_after cfg_all five_lines machine0))
  = held five_lines.
Proof.
  refine (proj1 (batch_emitted_iff_buffer_full cfg_all 0 "bot-1"
                   "https://zoom.us/j/1" ["+15550001"; "+15550002"]
                   five_lines
                   (state_after cfg_all five_lines machine0)
                   (outputs_after cfg_all five_lines machine0) 6
                   (snd (says 6 false "We have no budget this quarter"))
                   (step_state cfg_all 6
                      (snd (says 6 false "We have no budget this quarter"))
                      (state_after cfg_all five_lines machine0))
                   (step_outputs cfg_all 6
                      (snd (says 6 false "We have no budget this quarter"))
                      (state_after cfg_all five_lines machine0))
                   _ _));
    vm_compute; reflexivity.
Defined.
